(** * Innovations4U: the staged LLM calls, their retry loops and prompt builders

    A shallow embedding of the Python sources

    - [MarketResearchAnalysis.py]  (class [InnovationMarketResearcher]),
    - [ExecutionPlanGenerator.py]  (class [ExecutionPlanGenerator]),
    - [StrategicAnalyzer.py]       (class [StrategicAnalyzer]),
    - [Chatbot.py] and the stage runners and input gate of [app.py].

    The remote text-generation service, the wall clock and the file system
    are oracles collected in an environment [env]; the calls made to the
    service and the suspensions of the run are logged, in order, in the
    [trace] of a [world] that the code threads through a state-and-exception
    monad.  Python dictionaries are finite maps from strings to Python
    values.

    Conventions of the embedding:
    - a Python [str] is a [string]; one [ascii] stands for one character, so
      [String.length] is [len] and [slice_to n s] is [s[:n]];
    - the progress messages the stage functions [print] are left out (the
      chatbot's console output is kept, being its only result);
    - [await asyncio.sleep(d)] is the event [ESleep d]: one run is one
      sequential thread of control;
    - the API key handed to the [Groq] client is left out: no call depends
      on it;
    - a value that the client gives as a [str] or as [None] (the text of a
      completion, and what the code stores of it) is an [option string],
      and an attribute that an object may lack, or have with the value
      [None], is an [attribute];
    - the arguments that the code takes from the console, from a file or
      from a text field are strings. *)

From Stdlib Require Import ZArith QArith String Ascii.
From stdpp Require Import base option gmap strings pretty list fin_maps.

#[local] Set Warnings "-register-all".
#[local] Open Scope string_scope.
#[local] Open Scope list_scope.
#[local] Open Scope nat_scope.

(** ** Python values and strings *)

Module Py.

(** The values stored in the result dictionaries. *)
Inductive pyval : Type :=
| VNone
| VStr (s : string)
| VInt (z : Z)
| VList (l : list pyval)
| VDict (d : gmap string pyval).

(** A text the client gives, as a Python value: a [str], or [None]. *)
Definition of_text (text : option string) : pyval :=
  match text with
  | Some s => VStr s
  | None => VNone
  end.

(** A double quote, spliced into the string literals that contain one. *)
Definition dq : string := String (ascii_of_nat 34) EmptyString.

(** [s[:n]] for a non-negative [n]: the first [n] characters of [s], the
    whole of [s] when it has fewer. *)
Fixpoint slice_to (n : nat) (s : string) : string :=
  match n, s with
  | S n', String c s' => String c (slice_to n' s')
  | _, _ => EmptyString
  end.

(** [str(n)] of an integer, as f-strings format it. *)
Definition str_of_nat (n : nat) : string := pretty n.

(** Truth value of an optional string argument: [None] and [""] are
    false. *)
Definition truthy (o : option string) : bool :=
  match o with
  | None => false
  | Some s => negb (String.eqb s "")
  end.

(** Whitespace as [str.strip] and [str.isspace] see it, on the characters
    below 128: tab, line feed, vertical tab, form feed, carriage return,
    the four separators 28..31 and the space. *)
Definition is_space (c : ascii) : bool :=
  let n := nat_of_ascii c in
  ((9 <=? n)%nat && (n <=? 13)%nat) || ((28 <=? n)%nat && (n <=? 32)%nat).

Fixpoint lstrip (s : string) : string :=
  match s with
  | String c s' => if is_space c then lstrip s' else s
  | EmptyString => EmptyString
  end.

Fixpoint rstrip (s : string) : string :=
  match s with
  | String c s' =>
      match rstrip s' with
      | EmptyString => if is_space c then EmptyString else String c EmptyString
      | t => String c t
      end
  | EmptyString => EmptyString
  end.

(** [s.strip()] *)
Definition strip (s : string) : string := rstrip (lstrip s).

Definition lower_char (c : ascii) : ascii :=
  let n := nat_of_ascii c in
  if (65 <=? n)%nat && (n <=? 90)%nat then ascii_of_nat (n + 32) else c.

(** [s.lower()] on the characters below 128. *)
Fixpoint lower (s : string) : string :=
  match s with
  | String c s' => String (lower_char c) (lower s')
  | EmptyString => EmptyString
  end.

(** A string all of whose characters are whitespace (the empty string
    included): what is left empty by [strip]. *)
Fixpoint all_space (s : string) : bool :=
  match s with
  | String c s' => is_space c && all_space s'
  | EmptyString => true
  end.

End Py.
Export Py.

(** ** The backend, the clock, the console and the monad of the code *)

Module World.

(** Classes of the errors the [groq] client raises; every one of them
    derives from [Exception]. *)
Inductive api_error_class : Type :=
| RateLimitError
| APITimeoutError
| APIConnectionError
| AuthenticationError
| BadRequestError
| OtherAPIError.

(** Exceptions that reach the code: an error of the client with its
    message, the end of the console input, a missing file, another
    failure to read a file, and the two exceptions the code itself raises
    on a value that is [None]: [AttributeError] where it reads an
    attribute of it, [TypeError] where it slices it. *)
Inductive exn : Type :=
| APIError (c : api_error_class) (msg : string)
| EOFError
| FileNotFoundError (msg : string)
| OSError (msg : string)
| AttributeError (msg : string)
| TypeError (msg : string).

(** [str(e)] *)
Definition str_of_exn (e : exn) : string :=
  match e with
  | APIError _ msg => msg
  | EOFError => ""
  | FileNotFoundError msg => msg
  | OSError msg => msg
  | AttributeError msg => msg
  | TypeError msg => msg
  end.

(** [None[:n]] *)
Definition none_not_subscriptable : exn :=
  TypeError "'NoneType' object is not subscriptable".

(** [None.name] *)
Definition none_has_no_attribute (name : string) : exn :=
  AttributeError ("'NoneType' object has no attribute '" +:+ name +:+ "'").

(** [except RateLimitError] *)
Definition is_RateLimitError (e : exn) : bool :=
  match e with
  | APIError RateLimitError _ => true
  | _ => false
  end.

(** [except FileNotFoundError] *)
Definition is_FileNotFoundError (e : exn) : bool :=
  match e with
  | FileNotFoundError _ => true
  | _ => false
  end.

(** [except (EOFError, KeyboardInterrupt)]; no interrupt is modelled. *)
Definition is_EOFError (e : exn) : bool :=
  match e with
  | EOFError => true
  | _ => false
  end.

(** An attribute the code reads with [getattr] and a default or guards
    with [hasattr]: the object has no such attribute, or has it with the
    value [None] (what the client gives for an optional field that the
    backend left out), or has it with a value. *)
Inductive attribute (A : Type) : Type :=
| Absent
| IsNone
| Has (a : A).
Arguments Absent {A}.
Arguments IsNone {A}.
Arguments Has {A} a.

(** [completion.choices[0].message]: the generated text, a [str] or
    [None], and the two attributes read with [getattr] and a default. *)
Record message : Type := {
  content : option string;
  executed_tools : attribute (list pyval);
  reasoning : attribute string;
}.

(** What the code reads of a completion: the message of its first choice
    ([completion.choices[0].message]; a completion has one) and its
    attribute [usage], [Has n] for a usage whose [total_tokens] is [n]. *)
Record completion : Type := {
  choice0 : message;
  usage : attribute Z;
}.

(** The arguments of [client.chat.completions.create]. *)
Record request : Type := {
  model : string;
  messages : list (string * string);
  temperature : Q;
  max_tokens : Z;
  top_p : option Q;
  stream : option bool;
}.

Inductive outcome : Type :=
| Completed (c : completion)
| Failed (c : api_error_class) (msg : string).

Inductive event : Type :=
| ECall (r : request)
| ESleep (seconds : Z).

Inductive file_result : Type :=
| FileContent (s : string)
| FileMissing
| FileUnreadable (msg : string).

(** The oracles of a run: [create n r] is what the backend answers to the
    request [r] when [n] calls came before it; [isoformat_now n] is
    [datetime.now().isoformat()] read when [n] events are logged;
    [files p] is what [open(p).read()] gives. *)
Record env : Type := {
  create : nat → request → outcome;
  isoformat_now : nat → string;
  files : string → file_result;
}.

Record world : Type := {
  trace : list event;
  stdin : list string;
  stdout : list string;
}.

Definition world0 : world := {| trace := []; stdin := []; stdout := [] |}.

Definition log (e : event) (w : world) : world :=
  {| trace := trace w ++ [e]; stdin := stdin w; stdout := stdout w |}.

Definition call_of (e : event) : option request :=
  match e with
  | ECall r => Some r
  | ESleep _ => None
  end.

Definition sleep_of (e : event) : option Z :=
  match e with
  | ESleep s => Some s
  | ECall _ => None
  end.

(** The requests sent to the backend, in order. *)
Definition calls (w : world) : list request := omap call_of (trace w).

(** The suspensions of the run, in order. *)
Definition sleeps (w : world) : list Z := omap sleep_of (trace w).

(** Number of backend calls made so far. *)
Definition ncalls (w : world) : nat := length (calls w).

Inductive result (A : Type) : Type :=
| Returned (a : A)
| Raised (e : exn).
Arguments Returned {A} a.
Arguments Raised {A} e.

(** Computations of the code: they read and extend the world and either
    return or raise. *)
Definition M (A : Type) : Type := world → result A * world.

#[export] Instance M_ret : MRet M := λ A a w, (Returned a, w).

#[export] Instance M_bind : MBind M := λ A B f m w,
  match m w with
  | (Returned a, w') => f a w'
  | (Raised e, w') => (Raised e, w')
  end.

#[export] Instance M_fmap : FMap M := λ A B f m, a ← m; mret (f a).

Definition raise {A : Type} (e : exn) : M A := λ w, (Raised e, w).

(** [try: body  except ... as e: handler e]; a handler that matches no
    clause raises [e] again. *)
Definition try_except {A : Type} (body : M A) (handler : exn → M A) : M A := λ w,
  match body w with
  | (Returned a, w') => (Returned a, w')
  | (Raised e, w') => handler e w'
  end.

(** [for i in range: body i], then [orelse] once the range is used up;
    [body i] gives [Some v] where the loop body executes [return v] and
    [None] where it falls through to the next iteration. *)
Fixpoint for_range {A : Type} (range : list nat) (body : nat → M (option A))
    (orelse : M A) : M A :=
  match range with
  | [] => orelse
  | i :: rest =>
      r ← body i;
      match r with
      | Some v => mret v
      | None => for_range rest body orelse
      end
  end.

(** [getattr(obj, name, default)] as a Python value. *)
Definition getattr {A : Type} (a : attribute A) (value : A → pyval) (fallback : pyval)
    : pyval :=
  match a with
  | Absent => fallback
  | IsNone => VNone
  | Has x => value x
  end.

(** [completion.usage.total_tokens if hasattr(completion, 'usage') else
    None]: [hasattr] holds of a usage that is [None], whose
    [total_tokens] is then read. *)
Definition total_tokens (c : completion) : M pyval :=
  match usage c with
  | Absent => mret VNone
  | IsNone => raise (none_has_no_attribute "total_tokens")
  | Has n => mret (VInt n)
  end.

(** [message.content.strip()] *)
Definition stripped_content (m : message) : M string :=
  match content m with
  | Some text => mret (strip text)
  | None => raise (none_has_no_attribute "strip")
  end.

Section Operations.
Variable E : env.

(** [client.chat.completions.create(...)] *)
Definition create_completion (r : request) : M completion := λ w,
  match create E (ncalls w) r with
  | Completed c => (Returned c, log (ECall r) w)
  | Failed cls msg => (Raised (APIError cls msg), log (ECall r) w)
  end.

(** [await asyncio.sleep(seconds)] *)
Definition sleep (seconds : Z) : M unit := λ w, (Returned tt, log (ESleep seconds) w).

(** [datetime.now().isoformat()] *)
Definition now_isoformat : M string := λ w,
  (Returned (isoformat_now E (length (trace w))), w).

(** [input(...)]: the next line of the console, [EOFError] at its end. *)
Definition input : M string := λ w,
  match stdin w with
  | [] => (Raised EOFError, w)
  | l :: ls => (Returned l, {| trace := trace w; stdin := ls; stdout := stdout w |})
  end.

(** [print(s)] *)
Definition print (s : string) : M unit := λ w,
  (Returned tt, {| trace := trace w; stdin := stdin w; stdout := stdout w ++ [s] |}).

(** [with open(path, 'r', encoding='utf-8') as f: f.read()] *)
Definition read_file (path : string) : M string := λ w,
  match files E path with
  | FileContent s => (Returned s, w)
  | FileMissing => (Raised (FileNotFoundError path), w)
  | FileUnreadable msg => (Raised (OSError msg), w)
  end.

End Operations.

End World.
Export World.

(** ** MarketResearchAnalysis.py *)

Module MarketResearchAnalysis.

(** [self.model] *)
Definition model : string := "groq/compound".

Definition get_universal_market_research_prompt (user_idea : string) : string :=
"You are an expert market research analyst. Your task is to conduct a comprehensive analysis for a new business idea using REAL-TIME web search.

**USER IDEA**: " +:+
  user_idea +:+
  "

**CRITICAL INSTRUCTIONS**:
You MUST use your web search capabilities to find current, real-time data. Prioritize information from the last 12-18 months.

**REQUIRED WEB SEARCHES**:
- Search for " +:+
  dq +:+
  user_idea +:+
  " market size and growth 2024 2025" +:+
  dq +:+
  "
- Search for " +:+
  dq +:+
  "top competitors for " +:+
  user_idea +:+
  dq +:+
  "
- Search for " +:+
  dq +:+
  "latest trends in the " +:+
  user_idea +:+
  " industry" +:+
  dq +:+
  "
- Search for " +:+
  dq +:+
  "venture capital funding in " +:+
  user_idea +:+
  " startups" +:+
  dq +:+
  "
- Search for " +:+
  dq +:+
  "customer needs and pain points for " +:+
  user_idea +:+
  dq +:+
  "

**REQUIRED ANALYSIS STRUCTURE**:
Based on your web search, provide a detailed report covering these core areas:

1.  **Market Overview & Opportunity**: Analyze the market size (TAM, SAM, SOM), growth rate, key trends, and primary drivers.
2.  **Target Audience**: Define the primary and secondary customer segments, their pain points, and buying behaviors.
3.  **Competitive Landscape**: Identify direct and indirect competitors, their recent activities, strengths, and weaknesses. Use real company names.
4.  **Business Model & Revenue**: Suggest viable revenue streams, pricing strategies, and monetization models based on successful examples.
5.  **Market Validation**: Assess current market demand, timing, and the regulatory environment.
6.  **Risks & Challenges**: Outline potential market, competitive, and execution risks.
7.  **Success Factors & Recommendations**: Conclude with critical success factors, strategic recommendations, and potential innovation opportunities.

**OUTPUT REQUIREMENTS**:
- Be data-driven. Include specific statistics, company names, and funding amounts from your search results.
- Cite sources with URLs where possible.
- Provide a confident, expert-level analysis.

Begin your comprehensive market research now:".

Definition system_prompt : string :=
  "You are a world-class market research analyst with REAL-TIME web search. You must use your search capabilities to gather current data and provide a comprehensive, data-driven analysis with actionable insights. Cite your sources.".

(** The arguments of the call in [analyze_market_opportunity]. *)
Definition request_of (research_prompt : string) : request :=
  {| World.model := model;
     messages := [("system", system_prompt); ("user", research_prompt)];
     temperature := 7 # 10;
     max_tokens := 8000;
     top_p := Some (9 # 10);
     stream := Some false |}.

Definition max_retries : nat := 3.
Definition retry_delay : Z := 61.

Section WithEnv.
Variable E : env.

(** The dictionary returned after a completion; [total_tokens] is the
    value of [completion.usage.total_tokens if hasattr(completion,
    'usage') else None]. *)
Definition success_dict (user_idea : string) (completion : World.completion)
    (timestamp : string) (total_tokens : pyval) : gmap string pyval :=
  let analysis_result := of_text (content (choice0 completion)) in
  let web_search_data := getattr (executed_tools (choice0 completion)) VList (VList []) in
  let reasoning_data := getattr (reasoning (choice0 completion)) VStr (VStr "") in
  list_to_map
    [ ("user_idea", VStr user_idea);
      ("analysis_timestamp", VStr timestamp);
      ("model_used", VStr model);
      ("market_research_analysis", analysis_result);
      ("web_search_data", web_search_data);
      ("reasoning_process", reasoning_data);
      ("analysis_metadata", VDict (list_to_map
         [ ("total_tokens", total_tokens);
           ("analysis_depth", VStr "comprehensive_with_real_web_search");
           ("web_searches_performed",
             VInt (match web_search_data with
                   | VList (_ :: _ as tools) => Z.of_nat (length tools)
                   | _ => 0
                   end)) ])) ].

Definition analyze_market_opportunity (user_idea : string) : M (gmap string pyval) :=
  let research_prompt := get_universal_market_research_prompt user_idea in
  for_range (seq 0 max_retries)
    (λ attempt,
      try_except
        (completion ← create_completion E (request_of research_prompt);
         timestamp ← now_isoformat E;
         total_tokens ← total_tokens completion;
         mret (Some (success_dict user_idea completion timestamp total_tokens)))
        (λ e,
          if is_RateLimitError e then
            if (attempt <? max_retries - 1)%nat then
              sleep retry_delay;; mret None
            else
              let error_message :=
                "Analysis failed after " +:+ str_of_nat max_retries +:+
                " attempts due to persistent rate limiting." in
              mret (Some (list_to_map
                [ ("error", VStr error_message); ("details", VStr (str_of_exn e)) ]))
          else
            let error_message :=
              "An unexpected error occurred during analysis: " +:+ str_of_exn e in
            mret (Some (list_to_map [ ("error", VStr error_message) ]))))
    (mret (list_to_map [ ("error", VStr "Analysis failed after all retries.") ])).

End WithEnv.

End MarketResearchAnalysis.

(** ** ExecutionPlanGenerator.py *)

Module ExecutionPlanGenerator.

(** [self.compound_model] and [self.reasoning_model] *)
Definition compound_model : string := "groq/compound".
Definition reasoning_model : string := "openai/gpt-oss-120b".

Definition get_web_research_prompt (user_idea market_report : string) : string :=
"You are a business strategy researcher. Use your web search capabilities to find current, real-world implementation strategies for a business idea.

**USER IDEA**: " +:+
  user_idea +:+
  "

**MARKET CONTEXT (Summary)**: " +:+
  slice_to 1500 market_report +:+
  "...

**CRITICAL WEB SEARCH TASKS**:
- Search for case studies of similar successful startups.
- Search for typical resource requirements (funding, team size).
- Search for common technology stacks and development timelines.
- Search for key regulatory hurdles and compliance needs.
- Search for common challenges and pitfalls to avoid.

**OUTPUT REQUIREMENTS**:
Provide a concise research summary with actionable data. Include company names, realistic timelines, funding estimates, and key challenges. Organize findings into clear sections for execution planning.

Begin web research now:".

Definition get_execution_planning_prompt
    (user_idea market_report web_research_data : string) : string :=
"You are a world-class business strategist. Create a comprehensive, step-by-step execution plan using chain-of-thought reasoning.

**USER IDEA**: " +:+
  user_idea +:+
  "

**MARKET CONTEXT (Summary)**:
" +:+
  slice_to 1500 market_report +:+
  "

**WEB RESEARCH FINDINGS (Summary)**:
" +:+
  slice_to 2000 web_research_data +:+
  "

**CHAIN-OF-THOUGHT INSTRUCTIONS**:
For each phase of the plan, briefly explain your reasoning, covering the objective, key steps, deliverables, and potential risks.

**REQUIRED EXECUTION PLAN STRUCTURE**:
Create a multi-phase plan covering the first 24 months. Each phase should include objectives, key actions, deliverables, and required resources.

-   **Executive Summary**: Vision, success metrics, timeline, and key milestones.
-   **Phase 1: Foundation & Prep (Months 1-3)**: Legal, team, financial, and market intelligence setup.
-   **Phase 2: Product Development (Months 2-8)**: MVP strategy, development, and beta testing.
-   **Phase 3: Market Validation (Months 6-12)**: Initial launch, customer acquisition, and achieving product-market fit.
-   **Phase 4: Scaling Operations (Months 10-18)**: Building scalable operations, partnerships, and infrastructure.
-   **Phase 5: Growth & Expansion (Months 16-24)**: Scaling marketing, sales, and market reach.
-   **Risk Management**: Outline key market, operational, and financial risks and mitigation strategies.
-   **Resource Summary**: High-level overview of human, financial, and tech resources needed.

**OUTPUT REQUIREMENTS**:
- Be detailed, specific, and actionable.
- Use data from the market and web research to support your recommendations.

Begin your chain-of-thought execution planning now:".

Definition research_system_prompt : string :=
  "You are a business strategy researcher with real-time web search. Find current implementation strategies, case studies, and resource requirements for the user's idea.".

Definition planning_system_prompt : string :=
  "You are a world-class business strategist. Use chain-of-thought reasoning to create comprehensive, actionable execution plans based on the provided research.".

(** The arguments of the call in [research_execution_strategies]. *)
Definition research_request (research_prompt : string) : request :=
  {| World.model := compound_model;
     messages := [("system", research_system_prompt); ("user", research_prompt)];
     temperature := 6 # 10;
     max_tokens := 6000;
     top_p := None;
     stream := Some false |}.

(** The arguments of the call in [generate_execution_plan]. *)
Definition planning_request (planning_prompt : string) : request :=
  {| World.model := reasoning_model;
     messages := [("system", planning_system_prompt); ("user", planning_prompt)];
     temperature := 7 # 10;
     max_tokens := 8000;
     top_p := Some (9 # 10);
     stream := Some false |}.

Definition max_retries : nat := 3.
Definition retry_delay : Z := 61.

(** [web_research.get('research_data', '')] for a dictionary that
    [research_execution_strategies] returned: a [str], or [None] for the
    Python [None] of a completion without text.  Such a dictionary holds no
    other value under the key (lemma [research_data_is_text]). *)
Definition research_data_of (web_research : gmap string pyval) : option string :=
  match web_research !! "research_data" with
  | None => Some ""
  | Some (VStr text) => Some text
  | Some (VNone | VInt _ | VList _ | VDict _) => None
  end.

Section WithEnv.
Variable E : env.

Definition research_execution_strategies (user_idea market_report : string)
    : M (gmap string pyval) :=
  let research_prompt := get_web_research_prompt user_idea market_report in
  for_range (seq 0 max_retries)
    (λ attempt,
      try_except
        (completion ← create_completion E (research_request research_prompt);
         timestamp ← now_isoformat E;
         mret (Some (list_to_map
           [ ("research_data", of_text (content (choice0 completion)));
             ("timestamp", VStr timestamp) ])))
        (λ e,
          if is_RateLimitError e then
            if (attempt <? max_retries - 1)%nat then
              sleep retry_delay;; mret None
            else
              let error_message :=
                "Web research failed after " +:+ str_of_nat max_retries +:+
                " attempts due to persistent rate limiting." in
              mret (Some (list_to_map
                [ ("error", VStr error_message);
                  ("details", VStr (str_of_exn e));
                  ("research_data", VStr "Not available.") ]))
          else
            let error_message :=
              "An unexpected error occurred during web research: " +:+ str_of_exn e in
            mret (Some (list_to_map
              [ ("error", VStr error_message);
                ("research_data", VStr "Not available.") ]))))
    (mret (list_to_map
      [ ("error", VStr "Web research failed after all retries.");
        ("research_data", VStr "Not available.") ])).

(** The planning call of [generate_execution_plan], on a research text
    that is a [str]: one [try] around one call, no loop. *)
Definition planning_call (user_idea market_report research_data : string)
    : M (gmap string pyval) :=
  let planning_prompt :=
    get_execution_planning_prompt user_idea market_report research_data in
  try_except
    (completion ← create_completion E (planning_request planning_prompt);
     timestamp ← now_isoformat E;
     mret (list_to_map
       [ ("user_idea", VStr user_idea);
         ("market_report", VStr market_report);
         ("web_research_summary", VStr research_data);
         ("execution_plan", of_text (content (choice0 completion)));
         ("generation_timestamp", VStr timestamp) ]))
    (λ e,
      mret (list_to_map
        [ ("error", VStr ("Execution planning failed: " +:+ str_of_exn e)) ])).

(** What [generate_execution_plan] does once the web research returned:
    the prompt is built before the [try], and its slice
    [web_research_data[:2000]] raises on a research text that is
    [None]. *)
Definition plan_from_research (user_idea market_report : string)
    (research_data : option string) : M (gmap string pyval) :=
  match research_data with
  | Some research_data => planning_call user_idea market_report research_data
  | None => raise none_not_subscriptable
  end.

Definition generate_execution_plan (user_idea market_report : option string)
    : M (gmap string pyval) :=
  user_idea ← (if truthy user_idea then mret (default "" user_idea) else input);
  market_report ← (if truthy market_report then mret (default "" market_report) else input);
  web_research ← research_execution_strategies user_idea market_report;
  plan_from_research user_idea market_report (research_data_of web_research).

End WithEnv.

End ExecutionPlanGenerator.

(** ** StrategicAnalyzer.py *)

Module StrategicAnalyzer.

(** [self.model] *)
Definition model : string := "openai/gpt-oss-120b".

Definition get_strategic_analysis_prompt
    (user_idea market_report execution_plan : string) : string :=
"You are a world-class business strategist and competitive intelligence expert with 30+ years of experience analyzing business opportunities and creating differentiation strategies. Your task is to conduct a comprehensive strategic analysis of this business idea.

**BUSINESS IDEA**: " +:+
  user_idea +:+
  "

**MARKET RESEARCH CONTEXT**:
" +:+
  slice_to 2500 market_report +:+
  "

**EXECUTION PLAN CONTEXT**:
" +:+
  slice_to 2500 execution_plan +:+
  "

**STRATEGIC ANALYSIS FRAMEWORK**:
Analyze this business opportunity through multiple strategic lenses and provide actionable insights for competitive advantage.

**REQUIRED ANALYSIS SECTIONS**:

## 1. COMPREHENSIVE POSITIVE ANALYSIS

### 1.1 MARKET OPPORTUNITIES
- **Market Timing Advantages**: Why now is the right time for this idea
- **Market Size & Growth Potential**: Quantitative opportunities and growth drivers
- **Customer Pain Point Solutions**: Specific problems this idea solves better than alternatives
- **Market Gap Exploitation**: Underserved segments and white space opportunities
- **Technology Convergence**: How emerging technologies favor this approach
- **Regulatory Tailwinds**: Favorable policy and regulatory trends

### 1.2 COMPETITIVE ADVANTAGES
- **First-Mover Advantages**: Early market entry benefits
- **Unique Value Proposition**: Distinctive benefits over existing solutions
- **Network Effects**: Potential for viral growth and network value
- **Economies of Scale**: Cost advantages at scale
- **Barrier Creation Potential**: Ways to build competitive moats
- **Strategic Asset Development**: Valuable resources and capabilities to build

### 1.3 EXECUTION STRENGTHS
- **Resource Efficiency**: Lean approaches and capital efficiency
- **Implementation Feasibility**: Realistic and achievable execution plan
- **Risk Mitigation**: Well-planned risk management strategies
- **Scalability Design**: Built-in scaling mechanisms
- **Partnership Potential**: Strategic alliance opportunities
- **Technology Advantages**: Technical superiority and innovation

### 1.4 FINANCIAL UPSIDE
- **Revenue Diversification**: Multiple revenue stream opportunities
- **High Margin Potential**: Path to strong profitability
- **Asset-Light Model**: Low capital requirements for growth
- **Recurring Revenue**: Subscription and recurring income potential
- **Exit Opportunities**: Acquisition and IPO potential
- **Investment Attractiveness**: Appeal to investors and funding sources

## 2. COMPREHENSIVE NEGATIVE ANALYSIS & RISKS

### 2.1 MARKET CHALLENGES
- **Market Maturity Risks**: Potential market saturation and declining growth
- **Customer Adoption Barriers**: Obstacles to customer acceptance and usage
- **Market Education Needs**: Cost and time to educate market about solution
- **Seasonal/Cyclical Risks**: Business cycle and seasonal demand variations
- **Market Fragmentation**: Difficulty in capturing significant market share
- **Regulatory Uncertainty**: Potential adverse regulatory changes

### 2.2 COMPETITIVE THREATS
- **Incumbent Advantage**: Established players' response capabilities
- **Big Tech Entry**: Risk of major technology companies entering market
- **Low Barrier to Entry**: Easy replication by competitors
- **Substitute Solutions**: Alternative approaches that could displace the idea
- **Price Competition**: Potential race to the bottom on pricing
- **Patent/IP Risks**: Intellectual property challenges and litigation risks

### 2.3 EXECUTION VULNERABILITIES
- **Resource Constraints**: Funding, talent, and capability gaps
- **Technical Complexity**: Development and implementation challenges
- **Scaling Difficulties**: Operational challenges in rapid growth
- **Quality Control**: Maintaining standards during expansion
- **Key Person Dependencies**: Over-reliance on specific individuals
- **Timeline Optimism**: Potential delays and execution setbacks

### 2.4 FINANCIAL RISKS
- **High Customer Acquisition Cost**: Expensive marketing and sales requirements
- **Long Payback Periods**: Extended time to profitability
- **Cash Flow Challenges**: Working capital and burn rate issues
- **Unit Economics**: Difficulty achieving positive unit economics
- **Market Price Pressure**: Downward pressure on pricing and margins
- **Investment Requirements**: Higher than expected capital needs

### 2.5 STRATEGIC VULNERABILITIES
- **Platform Dependency**: Over-reliance on third-party platforms
- **Supply Chain Risks**: Disruption in key suppliers or partners
- **Technology Obsolescence**: Risk of technical approach becoming outdated
- **Talent Competition**: Difficulty attracting and retaining key talent
- **Geographic Limitations**: Challenges in global expansion
- **Regulatory Compliance**: Ongoing compliance costs and complexity

## 3. STRATEGIC MODIFICATIONS FOR COMPETITIVE ADVANTAGE

### 3.1 PRODUCT DIFFERENTIATION STRATEGIES
**Enhanced Features & Capabilities**:
- **Unique Feature Additions**: Specific features competitors don't offer
- **Superior User Experience**: UX/UI improvements for competitive advantage
- **Advanced Analytics**: AI/ML capabilities for better insights
- **Integration Capabilities**: Seamless connectivity with popular tools
- **Customization Options**: Flexible configuration for different use cases
- **Performance Optimization**: Speed, reliability, and efficiency improvements

**Technology Innovation**:
- **Emerging Technology Integration**: AR/VR, blockchain, IoT applications
- **AI/ML Enhancement**: Machine learning for predictive capabilities
- **Mobile-First Design**: Optimized mobile experience
- **Cloud-Native Architecture**: Scalable, distributed system design
- **API-First Approach**: Ecosystem-friendly integration strategy
- **Security Enhancement**: Advanced security and privacy features

### 3.2 BUSINESS MODEL INNOVATIONS
**Revenue Model Optimization**:
- **Hybrid Revenue Streams**: Combining subscription, transaction, and advertising
- **Freemium Strategy**: Free tier with premium upgrade path
- **Usage-Based Pricing**: Pay-per-use or consumption-based models
- **Marketplace Model**: Platform connecting buyers and sellers
- **Data Monetization**: Leveraging data insights for additional revenue
- **Partnership Revenue**: Revenue sharing with strategic partners

**Value Chain Repositioning**:
- **Vertical Integration**: Controlling more of the value chain
- **Platform Strategy**: Becoming the platform others build on
- **Ecosystem Creation**: Building network of complementary services
- **White-Label Offering**: Licensing solution to other companies
- **Consulting Services**: High-margin advisory services addition
- **Training & Certification**: Educational revenue streams

### 3.3 GO-TO-MARKET DIFFERENTIATION
**Customer Acquisition Innovation**:
- **Community-Driven Growth**: Building engaged user communities
- **Viral Mechanisms**: Built-in sharing and referral features
- **Content Marketing**: Thought leadership and educational content
- **Partnership Channels**: Strategic distribution partnerships
- **Direct Sales Excellence**: High-touch enterprise sales approach
- **Digital Marketing Mastery**: Advanced SEO, SEM, and social strategies

**Customer Success Differentiation**:
- **Onboarding Excellence**: Best-in-class customer onboarding experience
- **Success Management**: Proactive customer success programs
- **Support Innovation**: AI-powered support and self-service options
- **Training Programs**: Comprehensive user education and certification
- **Community Building**: User forums and peer-to-peer support
- **Feedback Loops**: Continuous product improvement based on user input

### 3.4 OPERATIONAL EXCELLENCE MODIFICATIONS
**Process Innovation**:
- **Automation Strategy**: Automated workflows and processes
- **Quality Systems**: Six Sigma or similar quality management
- **Agile Development**: Rapid iteration and continuous deployment
- **Data-Driven Operations**: Analytics for operational optimization
- **Remote-First Operations**: Distributed team optimization
- **Sustainability Focus**: Environmental and social responsibility

**Strategic Positioning**:
- **Niche Domination**: Becoming the leader in a specific segment
- **Premium Positioning**: Higher-quality, higher-price strategy
- **Cost Leadership**: Lowest-cost provider strategy
- **Innovation Leadership**: Continuous innovation and R&D investment
- **Customer Intimacy**: Deep customer relationships and customization
- **Ecosystem Orchestration**: Coordinating network of partners

## 4. COMPETITIVE DIFFERENTIATION STRATEGIES

### 4.1 IMMEDIATE DIFFERENTIATION (0-6 months)
**Quick Wins**:
- **Feature Gaps**: Address specific gaps in competitor offerings
- **User Experience**: Superior design and usability
- **Customer Service**: Exceptional support and responsiveness
- **Pricing Strategy**: Competitive pricing with better value
- **Marketing Messaging**: Clear, compelling value proposition
- **Partnership Announcements**: Strategic partnerships for credibility

### 4.2 MEDIUM-TERM DIFFERENTIATION (6-18 months)
**Competitive Moats**:
- **Network Effects**: Building user network that creates value
- **Data Advantages**: Proprietary data sets and insights
- **Brand Building**: Strong brand recognition and loyalty
- **Talent Acquisition**: Attracting top talent in the industry
- **Technology Leadership**: Advanced technical capabilities
- **Customer Lock-in**: Switching costs and integration depth

### 4.3 LONG-TERM DIFFERENTIATION (18+ months)
**Sustainable Advantages**:
- **Innovation Pipeline**: Continuous R&D and new product development
- **Market Ecosystem**: Becoming central to industry ecosystem
- **Global Expansion**: International market presence
- **Acquisition Strategy**: Strategic acquisitions for capability building
- **Platform Evolution**: Evolution from product to platform
- **Industry Standards**: Setting or influencing industry standards

## 5. IMPLEMENTATION PRIORITIZATION

### 5.1 HIGH-IMPACT, LOW-EFFORT MODIFICATIONS
**Immediate Actions** (implement within 30 days):
- [List specific modifications that can be implemented quickly]

### 5.2 HIGH-IMPACT, HIGH-EFFORT MODIFICATIONS  
**Strategic Initiatives** (6-12 month projects):
- [List major strategic changes requiring significant investment]

### 5.3 INNOVATION EXPERIMENTS
**Future Opportunities** (research and pilot projects):
- [List experimental approaches to test and validate]

## 6. SUCCESS METRICS & MONITORING

### 6.1 Competitive Position Metrics
- Market share growth vs competitors
- Brand recognition and sentiment
- Customer acquisition cost vs competitors
- Customer lifetime value comparison
- Feature comparison scores
- Innovation pipeline strength

### 6.2 Differentiation Effectiveness Metrics
- Unique value proposition recognition
- Price premium capability
- Customer switching rates (churn)
- Net promoter score vs competitors
- Media and analyst recognition
- Partnership quality and quantity

## 7. STRATEGIC RECOMMENDATIONS SUMMARY

**TOP 5 POSITIVE FACTORS TO LEVERAGE**:
1. [Specific positive factor with action plan]
2. [Specific positive factor with action plan]
3. [Specific positive factor with action plan]
4. [Specific positive factor with action plan]
5. [Specific positive factor with action plan]

**TOP 5 CRITICAL RISKS TO MITIGATE**:
1. [Specific risk with mitigation strategy]
2. [Specific risk with mitigation strategy]
3. [Specific risk with mitigation strategy]
4. [Specific risk with mitigation strategy]
5. [Specific risk with mitigation strategy]

**TOP 5 DIFFERENTIATION OPPORTUNITIES**:
1. [Specific differentiation with implementation approach]
2. [Specific differentiation with implementation approach]
3. [Specific differentiation with implementation approach]
4. [Specific differentiation with implementation approach]
5. [Specific differentiation with implementation approach]

**STRATEGIC DECISION FRAMEWORK**:
- Investment priority matrix
- Risk tolerance guidelines
- Competitive response protocols
- Innovation investment allocation
- Partnership evaluation criteria

**NEXT STEPS & ACTION ITEMS**:
- Immediate actions (next 30 days)
- Short-term initiatives (3-6 months)
- Long-term strategic projects (12+ months)
- Continuous monitoring requirements
- Review and update schedule

**OUTPUT REQUIREMENTS**:
- Be extremely specific and actionable
- Include quantitative estimates where possible
- Provide clear implementation timelines
- Consider resource requirements for each recommendation
- Address both offensive (growth) and defensive (protection) strategies
- Balance innovation with execution practicality
- Consider different scenarios (optimistic, realistic, pessimistic)

Begin your comprehensive strategic analysis now:".

Definition system_prompt : string :=
  "You are a world-class business strategist and competitive intelligence expert. Provide comprehensive strategic analysis with specific, actionable recommendations for competitive advantage and differentiation. Be detailed, analytical, and practical in your recommendations.".

(** The arguments of the call in [analyze_strategy]. *)
Definition request_of (analysis_prompt : string) : request :=
  {| World.model := model;
     messages := [("system", system_prompt); ("user", analysis_prompt)];
     temperature := 8 # 10;
     max_tokens := 8000;
     top_p := Some (9 # 10);
     stream := Some false |}.

Definition swot_prompt (user_idea : string) : string :=
"Conduct SWOT analysis for: " +:+
  user_idea +:+
  "

**STRENGTHS** (Internal Positive Factors):
- List 5 key internal advantages and capabilities

**WEAKNESSES** (Internal Negative Factors):  
- List 5 key internal limitations and challenges

**OPPORTUNITIES** (External Positive Factors):
- List 5 key market opportunities and external factors

**THREATS** (External Negative Factors):
- List 5 key competitive and market threats

For each factor, provide brief explanation and strategic implication.
Keep concise but actionable (under 1000 words).".

(** The arguments of the call in [quick_swot_analysis]. *)
Definition swot_request (user_idea : string) : request :=
  {| World.model := model;
     messages := [("user", swot_prompt user_idea)];
     temperature := 7 # 10;
     max_tokens := 1500;
     top_p := None;
     stream := None |}.

Definition max_retries : nat := 3.
Definition retry_delay : Z := 61.

(** [text[:500] + "..." if len(text) > 500 else text] *)
Definition summary (text : string) : string :=
  if bool_decide (500 < String.length text) then slice_to 500 text +:+ "..." else text.

(** [while True: line = input(); if line == "": break; lines.append(line)]
    on the lines left on the console; the second component is what is
    left of them afterwards, [None] first when the console ended before
    an empty line. *)
Fixpoint paste_lines (console lines : list string) : option (list string) * list string :=
  match console with
  | [] => (None, [])
  | line :: rest =>
      if String.eqb line "" then (Some lines, rest) else paste_lines rest (lines ++ [line])
  end.

(** ["\n".join(lines)] *)
Definition join_lines (lines : list string) : string :=
  String.concat (String (ascii_of_nat 10) EmptyString) lines.

(** The dictionary returned after a completion; [total_tokens] is the
    value of [completion.usage.total_tokens if hasattr(completion,
    'usage') else None]. *)
Definition success_dict (user_idea market_report execution_plan : string)
    (completion : World.completion) (timestamp : string) (total_tokens : pyval)
    : gmap string pyval :=
  let strategic_analysis := of_text (content (choice0 completion)) in
  list_to_map
    [ ("user_idea", VStr user_idea);
      ("market_report_summary", VStr (summary market_report));
      ("execution_plan_summary", VStr (summary execution_plan));
      ("strategic_analysis", strategic_analysis);
      ("analysis_timestamp", VStr timestamp);
      ("model_used", VStr model);
      ("analysis_type", VStr "comprehensive_strategic_analysis");
      ("analysis_metadata", VDict (list_to_map
         [ ("total_tokens", total_tokens);
           ("analysis_depth", VStr "comprehensive_strategic_differentiation");
           ("analysis_framework", VStr "positive_negative_differentiation_analysis") ])) ].

Section WithEnv.
Variable E : env.

Definition read_pasted : M string := λ w,
  match paste_lines (stdin w) [] with
  | (Some lines, rest) =>
      (Returned (join_lines lines),
       {| trace := trace w; stdin := rest; stdout := stdout w |})
  | (None, rest) =>
      (Raised EOFError, {| trace := trace w; stdin := rest; stdout := stdout w |})
  end.

(** The console dialogue that asks for a report not given as an
    argument; [fallback] is the text used when the file cannot be
    read. *)
Definition ask_report (fallback : string) : M string :=
  choice ← strip <$> input;
  if String.eqb choice "1" then read_pasted
  else
    file_path ← input;
    try_except (read_file E file_path) (λ _, mret fallback).

(** The part of [analyze_strategy] that follows the resolution of its
    arguments: the prompt and the retry loop.  The loop has no [return]
    after it: where it ended without one the function would return
    [None]. *)
Definition run_analysis (user_idea market_report execution_plan : string)
    : M (option (gmap string pyval)) :=
  let analysis_prompt :=
    get_strategic_analysis_prompt user_idea market_report execution_plan in
  for_range (seq 0 max_retries)
    (λ attempt,
      try_except
        (completion ← create_completion E (request_of analysis_prompt);
         timestamp ← now_isoformat E;
         total_tokens ← total_tokens completion;
         mret (Some (Some
           (success_dict user_idea market_report execution_plan completion timestamp
              total_tokens))))
        (λ e,
          if is_RateLimitError e then
            if (attempt <? max_retries - 1)%nat then
              sleep retry_delay;; mret None
            else
              timestamp ← now_isoformat E;
              mret (Some (Some (list_to_map
                [ ("error", VStr ("Strategic analysis failed after multiple retries: "
                                   +:+ str_of_exn e));
                  ("user_idea", VStr user_idea);
                  ("timestamp", VStr timestamp) ])))
          else
            timestamp ← now_isoformat E;
            mret (Some (Some (list_to_map
              [ ("error", VStr ("Strategic analysis failed: " +:+ str_of_exn e));
                ("user_idea", VStr user_idea);
                ("timestamp", VStr timestamp) ])))))
    (mret None).

Definition analyze_strategy (user_idea market_report execution_plan : option string)
    : M (option (gmap string pyval)) :=
  user_idea ← (if truthy user_idea then mret (default "" user_idea) else input);
  market_report ←
    (if truthy market_report then mret (default "" market_report)
     else ask_report "Market research not available");
  execution_plan ←
    (if truthy execution_plan then mret (default "" execution_plan)
     else ask_report "Execution plan not available");
  run_analysis user_idea market_report execution_plan.

(** What it returns is the text of the completion, a [str] or [None], or
    the text of the failure. *)
Definition quick_swot_analysis (user_idea : string) : M (option string) :=
  try_except
    (completion ← create_completion E (swot_request user_idea);
     mret (content (choice0 completion)))
    (λ e, mret (Some ("SWOT analysis failed: " +:+ str_of_exn e))).

End WithEnv.

End StrategicAnalyzer.

(** ** Chatbot.py *)

Module Chatbot.

Definition model : string := "openai/gpt-oss-120b".

(** The line feed of the string literals. *)
Definition nl : string := String (ascii_of_nat 10) EmptyString.

Definition build_prompt (mr ep sa question : string) : string :=
"
You are an expert innovation agent assistant. Answer the user's question using ONLY the information
from the following three reports. Provide a clear, concise answer.

--- MARKET RESEARCH REPORT ---
" +:+
  mr +:+
  "

--- EXECUTION PLAN REPORT ---
" +:+
  ep +:+
  "

--- STRATEGIC ANALYSIS REPORT ---
" +:+
  sa +:+
  "

--- USER QUESTION ---
" +:+
  question +:+
  "
".

(** The arguments of the call in [main]. *)
Definition request_of (prompt : string) : request :=
  {| World.model := model;
     messages := [("system", "You are a helpful innovation agent assistant.");
                  ("user", prompt)];
     temperature := 7 # 10;
     max_tokens := 800;
     top_p := Some (9 # 10);
     stream := Some false |}.

Section WithEnv.
Variable E : env.

Definition load_report (path : string) : M string :=
  try_except (read_file E path)
    (λ e,
      if is_FileNotFoundError e then mret ("[[REPORT NOT FOUND: " +:+ path +:+ "]]")
      else raise e).

(** One question: the prompt is built, the backend is called once, the
    answer or the error is printed; the [.strip()] of a completion without
    text raises inside the [try]. *)
Definition answer_question (mr ep sa question : string) : M unit :=
  let prompt := build_prompt mr ep sa question in
  try_except
    (response ← create_completion E (request_of prompt);
     answer ← stripped_content (choice0 response);
     print (nl +:+ answer +:+ nl))
    (λ e, print ("Error: " +:+ str_of_exn e)).

(** Number of lines left on the console. *)
Definition console_left : M nat := λ w, (Returned (length (stdin w)), w).

(** The [while True] loop of [main]; every iteration that does not
    leave the loop reads one line, so [fuel] above the number of lines
    left on the console is never used up. *)
Fixpoint chat_loop (fuel : nat) (mr ep sa : string) : M unit :=
  match fuel with
  | O => mret tt
  | S fuel' =>
      question ←
        try_except (Some <$> (strip <$> input))
          (λ e, if is_EOFError e then print (nl +:+ "Exiting.");; mret None
                else raise e);
      match question with
      | None => mret tt
      | Some question =>
          if String.eqb question "" || String.eqb (lower question) "exit"
             || String.eqb (lower question) "quit"
          then print "Exiting."
          else answer_question mr ep sa question;; chat_loop fuel' mr ep sa
      end
  end.

Definition main : M unit :=
  mr ← load_report "market_research_analysis.md";
  ep ← load_report "execution_plan.md";
  sa ← load_report "strategic_analysis.md";
  print "Innovation Agent CLI Chatbot";;
  print "Type your question or 'exit' to quit.";;
  lines_left ← console_left;
  chat_loop (S lines_left) mr ep sa.

End WithEnv.

End Chatbot.

(** ** The report writers: [save_analysis_report], [save_execution_plan],
    [save_strategic_analysis]

    The files of the working directory are a finite map from names to
    contents; a writer returns the name it wrote under and the files
    afterwards, or the exception raised while the report is formatted.
    Opening the file for writing is taken to succeed. *)

Module Reports.

(** The exceptions of formatting: [.get] on a value that is no dictionary,
    a slice or a subscript of a value that has none, a subscript with a
    missing key. *)
Inductive py_error : Type :=
| AttributeError
| TypeError
| KeyError.

(** [bool(v)] *)
Definition py_truthy (v : pyval) : bool :=
  match v with
  | VNone => false
  | VStr s => negb (String.eqb s "")
  | VInt z => negb (Z.eqb z 0)
  | VList l => match l with [] => false | _ => true end
  | VDict d => negb (bool_decide (d = ∅))
  end.

(** [d.get(key, fallback)] *)
Definition get (d : gmap string pyval) (key : string) (fallback : pyval) : pyval :=
  default fallback (d !! key).

(** [d.get(key, {}).get(inner, fallback)] *)
Definition get_in (d : gmap string pyval) (key inner : string) (fallback : pyval)
    : py_error + pyval :=
  match d !! key with
  | None => inr fallback
  | Some (VDict m) => inr (default fallback (m !! inner))
  | Some _ => inl AttributeError
  end.

(** [d[key][inner]] *)
Definition subscript_in (d : gmap string pyval) (key inner : string) : py_error + pyval :=
  match d !! key with
  | None => inl KeyError
  | Some (VDict m) =>
      match m !! inner with
      | None => inl KeyError
      | Some v => inr v
      end
  | Some _ => inl TypeError
  end.

(** What reading in text mode makes of the characters of a file: a
    carriage return followed by a line feed, and a carriage return alone,
    are read as one line feed. *)
Fixpoint universal_newlines (s : string) : string :=
  match s with
  | EmptyString => EmptyString
  | String c s' =>
      if Ascii.eqb c (ascii_of_nat 13) then
        String (ascii_of_nat 10)
          match s' with
          | String c' s'' =>
              if Ascii.eqb c' (ascii_of_nat 10) then universal_newlines s''
              else universal_newlines s'
          | EmptyString => EmptyString
          end
      else String c (universal_newlines s')
  end.

(** A text without carriage return. *)
Fixpoint no_carriage_return (s : string) : bool :=
  match s with
  | EmptyString => true
  | String c s' => negb (Ascii.eqb c (ascii_of_nat 13)) && no_carriage_return s'
  end.

(** The working directory read as the file oracle of an environment:
    [files] holds the texts written (the characters handed to [f.write],
    written as they are where the line separator is the line feed), and
    [open(path, 'r')] reads them in text mode. *)
Definition on_disk (E : env) (files : gmap string string) : env :=
  {| create := create E;
     isoformat_now := isoformat_now E;
     files := λ path,
       match files !! path with
       | Some content => FileContent (universal_newlines content)
       | None => FileMissing
       end |}.

Section Formatting.

(** [str] of a list or of a dictionary: Python's [repr], not modelled. *)
Variable repr : pyval → string.

(** The exception of [d[:n]] for a dictionary [d]: [TypeError] (a slice
    cannot be hashed) up to Python 3.11, [KeyError] from 3.12 on. *)
Variable slice_of_dict : py_error.

(** [v[:n]] *)
Definition slice_value (n : nat) (v : pyval) : py_error + pyval :=
  match v with
  | VStr s => inr (VStr (slice_to n s))
  | VList l => inr (VList (take n l))
  | VDict _ => inl slice_of_dict
  | VNone | VInt _ => inl TypeError
  end.

(** [str(v)], as an f-string formats [{v}]. *)
Definition py_str (v : pyval) : string :=
  match v with
  | VNone => "None"
  | VStr s => s
  | VInt z => pretty z
  | VList _ | VDict _ => repr v
  end.

(** [timestamp] is [datetime.now().strftime("%Y%m%d_%H%M%S")], read when no
    file name is given. *)
Definition save_analysis_report (timestamp : string) (analysis_result : gmap string pyval)
    (filename : option string) (files : gmap string string)
    : py_error + (string * gmap string string) :=
  let filename :=
    if truthy filename then default "" filename
    else "market_research_analysis_" +:+ timestamp +:+ ".md" in
  match
    (if py_truthy (get analysis_result "web_search_data" VNone) then
       match get_in analysis_result "analysis_metadata" "web_searches_performed" (VStr "N/A")
       with
       | inl e => inl e
       | inr web_searches_performed => inr (
"
## Web Search Information
- **Web Searches Performed**: " +:+
  py_str web_searches_performed +:+
  "
")
       end
     else inr "")
  with
  | inl e => inl e
  | inr web_searches_info =>
      match get_in analysis_result "analysis_metadata" "total_tokens" (VStr "N/A") with
      | inl e => inl e
      | inr total_tokens =>
          let report_content :=
"# Market Research Analysis Report

**Idea Analyzed**: " +:+
  py_str (get analysis_result "user_idea" (VStr "N/A")) +:+
  "
**Analysis Date**: " +:+
  py_str (get analysis_result "analysis_timestamp" (VStr "N/A")) +:+
  "
**AI Model**: " +:+
  py_str (get analysis_result "model_used" (VStr "N/A")) +:+
  "

---

" +:+
  py_str (get analysis_result "market_research_analysis" (VStr "Analysis not available")) +:+
  "

---
" +:+
  web_searches_info +:+
  "
## Analysis Metadata
- **Total Tokens Used**: " +:+
  py_str total_tokens +:+
  "
---
*Generated by Innovation Agent - Market Research Tool*
" in
          inr (filename, <[filename := report_content]> files)
      end
  end.

Definition save_execution_plan (timestamp : string) (plan_result : gmap string pyval)
    (filename : option string) (files : gmap string string)
    : py_error + (string * gmap string string) :=
  let filename :=
    if truthy filename then default "" filename
    else "execution_plan_" +:+ timestamp +:+ ".md" in
  match slice_value 1000 (get plan_result "market_report" (VStr "Not available")) with
  | inl e => inl e
  | inr market_report =>
      match slice_value 1000 (get plan_result "web_research_summary" (VStr "Not available"))
      with
      | inl e => inl e
      | inr web_research_summary =>
          let report_content :=
"# Comprehensive Execution Plan

**Business Idea**: " +:+
  py_str (get plan_result "user_idea" (VStr "N/A")) +:+
  "
**Plan Generated**: " +:+
  py_str (get plan_result "generation_timestamp" (VStr "N/A")) +:+
  "

---

## Market Research Context (Summary)
" +:+
  py_str market_report +:+
  "...

---

## Web Research Findings (Summary)
" +:+
  py_str web_research_summary +:+
  "...

---

# DETAILED EXECUTION PLAN

" +:+
  py_str (get plan_result "execution_plan" (VStr "Execution plan not available")) +:+
  "
---
*Generated by Innovation Agent - Execution Plan Generator*
" in
          inr (filename, <[filename := report_content]> files)
      end
  end.

Definition save_strategic_analysis (timestamp : string)
    (analysis_result : gmap string pyval) (filename : option string)
    (files : gmap string string) : py_error + (string * gmap string string) :=
  let filename :=
    if truthy filename then default "" filename
    else "strategic_analysis_" +:+ timestamp +:+ ".md" in
  match get_in analysis_result "analysis_metadata" "total_tokens" (VStr "N/A") with
  | inl e => inl e
  | inr total_tokens =>
      match get_in analysis_result "analysis_metadata" "analysis_depth" (VStr "N/A") with
      | inl e => inl e
      | inr analysis_depth =>
          match get_in analysis_result "analysis_metadata" "analysis_framework" (VStr "N/A")
          with
          | inl e => inl e
          | inr analysis_framework =>
              let report_content :=
"# Strategic Analysis & Differentiation Report

**Business Idea**: " +:+
  py_str (get analysis_result "user_idea" (VStr "N/A")) +:+
  "
**Analysis Date**: " +:+
  py_str (get analysis_result "analysis_timestamp" (VStr "N/A")) +:+
  "
**AI Model**: " +:+
  py_str (get analysis_result "model_used" (VStr "N/A")) +:+
  "
**Analysis Type**: " +:+
  py_str (get analysis_result "analysis_type" (VStr "N/A")) +:+
  "

---

## Input Context Summary

### Market Research Summary
" +:+
  py_str (get analysis_result "market_report_summary" (VStr "Not available")) +:+
  "

### Execution Plan Summary  
" +:+
  py_str (get analysis_result "execution_plan_summary" (VStr "Not available")) +:+
  "

---

# COMPREHENSIVE STRATEGIC ANALYSIS

" +:+
  py_str (get analysis_result "strategic_analysis" (VStr "Strategic analysis not available")) +:+
  "

---

## Analysis Metadata
- **Total Tokens Used**: " +:+
  py_str total_tokens +:+
  "
- **Analysis Depth**: " +:+
  py_str analysis_depth +:+
  "
- **Analysis Framework**: " +:+
  py_str analysis_framework +:+
  "

---
*Generated by Innovation Agent - Strategic Analysis & Differentiation Tool*
*Comprehensive Business Strategy and Competitive Intelligence Analysis*
" in
              inr (filename, <[filename := report_content]> files)
          end
      end
  end.

End Formatting.

End Reports.

(** ** app.py: the stage runners and the gate on the idea *)

Module App.

(** Truth value of a stored result: [None] and the empty dictionary are
    false. *)
Definition stored (result : option (gmap string pyval)) : bool :=
  match result with
  | Some d => negb (bool_decide (d = ∅))
  | None => false
  end.

(** The line feed of the string literals. *)
Definition nl : string := String (ascii_of_nat 10) EmptyString.

(** The context [chatbot_interface] builds from the stored reports.  The
    slice [[:3000]] stands outside the braces of the f-string: it is text
    of the template, and the value read with [.get] is formatted whole,
    whatever it is; [repr] is Python's [repr] of a list or dictionary. *)
Definition chat_context (repr : pyval → string) (user_idea : string)
    (market_research execution_plan strategic_analysis : option (gmap string pyval))
    : string :=
  let context := "USER IDEA: " +:+ user_idea +:+ nl +:+ nl in
  let context :=
    if stored market_research then
      context +:+ "MARKET RESEARCH:" +:+ nl
      +:+ Reports.py_str repr
            (Reports.get (default ∅ market_research) "market_research_analysis" (VStr ""))
      +:+ "[:3000]" +:+ nl +:+ nl
    else context in
  let context :=
    if stored execution_plan then
      context +:+ "EXECUTION PLAN:" +:+ nl
      +:+ Reports.py_str repr
            (Reports.get (default ∅ execution_plan) "execution_plan" (VStr ""))
      +:+ "[:3000]" +:+ nl +:+ nl
    else context in
  if stored strategic_analysis then
    context +:+ "STRATEGIC ANALYSIS:" +:+ nl
    +:+ Reports.py_str repr
          (Reports.get (default ∅ strategic_analysis) "strategic_analysis" (VStr ""))
    +:+ "[:3000]" +:+ nl +:+ nl
  else context.

Section WithEnv.
Variable E : env.

Definition run_market_research (idea : string) : M (gmap string pyval) :=
  MarketResearchAnalysis.analyze_market_opportunity E idea.

(** The arguments of the planning call in [run_execution_plan]. *)
Definition planning_request (planning_prompt : string) : request :=
  {| World.model := ExecutionPlanGenerator.reasoning_model;
     messages := [("system", "You are a world-class business strategist.");
                  ("user", planning_prompt)];
     temperature := 7 # 10;
     max_tokens := 8000;
     top_p := Some (9 # 10);
     stream := Some false |}.

(** [market_report] is the text of a stored market research, a [str] or
    [None]; on [None] the slice [market_report[:1500]] of the web-research
    prompt raises as [research_execution_strategies] begins.  The planning
    prompt is built before the [try]: its slice raises on a research text
    that is [None]. *)
Definition run_execution_plan (idea : string) (market_report : option string)
    : M (gmap string pyval) :=
  match market_report with
  | None => raise none_not_subscriptable
  | Some market_report =>
      web_research ←
        ExecutionPlanGenerator.research_execution_strategies E idea market_report;
      match ExecutionPlanGenerator.research_data_of web_research with
      | None => raise none_not_subscriptable
      | Some research_data =>
          let planning_prompt :=
            ExecutionPlanGenerator.get_execution_planning_prompt idea market_report
              research_data in
          try_except
            (completion ← create_completion E (planning_request planning_prompt);
             timestamp ← now_isoformat E;
             mret (list_to_map
               [ ("user_idea", VStr idea);
                 ("market_report", VStr market_report);
                 ("web_research_summary", VStr research_data);
                 ("execution_plan", of_text (content (choice0 completion)));
                 ("generation_timestamp", VStr timestamp) ]))
            (λ e,
              mret (list_to_map
                [ ("error", VStr ("Execution planning failed: " +:+ str_of_exn e)) ]))
      end
  end.

(** [market_report] and [execution_plan] are the texts of the stored
    results, each a [str] or [None]. *)
Definition run_strategic_analysis (idea : string)
    (market_report execution_plan : option string) : M (option (gmap string pyval)) :=
  StrategicAnalyzer.analyze_strategy E (Some idea) market_report execution_plan.

(** [if user_idea and len(user_idea) > 20:], the test of [main] that
    opens the market-research step. *)
Definition idea_accepted (user_idea : string) : bool :=
  negb (String.eqb user_idea "") && bool_decide (20 < String.length user_idea).

(** The market-research step of [main] for one rendering of the page:
    [clicked] tells whether the button was pressed, [market_research]
    is [st.session_state.market_research] before, the result is its
    value after. *)
Definition market_research_step (user_idea : string) (clicked : bool)
    (market_research : option (gmap string pyval))
    : M (option (gmap string pyval)) :=
  if idea_accepted user_idea then
    if clicked then
      result ← run_market_research user_idea;
      if bool_decide ("error" ∉ dom result) then mret (Some result)
      else mret market_research
    else mret market_research
  else mret market_research.

End WithEnv.

End App.

(** ** More of Python's strings *)

Module Text.

(** [len(s)], as an integer. *)
Definition len (s : string) : Z := Z.of_nat (String.length s).

(** The text [t] occurs in [s], whole. *)
Definition occurs_in (t s : string) : Prop := ∃ pre post, s = pre +:+ t +:+ post.

End Text.
Export Text.

(** ** The command-line [main] functions of the three stage modules

    As in the stage functions, what they print is left out; a [main] gives
    the files of the working directory when it ends and the exception that
    ended it, if one did that is not an exception of the console or of the
    backend. *)

Module Cli.

Import Reports.

Section WithEnv.

Variable E : env.

(** [datetime.now().strftime("%Y%m%d_%H%M%S")] read when [n] events are
    logged. *)
Variable strftime_now : nat → string.

Variable repr : pyval → string.
Variable slice_of_dict : py_error.

Definition now_strftime : M string := λ w,
  (Returned (strftime_now (length (trace w))), w).

(** The end of a [main]: the files written and nothing, or an exception. *)
Definition ended (files : gmap string string)
    (saved : py_error + (string * gmap string string))
    : gmap string string * option py_error :=
  match saved with
  | inl e => (files, Some e)
  | inr (_, files') => (files', None)
  end.

(** [main] of MarketResearchAnalysis.py *)
Definition market_research_main (files : gmap string string)
    : M (gmap string string * option py_error) :=
  user_idea ← input;
  analysis_result ← MarketResearchAnalysis.analyze_market_opportunity E user_idea;
  if bool_decide ("error" ∈ dom analysis_result) then mret (files, None)
  else
    match analysis_result !! "market_research_analysis" with
    | None => mret (files, Some KeyError)
    | Some _ =>
        match
          (if py_truthy (get analysis_result "web_search_data" VNone)
           then subscript_in analysis_result "analysis_metadata" "web_searches_performed"
           else inr VNone)
        with
        | inl e => mret (files, Some e)
        | inr _ =>
            timestamp ← now_strftime;
            mret (ended files (save_analysis_report repr timestamp analysis_result None files))
        end
    end.

(** [main] of ExecutionPlanGenerator.py *)
Definition execution_plan_main (files : gmap string string)
    : M (gmap string string * option py_error) :=
  plan_result ← ExecutionPlanGenerator.generate_execution_plan E None None;
  if bool_decide ("error" ∈ dom plan_result) then mret (files, None)
  else
    match plan_result !! "execution_plan" with
    | None => mret (files, Some KeyError)
    | Some _ =>
        timestamp ← now_strftime;
        mret (ended files (save_execution_plan repr slice_of_dict timestamp plan_result None files))
    end.

(** [main] of StrategicAnalyzer.py *)
Definition strategic_main (files : gmap string string)
    : M (gmap string string * option py_error) :=
  choice ← strip <$> input;
  if String.eqb choice "2" then
    user_idea ← input;
    swot_analysis ← StrategicAnalyzer.quick_swot_analysis E user_idea;
    mret (files, None)
  else
    analysis_result ← StrategicAnalyzer.analyze_strategy E None None None;
    match analysis_result with
    | None => mret (files, Some TypeError)
    | Some analysis_result =>
        if bool_decide ("error" ∈ dom analysis_result) then mret (files, None)
        else
          match analysis_result !! "strategic_analysis" with
          | None => mret (files, Some KeyError)
          | Some _ =>
              timestamp ← now_strftime;
              match save_strategic_analysis repr timestamp analysis_result None files with
              | inl e => mret (files, Some e)
              | inr (saved_file, files') =>
                  match analysis_result !! "user_idea" with
                  | None => mret (files', Some KeyError)
                  | Some user_idea =>
                      swot_analysis ←
                        StrategicAnalyzer.quick_swot_analysis E (py_str repr user_idea);
                      mret (files', None)
                  end
              end
          end
    end.

End WithEnv.

End Cli.

(** ** Computations that only read the console *)

Module Console.

(** [m] calls no backend and does not sleep, and the one exception it can
    end on is the end of the console, with no line left to read. *)
Definition console_only {A : Type} (m : M A) : Prop :=
  ∀ w,
    match m w with
    | (Returned _, w') => trace w' = trace w
    | (Raised e, w') => e = EOFError ∧ trace w' = trace w ∧ stdin w' = []
    end.

(** [m] ends on an exception only at the end of the console, before it
    has called a backend or slept. *)
Definition raises_at_console_end {A : Type} (m : M A) : Prop :=
  ∀ w w' e, m w = (Raised e, w') → e = EOFError ∧ trace w' = trace w ∧ stdin w' = [].

End Console.
Export Console.

(** ** app.py: the session state of the dashboard, its reset and its chat *)

Module Dashboard.

(** A value kept in [st.session_state]: a Python value of the kinds above,
    or a [bool]. *)
Inductive sval : Type :=
| SPy (v : pyval)
| SBool (b : bool).

(** [if key not in st.session_state: st.session_state.key = v] *)
Definition init_key (key : string) (v : sval) (s : gmap string sval) : gmap string sval :=
  match s !! key with
  | None => <[key := v]> s
  | Some _ => s
  end.

(** [init_session_state]; [getenv] is [os.getenv("GROQ_API_KEY", "")]. *)
Definition init_session_state (getenv : string) (s : gmap string sval)
    : gmap string sval :=
  let s := init_key "api_key" (SPy (VStr getenv)) s in
  let s := init_key "current_step" (SPy (VInt 1)) s in
  let s := init_key "user_idea" (SPy (VStr "")) s in
  let s := init_key "market_research" (SPy VNone) s in
  let s := init_key "execution_plan" (SPy VNone) s in
  let s := init_key "strategic_analysis" (SPy VNone) s in
  let s := init_key "processing" (SBool false) s in
  init_key "chat_history" (SPy (VList [])) s.

(** ["" if key == 'user_idea' else None if key != 'current_step' else 1] *)
Definition reset_value (key : string) : sval :=
  if String.eqb key "user_idea" then SPy (VStr "")
  else if negb (String.eqb key "current_step") then SPy VNone
  else SPy (VInt 1).

(** The loop of the [Reset All] button, before [st.rerun()]. *)
Definition reset_all (s : gmap string sval) : gmap string sval :=
  foldl
    (λ s key, if bool_decide (key ∈ dom s) then <[key := reset_value key]> s else s)
    s
    ["current_step"; "user_idea"; "market_research"; "execution_plan";
     "strategic_analysis"; "chat_history"].

(** The prompt of the chat of the dashboard. *)
Definition chat_prompt (context user_question : string) : string :=
"Based on the following business analysis, answer the user's question concisely and helpfully.

" +:+
  context +:+
  "

USER QUESTION: " +:+
  user_question +:+
  "

Provide a clear, specific answer based only on the information available in the analysis above.".

(** The arguments of the call in [chatbot_interface]; it gives no
    [top_p]. *)
Definition chat_request (prompt : string) : request :=
  {| World.model := "llama-3.3-70b-versatile";
     messages := [("system", "You are a helpful business advisor."); ("user", prompt)];
     temperature := 7 # 10;
     max_tokens := 800;
     top_p := None;
     stream := Some false |}.

Section WithEnv.
Variable E : env.

(** [chatbot_interface] with the [Send] button pressed, on the question
    typed and the reports and the value of [chat_history] in the session
    state; the result is the value of [chat_history] afterwards.  The
    [.strip()] of a completion without text and the [.append] of a value
    that is no list raise [AttributeError] inside the [try], which its
    [except Exception] catches. *)
Definition send_chat (repr : pyval → string) (user_idea : string)
    (market_research execution_plan strategic_analysis : option (gmap string pyval))
    (user_question : string) (chat_history : pyval) : M pyval :=
  if negb (App.stored market_research) then mret chat_history
  else
    let context :=
      App.chat_context repr user_idea market_research execution_plan strategic_analysis in
    if negb (String.eqb user_question "") then
      try_except
        (response ← create_completion E (chat_request (chat_prompt context user_question));
         answer ← stripped_content (choice0 response);
         match chat_history with
         | VList history =>
             timestamp ← now_isoformat E;
             mret (VList (history ++
               [VDict (list_to_map
                  [ ("question", VStr user_question);
                    ("answer", VStr answer);
                    ("timestamp", VStr timestamp) ])]))
         | _ => mret chat_history
         end)
        (λ _, mret chat_history)
    else mret chat_history.

(** What ends the handler of a button: nothing, an exception of the stage
    function, or an exception of the handler's own code. *)
Definition ending : Type := option (exn + Reports.py_error).

(** The end of the three [Generate] handlers, after the stage function
    returned [result]:
    [if 'error' not in result: st.session_state.<key> = result;
     st.session_state.current_step = max(k, st.session_state.current_step)]
    and then [st.session_state.processing = False].  [max] compares [k]
    with an [int] or a [bool] and raises [TypeError] on another value; a
    missing attribute of the session state raises [AttributeError]. *)
Definition finish_step (key : string) (k : Z) (result : gmap string pyval)
    (s : gmap string sval) : gmap string sval * ending :=
  if bool_decide ("error" ∉ dom result) then
    let s := <[key := SPy (VDict result)]> s in
    match s !! "current_step" with
    | Some (SPy (VInt z)) =>
        (<["processing" := SBool false]> (<["current_step" := SPy (VInt (k `max` z))]> s),
         None)
    | Some (SBool b) =>
        (<["processing" := SBool false]>
           (<["current_step" :=
               if bool_decide (k < (if b then 1 else 0))%Z then SBool b else SPy (VInt k)]> s),
         None)
    | Some (SPy _) => (s, Some (inr Reports.TypeError))
    | None => (s, Some (inr Reports.AttributeError))
    end
  else (<["processing" := SBool false]> s, None).

(** The handler of [Generate Market Research], up to [st.rerun()]: the
    session state when it ends and what ended it. *)
Definition market_step (user_idea : string) (s : gmap string sval) (w : world)
    : (gmap string sval * ending) * world :=
  let s := <["processing" := SBool true]> s in
  match App.run_market_research E user_idea w with
  | (Raised e, w') => ((s, Some (inl e)), w')
  | (Returned result, w') => (finish_step "market_research" 2 result s, w')
  end.

(** The handler of [Generate Execution Plan]; [market_report] is
    [st.session_state.market_research.get('market_research_analysis', '')],
    the text of the stored market research: a [str], or [None] when its
    completion had no text. *)
Definition execution_plan_step (user_idea : string) (market_report : option string)
    (s : gmap string sval) (w : world) : (gmap string sval * ending) * world :=
  let s := <["processing" := SBool true]> s in
  match App.run_execution_plan E user_idea market_report w with
  | (Raised e, w') => ((s, Some (inl e)), w')
  | (Returned result, w') => (finish_step "execution_plan" 3 result s, w')
  end.

(** The handler of [Generate Strategic Analysis]; [market_report] and
    [execution_plan] are the texts of the two stored results, read as
    above; ['error' not in None] raises [TypeError]. *)
Definition strategic_step (user_idea : string)
    (market_report execution_plan : option string)
    (s : gmap string sval) (w : world) : (gmap string sval * ending) * world :=
  let s := <["processing" := SBool true]> s in
  match App.run_strategic_analysis E user_idea market_report execution_plan w with
  | (Raised e, w') => ((s, Some (inl e)), w')
  | (Returned None, w') => ((s, Some (inr Reports.TypeError)), w')
  | (Returned (Some result), w') => (finish_step "strategic_analysis" 4 result s, w')
  end.

End WithEnv.

End Dashboard.

(** ** The shape of a run of a retry loop *)

Module Retry.

(** [extend w evs]: the world [w] after the events [evs]. *)
Definition extend (w : world) (evs : list event) : world :=
  {| trace := trace w ++ evs; stdin := stdin w; stdout := stdout w |}.

(** [k] rounds of a call followed by a suspension. *)
Fixpoint backoff (k : nat) (req : request) (delay : Z) : list event :=
  match k with
  | O => []
  | S k' => ECall req :: ESleep delay :: backoff k' req delay
  end.

(** The events of a retry run: [k] backed-off attempts and a last one. *)
Definition retry_trace (k : nat) (req : request) (delay : Z) : list event :=
  backoff k req delay ++ [ECall req].

Definition is_rate_limited (o : outcome) : bool :=
  match o with
  | Failed RateLimitError _ => true
  | _ => false
  end.

Definition is_completed (o : outcome) : bool :=
  match o with
  | Completed _ => true
  | Failed _ _ => false
  end.

(** The index of the last attempt of a loop that may retry [retries]
    times and whose first call is the call number [n]: the first attempt
    that is not rate-limited, the attempt [retries] when they all are. *)
Fixpoint last_attempt (E : env) (retries n : nat) (req : request) : nat :=
  match retries with
  | O => O
  | S r =>
      if is_rate_limited (create E n req) then S (last_attempt E r (S n) req) else O
  end.

(** Number of backend calls a computation makes from the world [w]. *)
Definition attempts {A : Type} (m : M A) (w : world) : nat :=
  ncalls (m w).2 - ncalls w.

(** The events a computation adds to the trace of [w]. *)
Definition events {A : Type} (m : M A) (w : world) : list event :=
  drop (length (trace w)) (trace (m w).2).

End Retry.
Export Retry.

(** ** The six calls of the suite, seen as stages *)

Module Stages.

(** A stage call with its arguments: the three calls wrapped in a retry
    loop, and the planning, SWOT and chat calls, made in a single [try].
    The planning call is the one [generate_execution_plan] makes on a
    research text that is a [str]: on [None] it raises before the call. *)
Inductive stage : Type :=
| MarketResearch (user_idea : string)
| WebResearch (user_idea market_report : string)
| StrategicAnalysis (user_idea market_report execution_plan : string)
| ExecutionPlanning (user_idea market_report research_data : string)
| Swot (user_idea : string)
| Chat (mr ep sa question : string).

(** The prompt the stage builds, once, before its first attempt. *)
Definition prompt_of (s : stage) : string :=
  match s with
  | MarketResearch user_idea =>
      MarketResearchAnalysis.get_universal_market_research_prompt user_idea
  | WebResearch user_idea market_report =>
      ExecutionPlanGenerator.get_web_research_prompt user_idea market_report
  | StrategicAnalysis user_idea market_report execution_plan =>
      StrategicAnalyzer.get_strategic_analysis_prompt user_idea market_report execution_plan
  | ExecutionPlanning user_idea market_report research_data =>
      ExecutionPlanGenerator.get_execution_planning_prompt user_idea market_report
        research_data
  | Swot user_idea => StrategicAnalyzer.swot_prompt user_idea
  | Chat mr ep sa question => Chatbot.build_prompt mr ep sa question
  end.

(** The request the stage sends. *)
Definition request_of (s : stage) : request :=
  match s with
  | MarketResearch _ => MarketResearchAnalysis.request_of (prompt_of s)
  | WebResearch _ _ => ExecutionPlanGenerator.research_request (prompt_of s)
  | StrategicAnalysis _ _ _ => StrategicAnalyzer.request_of (prompt_of s)
  | ExecutionPlanning _ _ _ => ExecutionPlanGenerator.planning_request (prompt_of s)
  | Swot user_idea => StrategicAnalyzer.swot_request user_idea
  | Chat _ _ _ _ => Chatbot.request_of (prompt_of s)
  end.

(** The user prompt of a request: the content of its last message. *)
Definition user_prompt (r : request) : string :=
  match last (messages r) with
  | Some (_, p) => p
  | None => ""
  end.

(** Whether the call of the stage sits in a [for attempt in
    range(max_retries)] loop. *)
Definition has_retry_loop (s : stage) : bool :=
  match s with
  | MarketResearch _ | WebResearch _ _ | StrategicAnalysis _ _ _ => true
  | ExecutionPlanning _ _ _ | Swot _ | Chat _ _ _ _ => false
  end.

(** How many times the stage may call the backend again. *)
Definition retries (s : stage) : nat := if has_retry_loop s then 2 else 0.

Definition of_option_dict (o : option (gmap string pyval)) : pyval :=
  match o with
  | Some d => VDict d
  | None => VNone
  end.

(** The stage run; what it returns is a Python value: a dictionary, the
    SWOT text (or [None]), [None] for the chat call, whose answer is
    printed. *)
Definition run (E : env) (s : stage) : M pyval :=
  match s with
  | MarketResearch user_idea =>
      VDict <$> MarketResearchAnalysis.analyze_market_opportunity E user_idea
  | WebResearch user_idea market_report =>
      VDict <$> ExecutionPlanGenerator.research_execution_strategies E user_idea market_report
  | StrategicAnalysis user_idea market_report execution_plan =>
      of_option_dict <$> StrategicAnalyzer.run_analysis E user_idea market_report execution_plan
  | ExecutionPlanning user_idea market_report research_data =>
      VDict <$> ExecutionPlanGenerator.planning_call E user_idea market_report research_data
  | Swot user_idea => of_text <$> StrategicAnalyzer.quick_swot_analysis E user_idea
  | Chat mr ep sa question =>
      (λ _, VNone) <$> Chatbot.answer_question E mr ep sa question
  end.

(** Whether the stage builds its result from the completion without an
    exception: the market research and the strategic analysis read
    [completion.usage.total_tokens], which a usage that is [None] does not
    have, and the chat call strips the text, which may be [None]. *)
Definition usable (s : stage) (c : completion) : bool :=
  match s with
  | MarketResearch _ | StrategicAnalysis _ _ _ =>
      match usage c with
      | IsNone => false
      | Absent | Has _ => true
      end
  | Chat _ _ _ _ => bool_decide (is_Some (content (choice0 c)))
  | WebResearch _ _ | ExecutionPlanning _ _ _ | Swot _ => true
  end.

(** [completion.usage.total_tokens if hasattr(completion, 'usage') else
    None], where it raises nothing. *)
Definition tokens_value (c : completion) : pyval :=
  match usage c with
  | Has n => VInt n
  | Absent | IsNone => VNone
  end.



(** The index of the last attempt of the stage, from the world [w]. *)
Definition final_attempt (E : env) (s : stage) (w : world) : nat :=
  last_attempt E (retries s) (ncalls w) (request_of s).

(** What the backend answers to the last attempt. *)
Definition final_outcome (E : env) (s : stage) (w : world) : outcome :=
  create E (final_attempt E s w + ncalls w) (request_of s).

(** The stage succeeded: its last attempt completed, with a completion
    the stage builds its result from. *)
Definition succeeded (E : env) (s : stage) (w : world) : bool :=
  match final_outcome E s w with
  | Completed c => usable s c
  | Failed _ _ => false
  end.

(** The text under ['research_data'] after a web research whose last
    attempt was answered by [o]. *)
Definition research_data_after (o : outcome) : option string :=
  match o with
  | Completed c => content (choice0 c)
  | Failed _ _ => Some "Not available."
  end.

(** The questions a console session of the chatbot puts to the backend:
    the stripped lines, up to the first that is empty or is [exit] or
    [quit] in any case. *)
Fixpoint asked_questions (console : list string) : list string :=
  match console with
  | [] => []
  | line :: rest =>
      let question := strip line in
      if String.eqb question "" || String.eqb (lower question) "exit"
         || String.eqb (lower question) "quit"
      then []
      else question :: asked_questions rest
  end.

End Stages.
Export Stages.

(** ** The specification's side

    Its call-with-retry classifies the answers of the backend into
    rate-limited, transient (network, timeout) and fatal ones, retries up
    to [max_attempts] times and waits [backoff_seconds] before a retry.
    The predicates below state, in its words, the properties that are
    compared with the code further down. *)

Module Spec.



Definition max_attempts : nat := 3.
Definition backoff_seconds : Z := 61.

(** A completion arrives within [budget] attempts from the call number
    [n]: some attempt [k < budget] completes and every one before it is
    rate-limited. *)
Definition completes_within (E : env) (n : nat) (req : request) (budget : nat) : Prop :=
  ∃ k c, k < budget
         ∧ (∀ i, i < k → is_rate_limited (create E (i + n) req) = true)
         ∧ create E (k + n) req = Completed c.

(** "A stage call rate-limited on its first [k] attempts, [k <
    max_attempts], which then succeeds suspends for [backoff_seconds]
    exactly [k] times and sends the identical prompt on every attempt". *)
Definition backs_off_before_each_retry : Prop :=
  ∀ E s w k c,
    k < max_attempts →
    (∀ i, i < k → is_rate_limited (create E (i + ncalls w) (request_of s)) = true) →
    create E (k + ncalls w) (request_of s) = Completed c →
    sleeps (run E s w).2 = sleeps w ++ replicate k backoff_seconds
    ∧ calls (run E s w).2 = calls w ++ replicate (S k) (request_of s).


(** "The dictionary of [analyze_market_opportunity] contains ["error"]
    exactly when no completion succeeded within the retry budget, and
    ["market_research_analysis"] exactly when one did". *)
Definition error_key_iff_no_completion : Prop :=
  ∀ E user_idea w,
    ∃ d,
      (MarketResearchAnalysis.analyze_market_opportunity E user_idea w).1 = Returned d
      ∧ ("error" ∈ dom d
         ↔ ¬ completes_within E (ncalls w) (request_of (MarketResearch user_idea))
               max_attempts)
      ∧ ("market_research_analysis" ∈ dom d
         ↔ completes_within E (ncalls w) (request_of (MarketResearch user_idea))
             max_attempts).

(** "Empty or whitespace-only input fails with [InvalidInputError] before
    any backend call": the run raises and calls nothing. *)
Definition rejects_blank_input {A : Type} (run : env → string → M A) : Prop :=
  ∀ E input w,
    all_space input = true →
    attempts (run E input) w = 0 ∧ ∃ e, (run E input w).1 = Raised e.


(** "A failed optional stage contributes the empty string to every
    downstream prompt": after a failed web research the planning call is
    sent the prompt built from the empty string. *)
Definition failed_web_research_contributes_nothing : Prop :=
  ∀ E user_idea market_report w,
    user_idea ≠ "" → market_report ≠ "" →
    ¬ completes_within E (ncalls w) (request_of (WebResearch user_idea market_report))
        max_attempts →
    last (calls (ExecutionPlanGenerator.generate_execution_plan E
                   (Some user_idea) (Some market_report) w).2)
    = Some (ExecutionPlanGenerator.planning_request
              (ExecutionPlanGenerator.get_execution_planning_prompt
                 user_idea market_report "")).

(** The same for a report file that is missing. *)
Definition missing_report_contributes_nothing : Prop :=
  ∀ E path w, files E path = FileMissing → (Chatbot.load_report E path w).1 = Returned "".


(** "Every backend call is wrapped in the same bounded retry policy": in
    every stage a rate-limited first attempt is followed by a second
    one. *)
Definition uniform_retry_policy : Prop :=
  ∀ E s w msg,
    create E (ncalls w) (request_of s) = Failed RateLimitError msg →
    2 ≤ attempts (run E s) w.

End Spec.

(** ** Scenarios: concrete backends and inputs *)

Module Scenario.

Definition idea : string := "AI-powered supply chain optimizer for small retailers".

Definition report : completion :=
  {| choice0 := {| content := Some "The market is growing.";
                   executed_tools := IsNone;
                   reasoning := IsNone |};
     usage := Has 1234%Z |}.

(** The same completion with a usage that is [None]. *)
Definition report_without_usage : completion :=
  {| choice0 := choice0 report; usage := IsNone |}.

(** A completion whose text is [None]. *)
Definition report_without_text : completion :=
  {| choice0 := {| content := None; executed_tools := IsNone; reasoning := IsNone |};
     usage := Has 1234%Z |}.

(** The backend that answers the calls with [script], in order, and with
    [report] afterwards; a clock that stands still; no file. *)
Definition scripted (script : list outcome) : env :=
  {| create := λ n _, nth n script (Completed report);
     isoformat_now := λ _, "2025-01-01T00:00:00";
     files := λ _, FileMissing |}.

Definition rate_limit : outcome := Failed RateLimitError "429 Too Many Requests".
Definition unauthorized : outcome := Failed AuthenticationError "401 Invalid API Key".

(** Two rate limits, then completions. *)
Definition twice_limited : env := scripted [rate_limit; rate_limit].

(** Rate limits on the first three calls. *)
Definition thrice_limited : env := scripted [rate_limit; rate_limit; rate_limit].

Definition web_stage : stage := WebResearch idea "The market is growing.".


Definition planning_stage : stage :=
  ExecutionPlanning idea "The market is growing." "Case studies: none found.".

End Scenario.

(** ** Concrete consoles, clocks and files for the examples *)

Module Example.

(** A console with the given lines to read, before any call. *)
Definition console (lines : list string) : world :=
  {| trace := []; stdin := lines; stdout := [] |}.

(** A clock that stands still, as [strftime] formats it. *)
Definition strftime (n : nat) : string := "20250101_000000".

(** No example formats a list or a dictionary. *)
Definition repr (v : pyval) : string := "".

(** The execution plan is there but cannot be read; no other file
    exists. *)
Definition plan_unreadable : env :=
  {| create := λ _ _, Completed Scenario.report;
     isoformat_now := λ _, "2025-01-01T00:00:00";
     files := λ path,
       if String.eqb path "execution_plan.md" then FileUnreadable "Permission denied"
       else FileMissing |}.

(** A stored market research. *)
Definition market_research : gmap string pyval :=
  {[ "market_research_analysis" := VStr "The market is growing." ]}.

(** The report of that market research, saved with no name given, in an
    empty directory. *)
Definition saved : Reports.py_error + (string * gmap string string) :=
  Reports.save_analysis_report repr (strftime 0) market_research None ∅.

Definition saved_name : string :=
  match saved with
  | inr (name, _) => name
  | inl _ => ""
  end.

Definition saved_files : gmap string string :=
  match saved with
  | inr (_, files') => files'
  | inl _ => ∅
  end.

(** A backend whose first completion has no text. *)
Definition without_text : env := Scenario.scripted [Completed Scenario.report_without_text].

(** A strategic analysis that completes at its first attempt. *)
Definition analysed : result (option (gmap string pyval)) * world :=
  StrategicAnalyzer.run_analysis (Scenario.scripted []) Scenario.idea
    "The market is growing." "Phase 1: foundation." world0.

Definition analysed_dict : gmap string pyval :=
  match analysed.1 with
  | Returned (Some d) => d
  | _ => ∅
  end.

(** The session state of a new session, with no API key in the
    environment. *)
Definition new_session : gmap string Dashboard.sval := Dashboard.init_session_state "" ∅.

End Example.

(** * Properties *)

(** ** Worlds, traces and the shape of a retry run *)

Section WorldFacts.

Lemma log_extend e w : log e w = extend w [e].
Proof. reflexivity. Qed.

Lemma extend_extend w evs evs' : extend (extend w evs) evs' = extend w (evs ++ evs').
Proof. unfold extend; simpl. by rewrite app_assoc. Qed.

Lemma trace_extend w evs : trace (extend w evs) = trace w ++ evs.
Proof. reflexivity. Qed.

Lemma calls_extend w evs : calls (extend w evs) = calls w ++ calls (extend world0 evs).
Proof. unfold calls, extend; simpl. by rewrite omap_app. Qed.

Lemma sleeps_extend w evs : sleeps (extend w evs) = sleeps w ++ sleeps (extend world0 evs).
Proof. unfold sleeps, extend; simpl. by rewrite omap_app. Qed.

Lemma ncalls_log_call r w : ncalls (log (ECall r) w) = S (ncalls w).
Proof. unfold ncalls. rewrite log_extend, calls_extend, length_app. simpl. lia. Qed.

Lemma ncalls_log_sleep s w : ncalls (log (ESleep s) w) = ncalls w.
Proof. unfold ncalls. rewrite log_extend, calls_extend, length_app. simpl. lia. Qed.

Lemma omap_call_of_backoff k req delay evs :
  omap call_of (backoff k req delay ++ evs) = replicate k req ++ omap call_of evs.
Proof. induction k as [|k IH]; [reflexivity|]. simpl. rewrite <- IH. reflexivity. Qed.

Lemma omap_sleep_of_backoff k req delay evs :
  omap sleep_of (backoff k req delay ++ evs) = replicate k delay ++ omap sleep_of evs.
Proof. induction k as [|k IH]; [reflexivity|]. simpl. rewrite <- IH. reflexivity. Qed.

Lemma replicate_snoc {A} k (x : A) : replicate k x ++ [x] = replicate (S k) x.
Proof. induction k as [|k IH]; [reflexivity|]. simpl. by rewrite IH. Qed.

Lemma calls_retry_trace w k req delay :
  calls (extend w (retry_trace k req delay)) = calls w ++ replicate (S k) req.
Proof.
  unfold calls, extend, retry_trace; cbn [trace].
  rewrite omap_app, omap_call_of_backoff.
  change (omap call_of [ECall req]) with [req]. by rewrite replicate_snoc.
Qed.

Lemma sleeps_retry_trace w k req delay :
  sleeps (extend w (retry_trace k req delay)) = sleeps w ++ replicate k delay.
Proof.
  unfold sleeps, extend, retry_trace; cbn [trace].
  rewrite omap_app, omap_sleep_of_backoff.
  change (omap sleep_of [ECall req]) with (@nil Z). by rewrite app_nil_r.
Qed.

Lemma ncalls_retry_trace w k req delay :
  ncalls (extend w (retry_trace k req delay)) = ncalls w + S k.
Proof. unfold ncalls. by rewrite calls_retry_trace, length_app, length_replicate. Qed.

Lemma last_retry_trace k req delay : last (retry_trace k req delay) = Some (ECall req).
Proof. unfold retry_trace. by rewrite last_snoc. Qed.

(** A run that ends in [w] extended by [evs] has made those events. *)
Lemma events_of_trace {A} (m : M A) w evs :
  trace (m w).2 = trace w ++ evs → events m w = evs.
Proof. unfold events. intros ->. by rewrite drop_app_length. Qed.

Lemma attempts_of_trace {A} (m : M A) w k req delay :
  trace (m w).2 = trace w ++ retry_trace k req delay → attempts m w = S k.
Proof.
  intros H. unfold attempts, ncalls, calls, retry_trace in *.
  rewrite H, omap_app, omap_call_of_backoff, !length_app, length_replicate.
  simpl. lia.
Qed.

Lemma bind_returned {A B} (m : M A) (k : A → M B) w b w' :
  (m ≫= k) w = (Returned b, w') →
  ∃ a w1, m w = (Returned a, w1) ∧ k a w1 = (Returned b, w').
Proof.
  unfold mbind, M_bind. destruct (m w) as [[a|e] w1]; [|discriminate]. eauto.
Qed.

Lemma bind_run {A B} (m : M A) (k : A → M B) w r w1 :
  m w = (r, w1) →
  (m ≫= k) w = match r with Returned a => k a w1 | Raised e => (Raised e, w1) end.
Proof. intros Hrun. unfold mbind, M_bind. by rewrite Hrun. Qed.

Variable E : env.

Lemma last_attempt_le r n req : last_attempt E r n req ≤ r.
Proof.
  revert n; induction r as [|r IH]; intros n; simpl; [lia|].
  destruct (is_rate_limited _); [specialize (IH (S n))|]; lia.
Qed.

(** Every attempt before the last one was rate-limited. *)
Lemma last_attempt_before r n req i :
  i < last_attempt E r n req → is_rate_limited (create E (i + n) req) = true.
Proof.
  revert n i; induction r as [|r IH]; intros n i; simpl; [lia|].
  destruct (is_rate_limited (create E n req)) eqn:Hn; [|lia].
  destruct i as [|i]; [done|]. intros Hi.
  replace (S i + n) with (i + S n) by lia. apply IH. lia.
Qed.

(** The last attempt is not rate-limited unless the retries are used up. *)
Lemma last_attempt_stop r n req :
  last_attempt E r n req < r →
  is_rate_limited (create E (last_attempt E r n req + n) req) = false.
Proof.
  revert n; induction r as [|r IH]; intros n; simpl; [lia|].
  destruct (is_rate_limited (create E n req)) eqn:Hn; [|done].
  intros H. replace (S (last_attempt E r (S n) req) + n)
    with (last_attempt E r (S n) req + S n) by lia.
  apply IH. lia.
Qed.

(** [k] rate-limited attempts followed by one that is not, within the
    retries: the attempt [k] is the last. *)
Lemma last_attempt_first_other r n req k :
  k ≤ r →
  (∀ i, i < k → is_rate_limited (create E (i + n) req) = true) →
  (k < r → is_rate_limited (create E (k + n) req) = false) →
  last_attempt E r n req = k.
Proof.
  revert n k; induction r as [|r IH]; intros n k Hk Hbefore Hat; simpl.
  - lia.
  - destruct k as [|k].
    + specialize (Hat ltac:(lia)). simpl in Hat. by rewrite Hat.
    + pose proof (Hbefore 0 ltac:(lia)) as H0. simpl in H0. rewrite H0.
      f_equal. apply IH; [lia| |].
      * intros i Hi. replace (i + S n) with (S i + n) by lia. apply Hbefore. lia.
      * intros Hlt. replace (k + S n) with (S k + n) by lia. apply Hat. lia.
Qed.

End WorldFacts.

Create Rewrite HintDb world.
#[local] Hint Rewrite ncalls_log_call ncalls_log_sleep : world.

(** ** What each stage function does, by the answers of the backend *)

Section Runs.

Variable E : env.

(** Unfolds the loop and the monad, leaving the prompts, the requests and
    the dictionaries as they are. *)
Ltac run_loop :=
  cbv beta iota delta
    [for_range seq Nat.ltb Nat.leb Nat.sub mbind M_bind mret M_ret fmap M_fmap
     try_except create_completion sleep now_isoformat total_tokens stripped_content raise
     MarketResearchAnalysis.max_retries MarketResearchAnalysis.retry_delay
     ExecutionPlanGenerator.max_retries ExecutionPlanGenerator.retry_delay
     StrategicAnalyzer.max_retries StrategicAnalyzer.retry_delay].

Ltac same_world :=
  unfold log, extend, retry_trace;
  cbn [trace stdin stdout app backoff]; rewrite <- ?app_assoc; reflexivity.

(** Case analysis on the answer to the call number [n]. *)
Ltac next_attempt n req H :=
  autorewrite with world;
  destruct (create E n req) as [?c|[] ?msg] eqn:H;
  cbn [is_rate_limited is_RateLimitError Nat.add str_of_exn];
  rewrite ?H;
  try match goal with
  | |- context [usage ?c] =>
      destruct (usage c);
      cbn [is_RateLimitError none_has_no_attribute str_of_exn tokens_value]
  end;
  try same_world.

Ltac three_attempts w s :=
  unfold usable, tokens_value;
  unfold final_outcome, final_attempt, retries, has_retry_loop, last_attempt;
  generalize (request_of s); intros req;
  run_loop;
  next_attempt (ncalls w) req ipattern:(H0);
  next_attempt (S (ncalls w)) req ipattern:(H1);
  next_attempt (S (S (ncalls w))) req ipattern:(H2).

Lemma analyze_market_opportunity_run user_idea w :
  let s := MarketResearch user_idea in
  let w' := extend w (retry_trace (final_attempt E s w) (request_of s) 61) in
  MarketResearchAnalysis.analyze_market_opportunity E user_idea w =
  (Returned
     match final_outcome E s w with
     | Completed c =>
         if usable s c then
           MarketResearchAnalysis.success_dict user_idea c
             (isoformat_now E (length (trace w'))) (tokens_value c)
         else
           list_to_map
             [ ("error", VStr ("An unexpected error occurred during analysis: "
                               +:+ str_of_exn (none_has_no_attribute "total_tokens"))) ]
     | Failed RateLimitError msg =>
         list_to_map
           [ ("error", VStr "Analysis failed after 3 attempts due to persistent rate limiting.");
             ("details", VStr msg) ]
     | Failed _ msg =>
         list_to_map
           [ ("error", VStr ("An unexpected error occurred during analysis: " +:+ msg)) ]
     end,
   w').
Proof.
  intros s w'; subst s w'.
  unfold MarketResearchAnalysis.analyze_market_opportunity.
  change (MarketResearchAnalysis.request_of _) with (request_of (MarketResearch user_idea)).
  three_attempts w (MarketResearch user_idea).
Qed.

Lemma research_execution_strategies_run user_idea market_report w :
  let s := WebResearch user_idea market_report in
  let w' := extend w (retry_trace (final_attempt E s w) (request_of s) 61) in
  ExecutionPlanGenerator.research_execution_strategies E user_idea market_report w =
  (Returned
     match final_outcome E s w with
     | Completed c =>
         list_to_map
           [ ("research_data", of_text (content (choice0 c)));
             ("timestamp", VStr (isoformat_now E (length (trace w')))) ]
     | Failed RateLimitError msg =>
         list_to_map
           [ ("error", VStr "Web research failed after 3 attempts due to persistent rate limiting.");
             ("details", VStr msg);
             ("research_data", VStr "Not available.") ]
     | Failed _ msg =>
         list_to_map
           [ ("error", VStr ("An unexpected error occurred during web research: " +:+ msg));
             ("research_data", VStr "Not available.") ]
     end,
   w').
Proof.
  intros s w'; subst s w'.
  unfold ExecutionPlanGenerator.research_execution_strategies.
  change (ExecutionPlanGenerator.research_request _)
    with (request_of (WebResearch user_idea market_report)).
  three_attempts w (WebResearch user_idea market_report).
Qed.

Lemma run_analysis_run user_idea market_report execution_plan w :
  let s := StrategicAnalysis user_idea market_report execution_plan in
  let w' := extend w (retry_trace (final_attempt E s w) (request_of s) 61) in
  let timestamp := isoformat_now E (length (trace w')) in
  StrategicAnalyzer.run_analysis E user_idea market_report execution_plan w =
  (Returned (Some
     match final_outcome E s w with
     | Completed c =>
         if usable s c then
           StrategicAnalyzer.success_dict user_idea market_report execution_plan c timestamp
             (tokens_value c)
         else
           list_to_map
             [ ("error", VStr ("Strategic analysis failed: "
                               +:+ str_of_exn (none_has_no_attribute "total_tokens")));
               ("user_idea", VStr user_idea);
               ("timestamp", VStr timestamp) ]
     | Failed RateLimitError msg =>
         list_to_map
           [ ("error", VStr ("Strategic analysis failed after multiple retries: " +:+ msg));
             ("user_idea", VStr user_idea);
             ("timestamp", VStr timestamp) ]
     | Failed _ msg =>
         list_to_map
           [ ("error", VStr ("Strategic analysis failed: " +:+ msg));
             ("user_idea", VStr user_idea);
             ("timestamp", VStr timestamp) ]
     end),
   w').
Proof.
  intros s w' timestamp; subst s w' timestamp.
  unfold StrategicAnalyzer.run_analysis.
  change (StrategicAnalyzer.request_of _)
    with (request_of (StrategicAnalysis user_idea market_report execution_plan)).
  three_attempts w (StrategicAnalysis user_idea market_report execution_plan).
Qed.


Ltac one_attempt w s :=
  unfold final_outcome, final_attempt, retries, has_retry_loop, last_attempt;
  generalize (request_of s); intros req;
  run_loop;
  destruct (create E (ncalls w) req) as [?c|[] ?msg] eqn:H0;
  cbn [Nat.add str_of_exn]; rewrite ?H0;
  try match goal with |- context [content ?m] => destruct (content m) end;
  reflexivity.

Lemma planning_call_run user_idea market_report research_data w :
  let s := ExecutionPlanning user_idea market_report research_data in
  let w' := log (ECall (request_of s)) w in
  ExecutionPlanGenerator.planning_call E user_idea market_report research_data w =
  (Returned
     match create E (ncalls w) (request_of s) with
     | Completed c =>
         list_to_map
           [ ("user_idea", VStr user_idea);
             ("market_report", VStr market_report);
             ("web_research_summary", VStr research_data);
             ("execution_plan", of_text (content (choice0 c)));
             ("generation_timestamp", VStr (isoformat_now E (length (trace w')))) ]
     | Failed _ msg =>
         list_to_map [ ("error", VStr ("Execution planning failed: " +:+ msg)) ]
     end,
   w').
Proof.
  intros s w'; subst s w'.
  unfold ExecutionPlanGenerator.planning_call.
  change (ExecutionPlanGenerator.planning_request _)
    with (request_of (ExecutionPlanning user_idea market_report research_data)).
  unfold final_outcome, final_attempt, retries, has_retry_loop, last_attempt;
  generalize (request_of (ExecutionPlanning user_idea market_report research_data));
  intros req; run_loop.
  destruct (create E (ncalls w) req) as [c|[] msg]; reflexivity.
Qed.

Lemma quick_swot_analysis_run user_idea w :
  let s := Swot user_idea in
  StrategicAnalyzer.quick_swot_analysis E user_idea w =
  (Returned
     match create E (ncalls w) (request_of s) with
     | Completed c => content (choice0 c)
     | Failed _ msg => Some ("SWOT analysis failed: " +:+ msg)
     end,
   log (ECall (request_of s)) w).
Proof.
  intros s; subst s. unfold StrategicAnalyzer.quick_swot_analysis.
  change (StrategicAnalyzer.swot_request _) with (request_of (Swot user_idea)).
  generalize (request_of (Swot user_idea)); intros req; run_loop.
  destruct (create E (ncalls w) req) as [c|[] msg]; reflexivity.
Qed.

Lemma answer_question_run mr ep sa question w :
  let s := Chat mr ep sa question in
  Chatbot.answer_question E mr ep sa question w =
  (Returned tt,
   {| trace := trace w ++ [ECall (request_of s)];
      stdin := stdin w;
      stdout := stdout w ++
        [ match create E (ncalls w) (request_of s) with
          | Completed c =>
              match content (choice0 c) with
              | Some text => Chatbot.nl +:+ strip text +:+ Chatbot.nl
              | None => "Error: " +:+ str_of_exn (none_has_no_attribute "strip")
              end
          | Failed _ msg => "Error: " +:+ msg
          end ] |}).
Proof.
  intros s; subst s. unfold Chatbot.answer_question.
  change (Chatbot.request_of _) with (request_of (Chat mr ep sa question)).
  unfold print.
  one_attempt w (Chat mr ep sa question).
Qed.

(** *** The stages, uniformly *)

(** Every stage run returns, whatever the backend answers, and its trace
    is that of a retry run: the attempts before the last are each
    followed by a suspension of 61 seconds, the last one by nothing. *)
Lemma run_returns_with_trace s w :
  ∃ v, (run E s w).1 = Returned v
       ∧ trace (run E s w).2
         = trace w ++ retry_trace (final_attempt E s w) (request_of s) 61.
Proof.
  destruct s as [i|i m|i m e|i m wr|i|mr ep sa q]; unfold run, fmap, M_fmap, mbind, M_bind.
  - rewrite analyze_market_opportunity_run. eexists; split; reflexivity.
  - rewrite research_execution_strategies_run. eexists; split; reflexivity.
  - rewrite run_analysis_run. eexists; split; reflexivity.
  - rewrite planning_call_run. eexists; split; reflexivity.
  - rewrite quick_swot_analysis_run. eexists; split; reflexivity.
  - rewrite answer_question_run. eexists; split; reflexivity.
Qed.

Lemma run_trace s w :
  trace (run E s w).2 = trace w ++ retry_trace (final_attempt E s w) (request_of s) 61.
Proof. by destruct (run_returns_with_trace s w) as (v & _ & H). Qed.

Lemma final_attempt_le s w : final_attempt E s w ≤ retries s.
Proof. apply last_attempt_le. Qed.

Lemma retries_le s : retries s ≤ 2.
Proof. unfold retries. destruct (has_retry_loop s); lia. Qed.

Lemma run_attempts s w : attempts (run E s) w = S (final_attempt E s w).
Proof. eapply attempts_of_trace, run_trace. Qed.

Lemma run_events s w :
  events (run E s) w = retry_trace (final_attempt E s w) (request_of s) 61.
Proof. apply events_of_trace, run_trace. Qed.


(** The dictionary of the web research holds a text under
    ['research_data'], the one [research_data_of] reads: the text of the
    completion, which may be [None], or ["Not available."]. *)
Lemma research_data_is_text user_idea market_report w :
  ∃ d w',
    ExecutionPlanGenerator.research_execution_strategies E user_idea market_report w
    = (Returned d, w')
    ∧ w' = extend w (retry_trace (final_attempt E (WebResearch user_idea market_report) w)
                       (request_of (WebResearch user_idea market_report)) 61)
    ∧ d !! "research_data"
      = Some (of_text (research_data_after
                         (final_outcome E (WebResearch user_idea market_report) w)))
    ∧ ExecutionPlanGenerator.research_data_of d
      = research_data_after (final_outcome E (WebResearch user_idea market_report) w).
Proof.
  rewrite research_execution_strategies_run.
  eexists _, _. split; [reflexivity|]. split; [reflexivity|].
  destruct (final_outcome E (WebResearch user_idea market_report) w) as [c|[] msg];
    try (split; reflexivity).
  unfold ExecutionPlanGenerator.research_data_of.
  cbn [research_data_after].
  assert (∀ v ts, (list_to_map [("research_data", v); ("timestamp", VStr ts)]
                   : gmap string pyval) !! "research_data" = Some v) as Hget
    by (intros; reflexivity).
  rewrite Hget. by destruct (content (choice0 c)).
Qed.

End Runs.

(** ** The retry policy *)

Section RetryPolicy.

Variable E : env.

(** [k] rate-limited attempts and then an answer that is not a rate
    limit, within the retries of the stage: the attempt [k] is the last. *)
Lemma final_attempt_at s w k :
  k ≤ retries s →
  (∀ i, i < k → is_rate_limited (create E (i + ncalls w) (request_of s)) = true) →
  is_rate_limited (create E (k + ncalls w) (request_of s)) = false →
  final_attempt E s w = k.
Proof. intros Hk Hbefore Hat. apply last_attempt_first_other; auto. Qed.

(** When the retries are used up the attempt [retries s] is the last,
    whatever it answers. *)
Lemma final_attempt_exhausted s w :
  (∀ i, i < retries s → is_rate_limited (create E (i + ncalls w) (request_of s)) = true) →
  final_attempt E s w = retries s.
Proof. intros Hbefore. apply last_attempt_first_other; auto; lia. Qed.

(** A run of [k + 1] attempts: its calls, its suspensions, its end. *)
Lemma run_shape s w k :
  final_attempt E s w = k →
  attempts (run E s) w = S k
  ∧ events (run E s) w = backoff k (request_of s) 61 ++ [ECall (request_of s)]
  ∧ calls (run E s w).2 = calls w ++ replicate (S k) (request_of s)
  ∧ sleeps (run E s w).2 = sleeps w ++ replicate k 61%Z
  ∧ last (trace (run E s w).2) = Some (ECall (request_of s)).
Proof.
  intros Hk. pose proof (run_trace E s w) as Ht. rewrite Hk in Ht.
  split; [by rewrite run_attempts, Hk|].
  split; [by rewrite run_events, Hk|].
  assert (calls (run E s w).2 = calls (extend w (retry_trace k (request_of s) 61))) as ->
    by (unfold calls; by rewrite Ht).
  assert (sleeps (run E s w).2 = sleeps (extend w (retry_trace k (request_of s) 61))) as ->
    by (unfold sleeps; by rewrite Ht).
  rewrite calls_retry_trace, sleeps_retry_trace, Ht.
  unfold retry_trace. by rewrite app_assoc, last_snoc.
Qed.



(** A call that sits in no loop is made once, whatever the answer. *)
Lemma single_try s w :
  has_retry_loop s = false →
  attempts (run E s) w = 1
  ∧ sleeps (run E s w).2 = sleeps w
  ∧ calls (run E s w).2 = calls w ++ [request_of s].
Proof.
  intros Hloop.
  assert (final_attempt E s w = 0) as Hfin.
  { pose proof (final_attempt_le E s w) as Hle. unfold retries in Hle.
    rewrite Hloop in Hle. lia. }
  destruct (run_shape s w 0 Hfin) as (Ha & _ & Hc & Hs & _).
  split; [done|]. split; [by rewrite Hs, app_nil_r|done].
Qed.

End RetryPolicy.



(** The SWOT call, rate-limited on its first attempt, does not suspend and
    does not call again, although a second attempt would complete. *)
Lemma C3_counterexample : ¬ Spec.backs_off_before_each_retry.
Proof.
  intros H.
  destruct (H (Scenario.scripted [Scenario.rate_limit]) (Swot Scenario.idea) world0 1
              Scenario.report) as [Hsleeps _].
  - unfold Spec.max_attempts. lia.
  - intros i Hi. assert (i = 0) as -> by lia. reflexivity.
  - reflexivity.
  - vm_compute in Hsleeps. discriminate.
Qed.

(** C3, as the code has it.  The claim holds of the three calls that sit in
    a retry loop (market research, web research, strategic analysis): when
    the first [k] attempts are rate-limited, [k < max_attempts], and the
    next is answered by a completion, the run adds to the trace [k] rounds
    of a call followed by a suspension of [backoff_seconds] = 61 seconds
    and then the completing call: [k] suspensions, one before each retry,
    none after the completion; and every call carries the same request,
    hence the same prompt.  The planning, SWOT and chat calls sit in no
    loop: each is made once and never suspends, whatever the answer. *)
Theorem C3_backoff_before_each_retry (E : env) (s : stage) (w : world) :
  (has_retry_loop s = true →
   ∀ k c,
     k < Spec.max_attempts →
     (∀ i, i < k → is_rate_limited (create E (i + ncalls w) (request_of s)) = true) →
     create E (k + ncalls w) (request_of s) = Completed c →
     events (run E s) w
     = backoff k (request_of s) Spec.backoff_seconds ++ [ECall (request_of s)]
     ∧ sleeps (run E s w).2 = sleeps w ++ replicate k Spec.backoff_seconds
     ∧ calls (run E s w).2 = calls w ++ replicate (S k) (request_of s)
     ∧ last (trace (run E s w).2) = Some (ECall (request_of s))
     ∧ last (messages (request_of s)) = Some ("user", prompt_of s))
  ∧ (has_retry_loop s = false →
     attempts (run E s) w = 1
     ∧ sleeps (run E s w).2 = sleeps w
     ∧ calls (run E s w).2 = calls w ++ [request_of s]).
Proof.
  split; [|apply single_try].
  intros Hloop k c Hk Hbefore Hat.
  assert (k ≤ retries s) as Hk'.
  { unfold retries. rewrite Hloop. unfold Spec.max_attempts in Hk. lia. }
  assert (final_attempt E s w = k) as Hfin.
  { apply final_attempt_at; auto. by rewrite Hat. }
  destruct (run_shape E s w k Hfin) as (_ & He & Hc & Hs & Hl).
  repeat split; try done. by destruct s.
Qed.

(** The scenario of the specification: two rate limits, then a completion. *)
Lemma C3_witness :
  events (run Scenario.twice_limited Scenario.web_stage) world0
  = [ ECall (request_of Scenario.web_stage); ESleep 61;
      ECall (request_of Scenario.web_stage); ESleep 61;
      ECall (request_of Scenario.web_stage) ]
  ∧ sleeps (run Scenario.twice_limited Scenario.web_stage world0).2 = [61%Z; 61%Z]
  ∧ calls (run Scenario.twice_limited Scenario.web_stage world0).2
    = [ request_of Scenario.web_stage; request_of Scenario.web_stage;
        request_of Scenario.web_stage ]
  ∧ last (trace (run Scenario.twice_limited Scenario.web_stage world0).2)
    = Some (ECall (request_of Scenario.web_stage))
  ∧ last (messages (request_of Scenario.web_stage))
    = Some ("user", prompt_of Scenario.web_stage).
Proof.
  apply (proj1 (C3_backoff_before_each_retry Scenario.twice_limited Scenario.web_stage
                  world0) eq_refl 2 Scenario.report).
  - unfold Spec.max_attempts. lia.
  - intros i Hi. destruct i as [|[|i]]; [reflexivity|reflexivity|lia].
  - reflexivity.
Defined.

(** ** Which failures are retried, and how a failure is reported *)




Section Reporting.

Variable E : env.

(** A completion within the attempts of a loop is a completion at its
    last attempt. *)
Lemma completes_within_last_attempt r n req :
  Spec.completes_within E n req (S r)
  ↔ is_completed (create E (last_attempt E r n req + n) req) = true.
Proof.
  split.
  - intros (k & c & Hk & Hbefore & Hat).
    rewrite (last_attempt_first_other E r n req k); [by rewrite Hat|lia|done|].
    intros _. by rewrite Hat.
  - intros Hc. exists (last_attempt E r n req).
    destruct (create E (last_attempt E r n req + n) req) as [c|cls msg] eqn:Hat;
      [|discriminate].
    exists c. split; [pose proof (last_attempt_le E r n req); lia|].
    split; [|done]. intros i Hi. by apply (last_attempt_before E r).
Qed.

Lemma stage_completes_iff s w :
  Spec.completes_within E (ncalls w) (request_of s) (S (retries s))
  ↔ is_completed (final_outcome E s w) = true.
Proof. apply completes_within_last_attempt. Qed.

Lemma truthy_Some s : s ≠ "" → truthy (Some s) = true.
Proof. intros H. simpl. by apply negb_true_iff, String.eqb_neq. Qed.

(** With its three arguments given, [analyze_strategy] asks nothing on
    the console. *)
Lemma analyze_strategy_given user_idea market_report execution_plan w :
  user_idea ≠ "" → market_report ≠ "" → execution_plan ≠ "" →
  StrategicAnalyzer.analyze_strategy E (Some user_idea) (Some market_report)
    (Some execution_plan) w
  = StrategicAnalyzer.run_analysis E user_idea market_report execution_plan w.
Proof.
  intros Hi Hm He. unfold StrategicAnalyzer.analyze_strategy.
  rewrite !truthy_Some by done. reflexivity.
Qed.

(** With its two arguments given, so does [generate_execution_plan]. *)
Lemma generate_execution_plan_given user_idea market_report w :
  user_idea ≠ "" → market_report ≠ "" →
  ExecutionPlanGenerator.generate_execution_plan E (Some user_idea) (Some market_report) w
  = (web_research ←
       ExecutionPlanGenerator.research_execution_strategies E user_idea market_report;
     ExecutionPlanGenerator.plan_from_research E user_idea market_report
       (ExecutionPlanGenerator.research_data_of web_research)) w.
Proof.
  intros Hi Hm. unfold ExecutionPlanGenerator.generate_execution_plan.
  rewrite !truthy_Some by done. reflexivity.
Qed.

End Reporting.




(** ** Which calls are wrapped in the retry loop *)

(** The SWOT call is not retried: rate-limited on its only attempt, it
    fails. *)
Lemma C9_counterexample : ¬ Spec.uniform_retry_policy.
Proof.
  intros H.
  specialize (H (Scenario.scripted [Scenario.rate_limit]) (Swot Scenario.idea) world0
                "429 Too Many Requests" eq_refl).
  vm_compute in H. lia.
Qed.

(** C9, as the code has it.  No stage makes more than [max_attempts] = 3
    attempts.  The retry loop wraps the calls of the market research, the
    web research and the strategic analysis, with the same bound and the
    same delay: rate-limited three times, each makes three attempts with
    two suspensions of 61 seconds between them.  The SWOT and chat calls
    are made once, whatever the answer, and never suspend. *)
Theorem C9_retry_policy_by_stage (E : env) (s : stage) (w : world) :
  attempts (run E s) w ≤ Spec.max_attempts
  ∧ ((∃ i, s = MarketResearch i) ∨ (∃ i m, s = WebResearch i m)
     ∨ (∃ i m e, s = StrategicAnalysis i m e) →
     (∀ i, i < Spec.max_attempts →
           is_rate_limited (create E (i + ncalls w) (request_of s)) = true) →
     attempts (run E s) w = Spec.max_attempts
     ∧ sleeps (run E s w).2 = sleeps w ++ [Spec.backoff_seconds; Spec.backoff_seconds])
  ∧ ((∃ i, s = Swot i) ∨ (∃ mr ep sa question, s = Chat mr ep sa question) →
     attempts (run E s) w = 1 ∧ sleeps (run E s w).2 = sleeps w).
Proof.
  split; [|split].
  - rewrite run_attempts. pose proof (final_attempt_le E s w). pose proof (retries_le s).
    unfold Spec.max_attempts. lia.
  - intros Hloop Hall.
    assert (retries s = 2) as Hr
      by (destruct Hloop as [[? ->]|[(? & ? & ->)|(? & ? & ? & ->)]]; reflexivity).
    assert (final_attempt E s w = 2) as Hfin.
    { rewrite <- Hr. apply final_attempt_exhausted. intros i Hi. apply Hall.
      unfold Spec.max_attempts. lia. }
    destruct (run_shape E s w 2 Hfin) as (Ha & _ & _ & Hs & _). by split.
  - intros Hone.
    assert (retries s = 0) as Hr
      by (destruct Hone as [[? ->]|(? & ? & ? & ? & ->)]; reflexivity).
    assert (final_attempt E s w = 0) as Hfin
      by (pose proof (final_attempt_le E s w); lia).
    destruct (run_shape E s w 0 Hfin) as (Ha & _ & _ & Hs & _).
    split; [done|]. by rewrite Hs, app_nil_r.
Qed.

(** The web research under three rate limits, and the SWOT call under one. *)
Lemma C9_witness :
  (attempts (run Scenario.thrice_limited Scenario.web_stage) world0 = 3
   ∧ sleeps (run Scenario.thrice_limited Scenario.web_stage world0).2 = [61%Z; 61%Z])
  ∧ (attempts (run Scenario.thrice_limited (Swot Scenario.idea)) world0 = 1
     ∧ sleeps (run Scenario.thrice_limited (Swot Scenario.idea) world0).2 = []).
Proof.
  split.
  - apply (proj1 (proj2 (C9_retry_policy_by_stage
             Scenario.thrice_limited Scenario.web_stage world0))).
    + right; left. by eexists _, _.
    + intros i Hi. destruct i as [|[|[|i]]]; try reflexivity.
      unfold Spec.max_attempts in Hi. lia.
  - apply (proj2 (proj2 (C9_retry_policy_by_stage
             Scenario.thrice_limited (Swot Scenario.idea) world0))).
    left. by eexists.
Defined.

(** ** The keys of the market-research result *)

Section MarketKeys.

Variable E : env.

Lemma success_dict_keys user_idea c timestamp total_tokens :
  "market_research_analysis"
    ∈ dom (MarketResearchAnalysis.success_dict user_idea c timestamp total_tokens)
  ∧ "error" ∉ dom (MarketResearchAnalysis.success_dict user_idea c timestamp total_tokens).
Proof.
  split.
  - apply elem_of_dom. eexists. reflexivity.
  - apply not_elem_of_dom. reflexivity.
Qed.

(** The result of the market research holds ["market_research_analysis"]
    when the stage succeeded and ["error"] when it did not. *)
Lemma market_result_keys user_idea w :
  ∃ d,
    MarketResearchAnalysis.analyze_market_opportunity E user_idea w
    = (Returned d,
       extend w (retry_trace (final_attempt E (MarketResearch user_idea) w)
                   (request_of (MarketResearch user_idea)) 61))
    ∧ ("error" ∈ dom d ↔ succeeded E (MarketResearch user_idea) w = false)
    ∧ ("market_research_analysis" ∈ dom d
       ↔ succeeded E (MarketResearch user_idea) w = true).
Proof.
  pose proof (analyze_market_opportunity_run E user_idea w) as Hrun. cbn zeta in Hrun.
  eexists. split; [exact Hrun|].
  assert (∀ d : gmap string pyval, d !! "error" ≠ None →
            d !! "market_research_analysis" = None →
            ("error" ∈ dom d ↔ false = false)
            ∧ ("market_research_analysis" ∈ dom d ↔ false = true)) as Hfailed.
  { intros d He Hm. rewrite !elem_of_dom, Hm. split.
    - split; [done|]. intros _. destruct (d !! "error"); [by eexists|done].
    - split; [by intros [? ?]|done]. }
  unfold succeeded.
  destruct (final_outcome E (MarketResearch user_idea) w) as [c|cls msg].
  - destruct (usable (MarketResearch user_idea) c).
    + destruct (success_dict_keys user_idea c
                  (isoformat_now E (length (trace (extend w (retry_trace
                     (final_attempt E (MarketResearch user_idea) w)
                     (request_of (MarketResearch user_idea)) 61)))))
                  (tokens_value c)) as [Hin Hout].
      split; [split; [done|discriminate]|split; done].
    + apply Hfailed; [discriminate|reflexivity].
  - destruct cls; apply Hfailed; (discriminate || reflexivity).
Qed.

End MarketKeys.

(** C10.  The claim fails on a completion whose [usage] is [None]: the
    backend completes at the first attempt, within the retry budget, and
    [analyze_market_opportunity] returns a dictionary that holds ["error"]
    and no ["market_research_analysis"], because
    [completion.usage.total_tokens] is read inside the [try] under a
    [hasattr] guard that a usage of [None] passes. *)
Theorem C10_completion_reported_as_error :
  Spec.completes_within (Scenario.scripted [Completed Scenario.report_without_usage])
    (ncalls world0) (request_of (MarketResearch Scenario.idea)) Spec.max_attempts
  ∧ (MarketResearchAnalysis.analyze_market_opportunity
       (Scenario.scripted [Completed Scenario.report_without_usage]) Scenario.idea world0).1
    = Returned
        {[ "error" :=
             VStr "An unexpected error occurred during analysis: 'NoneType' object has no attribute 'total_tokens'" ]}
  ∧ ¬ Spec.error_key_iff_no_completion.
Proof.
  assert (Spec.completes_within (Scenario.scripted [Completed Scenario.report_without_usage])
            (ncalls world0) (request_of (MarketResearch Scenario.idea)) Spec.max_attempts)
    as Hcompletes.
  { exists 0, Scenario.report_without_usage. split; [unfold Spec.max_attempts; lia|].
    split; [intros i Hi; lia|reflexivity]. }
  assert ((MarketResearchAnalysis.analyze_market_opportunity
             (Scenario.scripted [Completed Scenario.report_without_usage]) Scenario.idea
             world0).1
          = Returned
              {[ "error" :=
                   VStr "An unexpected error occurred during analysis: 'NoneType' object has no attribute 'total_tokens'" ]})
    as Hvalue by (by vm_compute).
  split; [exact Hcompletes|]. split; [exact Hvalue|].
  intros H.
  destruct (H (Scenario.scripted [Completed Scenario.report_without_usage])
              Scenario.idea world0) as (d & Hrun & Herr & _).
  rewrite Hvalue in Hrun. injection Hrun as <-.
  apply Herr; [|exact Hcompletes].
  apply elem_of_dom. eexists. apply lookup_singleton_eq.
Qed.

(** ** Blank ideas *)

(** The market research does not reject the empty idea: it calls the
    backend. *)
Lemma C2_counterexample :
  ¬ Spec.rejects_blank_input MarketResearchAnalysis.analyze_market_opportunity.
Proof.
  intros H. destruct (H (Scenario.scripted []) "" world0 eq_refl) as [Hcalls _].
  vm_compute in Hcalls. discriminate.
Qed.

Lemma idea_accepted_length user_idea :
  App.idea_accepted user_idea = true ↔ 20 < String.length user_idea.
Proof.
  unfold App.idea_accepted. rewrite andb_true_iff, bool_decide_eq_true, negb_true_iff.
  split; [tauto|]. intros Hlen. split; [|done].
  apply String.eqb_neq. intros ->. simpl in Hlen. lia.
Qed.

(** C2, as the code has it.  No stage function validates the idea and none
    raises on a blank one: [analyze_market_opportunity] calls the backend at
    least once and returns a dictionary for every idea, the empty one
    included.  The gate is the dashboard's [user_idea and len(user_idea) >
    20]: for an idea that is empty or has at most 20 characters its
    market-research step calls nothing, raises nothing and leaves the
    stored result as it was. *)
Theorem C2_input_gate (E : env) (user_idea : string) (w : world) :
  (∃ d w',
     MarketResearchAnalysis.analyze_market_opportunity E user_idea w = (Returned d, w')
     ∧ 1 ≤ attempts (MarketResearchAnalysis.analyze_market_opportunity E user_idea) w)
  ∧ (∀ clicked market_research,
       user_idea = "" ∨ String.length user_idea ≤ 20 →
       App.market_research_step E user_idea clicked market_research w
       = (Returned market_research, w)
       ∧ attempts (App.market_research_step E user_idea clicked market_research) w = 0).
Proof.
  assert (1 ≤ attempts (MarketResearchAnalysis.analyze_market_opportunity E user_idea) w)
    as Hcalls.
  { unfold attempts. rewrite analyze_market_opportunity_run. cbn [snd].
    rewrite ncalls_retry_trace. lia. }
  split.
  - eexists _, _. split; [apply analyze_market_opportunity_run|exact Hcalls].
  - intros clicked st Hshort.
    assert (App.market_research_step E user_idea clicked st w = (Returned st, w)) as Hstep.
    { unfold App.market_research_step.
      destruct (App.idea_accepted user_idea) eqn:Hacc; [|reflexivity].
      apply idea_accepted_length in Hacc.
      destruct Hshort as [->|Hlen]; [simpl in Hacc|]; lia. }
    split; [done|]. unfold attempts. rewrite Hstep. simpl. lia.
Qed.

(** The empty idea, and an idea of twenty characters, stop at the gate of
    the dashboard. *)
Lemma C2_witness :
  (App.market_research_step (Scenario.scripted []) "" true None world0
   = (Returned None, world0)
   ∧ attempts (App.market_research_step (Scenario.scripted []) "" true None) world0 = 0)
  ∧ (App.market_research_step (Scenario.scripted []) "A marketplace for AI" true None world0
     = (Returned None, world0)
     ∧ attempts (App.market_research_step (Scenario.scripted []) "A marketplace for AI"
                   true None) world0 = 0).
Proof.
  split.
  - apply (proj2 (C2_input_gate (Scenario.scripted []) "" world0)).
    left. reflexivity.
  - apply (proj2 (C2_input_gate (Scenario.scripted []) "A marketplace for AI" world0)).
    right. vm_compute. lia.
Defined.

(** ** Failed web research and missing reports *)

(** After a failed web research the planning prompt is not the one built
    from the empty string, and a missing report is not loaded as the empty
    string. *)
Lemma C6_counterexample :
  ¬ Spec.failed_web_research_contributes_nothing
  ∧ ¬ Spec.missing_report_contributes_nothing.
Proof.
  split.
  - intros H.
    specialize (H (Scenario.scripted [Scenario.unauthorized]) Scenario.idea
                  "The market is growing." world0).
    apply (f_equal (λ o, String.length (user_prompt (default
             (ExecutionPlanGenerator.planning_request "") o)))) in H.
    + vm_compute in H. discriminate.
    + discriminate.
    + discriminate.
    + change Spec.max_attempts with (S (retries Scenario.web_stage)).
      rewrite (stage_completes_iff _ Scenario.web_stage world0). vm_compute. discriminate.
  - intros H.
    specialize (H (Scenario.scripted []) "market_research_analysis.md" world0 eq_refl).
    vm_compute in H. discriminate.
Qed.

(** C6, as the code has it.  A failed web research does not stop
    [generate_execution_plan]: the planning call is made right after the
    attempts of the web research, at most three, and the function returns a
    dictionary.  What the failed stage contributes to the planning prompt
    is the text ["Not available."] that every failure dictionary of
    [research_execution_strategies] carries under ['research_data'], not the
    empty string; and [load_report] gives for a missing file the text
    ["[[REPORT NOT FOUND: <path>]]"], changing nothing else. *)
Theorem C6_failed_stage_placeholder (E : env) (user_idea market_report : string)
    (w : world) :
  user_idea ≠ "" → market_report ≠ "" →
  ¬ Spec.completes_within E (ncalls w) (request_of (WebResearch user_idea market_report))
      Spec.max_attempts →
  (∃ d w' n,
     ExecutionPlanGenerator.generate_execution_plan E (Some user_idea) (Some market_report) w
     = (Returned d, w')
     ∧ 1 ≤ n ≤ Spec.max_attempts
     ∧ calls w'
       = calls w
         ++ replicate n (request_of (WebResearch user_idea market_report))
         ++ [ExecutionPlanGenerator.planning_request
               (ExecutionPlanGenerator.get_execution_planning_prompt
                  user_idea market_report "Not available.")])
  ∧ ∀ path,
      files E path = FileMissing →
      Chatbot.load_report E path w = (Returned ("[[REPORT NOT FOUND: " +:+ path +:+ "]]"), w).
Proof.
  intros Hi Hm Hfail. split.
  - change Spec.max_attempts with (S (retries (WebResearch user_idea market_report))) in Hfail.
    rewrite stage_completes_iff in Hfail. apply not_true_is_false in Hfail.
    rewrite generate_execution_plan_given by done.
    unfold mbind, M_bind. rewrite research_execution_strategies_run.
    set (w1 := extend w _).
    assert (calls w1 = calls w
              ++ replicate (S (final_attempt E (WebResearch user_idea market_report) w))
                   (request_of (WebResearch user_idea market_report))) as Hc1
      by apply calls_retry_trace.
    assert (1 ≤ S (final_attempt E (WebResearch user_idea market_report) w)
            ≤ Spec.max_attempts) as Hn.
    { pose proof (final_attempt_le E (WebResearch user_idea market_report) w) as Hle.
      unfold retries in Hle; simpl in Hle. unfold Spec.max_attempts. lia. }
    destruct (final_outcome E (WebResearch user_idea market_report) w) as [c|cls msg];
      [discriminate|].
    destruct cls;
      (match goal with |- context [ExecutionPlanGenerator.research_data_of ?d] =>
         change (ExecutionPlanGenerator.research_data_of d) with (Some "Not available.")
       end);
      cbn [ExecutionPlanGenerator.plan_from_research];
      rewrite planning_call_run; eexists _, _, _;
      (split; [reflexivity|]); (split; [exact Hn|]);
      rewrite log_extend, calls_extend, Hc1, <- app_assoc; reflexivity.
  - intros path Hmiss. unfold Chatbot.load_report, try_except, read_file.
    by rewrite Hmiss.
Qed.

(** The web research meets an invalid API key; no report file exists. *)
Lemma C6_witness :
  (∃ d w' n,
     ExecutionPlanGenerator.generate_execution_plan (Scenario.scripted [Scenario.unauthorized])
       (Some Scenario.idea) (Some "The market is growing.") world0
     = (Returned d, w')
     ∧ 1 ≤ n ≤ Spec.max_attempts
     ∧ calls w'
       = calls world0
         ++ replicate n (request_of Scenario.web_stage)
         ++ [ExecutionPlanGenerator.planning_request
               (ExecutionPlanGenerator.get_execution_planning_prompt
                  Scenario.idea "The market is growing." "Not available.")])
  ∧ ∀ path,
      files (Scenario.scripted [Scenario.unauthorized]) path = FileMissing →
      Chatbot.load_report (Scenario.scripted [Scenario.unauthorized]) path world0
      = (Returned ("[[REPORT NOT FOUND: " +:+ path +:+ "]]"), world0).
Proof.
  apply (C6_failed_stage_placeholder (Scenario.scripted [Scenario.unauthorized])
           Scenario.idea "The market is growing." world0).
  - discriminate.
  - discriminate.
  - change Spec.max_attempts with (S (retries Scenario.web_stage)).
    rewrite (stage_completes_iff _ Scenario.web_stage world0). vm_compute. discriminate.
Defined.

(** ** Truncation of the prior outputs *)

Section Truncation.

Lemma slice_to_short n s : String.length s ≤ n → slice_to n s = s.
Proof.
  revert n; induction s as [|c s IH]; intros [|n] Hlen; simpl in *; try done; try lia.
  f_equal. apply IH. lia.
Qed.

Lemma slice_to_length n s : String.length (slice_to n s) = n `min` String.length s.
Proof.
  revert n; induction s as [|c s IH]; intros [|n]; simpl; try done.
  by rewrite IH.
Qed.

Lemma slice_to_substring n s : slice_to n s = String.substring 0 n s.
Proof.
  revert n; induction s as [|c s IH]; intros [|n]; simpl; try done.
  by rewrite IH.
Qed.

Lemma slice_to_prefix n s : String.prefix (slice_to n s) s = true.
Proof.
  revert n; induction s as [|c s IH]; intros [|n]; simpl; try done.
  destruct (ascii_dec c c); [apply IH|done].
Qed.

Lemma slice_to_idempotent n s : slice_to n (slice_to n s) = slice_to n s.
Proof. apply slice_to_short. rewrite slice_to_length. lia. Qed.

Lemma append_assoc (s1 s2 s3 : string) : (s1 +:+ s2) +:+ s3 = s1 +:+ s2 +:+ s3.
Proof.
  induction s1 as [|c s1 IH]; [reflexivity|].
  change (String c ((s1 +:+ s2) +:+ s3) = String c (s1 +:+ s2 +:+ s3)).
  by rewrite IH.
Qed.

(** Splits a template at the idea and the text before the first slice. *)
Ltac template_parts user_idea :=
  rewrite <- (append_assoc _ user_idea _);
  rewrite <- (append_assoc (_ +:+ user_idea) _ _);
  reflexivity.

(** Each truncating builder is a fixed template around the idea with the
    slice of each prior output inserted in it. *)
Lemma planning_prompt_parts user_idea :
  ∃ pre mid post, ∀ market_report web_research_data,
    ExecutionPlanGenerator.get_execution_planning_prompt user_idea market_report
      web_research_data
    = pre +:+ slice_to 1500 market_report +:+ mid
      +:+ slice_to 2000 web_research_data +:+ post.
Proof.
  eexists _, _, _. intros m o.
  unfold ExecutionPlanGenerator.get_execution_planning_prompt.
  template_parts user_idea.
Qed.

Lemma web_research_prompt_parts user_idea :
  ∃ pre post, ∀ market_report,
    ExecutionPlanGenerator.get_web_research_prompt user_idea market_report
    = pre +:+ slice_to 1500 market_report +:+ post.
Proof.
  eexists _, _. intros m.
  unfold ExecutionPlanGenerator.get_web_research_prompt.
  template_parts user_idea.
Qed.

Lemma strategic_prompt_parts user_idea :
  ∃ pre mid post, ∀ market_report execution_plan,
    StrategicAnalyzer.get_strategic_analysis_prompt user_idea market_report execution_plan
    = pre +:+ slice_to 2500 market_report +:+ mid
      +:+ slice_to 2500 execution_plan +:+ post.
Proof.
  eexists _, _, _. intros m p.
  unfold StrategicAnalyzer.get_strategic_analysis_prompt.
  template_parts user_idea.
Qed.

End Truncation.

(** C7.  The truncation the prompt builders apply to a prior output is
    [s[:N]]: a string of at most [N] characters is returned unchanged, a
    longer one is cut to exactly its first [N] characters (a prefix of it,
    [N] characters long), and truncating twice is truncating once.  And
    this is what each builder inserts: its prompt is a template that
    depends on the idea alone, with [s[:N]] of each prior output put in
    it, 1500 characters of the market report and 2000 of the web research
    in the planning prompt, 1500 of the market report in the web-research
    prompt, 2500 of the market report and of the execution plan in the
    strategic prompt. *)
Theorem C7_truncation_is_prefix (n : nat) (s : string) :
  (String.length s ≤ n → slice_to n s = s)
  ∧ (n < String.length s →
     String.length (slice_to n s) = n ∧ slice_to n s ≠ s)
  ∧ String.prefix (slice_to n s) s = true
  ∧ slice_to n s = String.substring 0 n s
  ∧ slice_to n (slice_to n s) = slice_to n s
  ∧ (∀ user_idea, ∃ pre mid post, ∀ market_report web_research_data,
       ExecutionPlanGenerator.get_execution_planning_prompt user_idea market_report
         web_research_data
       = pre +:+ slice_to 1500 market_report +:+ mid
         +:+ slice_to 2000 web_research_data +:+ post)
  ∧ (∀ user_idea, ∃ pre post, ∀ market_report,
       ExecutionPlanGenerator.get_web_research_prompt user_idea market_report
       = pre +:+ slice_to 1500 market_report +:+ post)
  ∧ (∀ user_idea, ∃ pre mid post, ∀ market_report execution_plan,
       StrategicAnalyzer.get_strategic_analysis_prompt user_idea market_report
         execution_plan
       = pre +:+ slice_to 2500 market_report +:+ mid
         +:+ slice_to 2500 execution_plan +:+ post).
Proof.
  split; [apply slice_to_short|].
  split.
  { intros Hlong. assert (String.length (slice_to n s) = n) as Hlen
      by (rewrite slice_to_length; lia).
    split; [done|]. intros Heq. rewrite Heq in Hlen. lia. }
  split; [apply slice_to_prefix|].
  split; [apply slice_to_substring|].
  split; [apply slice_to_idempotent|].
  split; [apply planning_prompt_parts|].
  split; [apply web_research_prompt_parts|apply strategic_prompt_parts].
Qed.

(** A short report is kept whole by the budget of 1500 characters; the
    idea, 53 characters long, is cut to its first 20 by a budget of 20. *)
Lemma C7_witness :
  slice_to 1500 "The market is growing." = "The market is growing."
  ∧ String.length (slice_to 20 Scenario.idea) = 20
  ∧ slice_to 20 Scenario.idea ≠ Scenario.idea.
Proof.
  split.
  - apply (proj1 (C7_truncation_is_prefix 1500 "The market is growing.")).
    vm_compute. lia.
  - apply (proj1 (proj2 (C7_truncation_is_prefix 20 Scenario.idea))).
    vm_compute. lia.
Defined.

(** ** What a success records *)


Section Metadata.

Variable E : env.


End Metadata.



(** ** The chatbot and the planning step of the dashboard *)

Section ChatbotAndApp.

Variable E : env.

(** The loop of the chatbot never raises; it sends one request for each
    question asked, never suspends, and stops at the end of the console or
    at the first empty line, [exit] or [quit]. *)
Lemma chat_loop_run fuel mr ep sa w :
  length (stdin w) < fuel →
  ∃ w',
    Chatbot.chat_loop E fuel mr ep sa w = (Returned tt, w')
    ∧ calls w'
      = calls w
        ++ map (λ q, Chatbot.request_of (Chatbot.build_prompt mr ep sa q))
             (asked_questions (stdin w))
    ∧ sleeps w' = sleeps w.
Proof.
  revert w; induction fuel as [|fuel IH]; intros w Hfuel; [lia|].
  destruct w as [tr console out]. cbn [stdin] in Hfuel.
  destruct console as [|line rest].
  - eexists. split; [reflexivity|]. split; [|reflexivity].
    cbn [asked_questions map]. by rewrite app_nil_r.
  - cbn [Chatbot.chat_loop].
    unfold mbind, M_bind, try_except, fmap, M_fmap, mbind, M_bind, mret, M_ret, input.
    cbn [stdin trace stdout asked_questions].
    destruct (String.eqb (strip line) "" || String.eqb (lower (strip line)) "exit"
              || String.eqb (lower (strip line)) "quit") eqn:Hstop.
    + eexists. split; [reflexivity|]. split; [|reflexivity].
      cbn [map]. by rewrite app_nil_r.
    + rewrite answer_question_run.
      match goal with |- context [Chatbot.chat_loop E fuel mr ep sa ?w1] =>
        destruct (IH w1) as (w' & Hrun & Hcalls & Hsleeps) end.
      { cbn [stdin length] in *. lia. }
      exists w'. split; [exact Hrun|]. split.
      * rewrite Hcalls. unfold calls; cbn [trace stdin map].
        rewrite omap_app. cbn [omap call_of]. by rewrite <- app_assoc.
      * rewrite Hsleeps. unfold sleeps; cbn [trace]. rewrite omap_app.
        cbn [omap sleep_of]. by rewrite app_nil_r.
Qed.

(** With no report file on disk the chatbot runs all the same, on the three
    placeholders. *)
Lemma main_without_reports w :
  (∀ path, files E path = FileMissing) →
  ∃ w',
    Chatbot.main E w = (Returned tt, w')
    ∧ calls w'
      = calls w
        ++ map (λ q, Chatbot.request_of (Chatbot.build_prompt
                  "[[REPORT NOT FOUND: market_research_analysis.md]]"
                  "[[REPORT NOT FOUND: execution_plan.md]]"
                  "[[REPORT NOT FOUND: strategic_analysis.md]]" q))
             (asked_questions (stdin w))
    ∧ sleeps w' = sleeps w.
Proof.
  intros Hmissing. unfold Chatbot.main, Chatbot.load_report.
  unfold mbind, M_bind, try_except, read_file, print, Chatbot.console_left, mret, M_ret.
  rewrite !Hmissing. cbn [is_FileNotFoundError stdin trace stdout].
  match goal with |- context [Chatbot.chat_loop E ?f ?a ?b ?c ?w1] =>
    destruct (chat_loop_run f a b c w1) as (w' & Hrun & Hcalls & Hsleeps) end.
  { cbn [stdin]. lia. }
  exists w'. split; [exact Hrun|]. split; [exact Hcalls|exact Hsleeps].
Qed.

(** The planning step of the dashboard, by its market report and by what
    the web research gave. *)
Lemma run_execution_plan_by_research idea market_report w :
  match market_report with
  | None => App.run_execution_plan E idea None w = (Raised none_not_subscriptable, w)
  | Some report =>
      let s := WebResearch idea report in
      let w1 := extend w (retry_trace (final_attempt E s w) (request_of s) 61) in
      match research_data_after (final_outcome E s w) with
      | None =>
          App.run_execution_plan E idea (Some report) w = (Raised none_not_subscriptable, w1)
      | Some research_data =>
          let req :=
            App.planning_request
              (ExecutionPlanGenerator.get_execution_planning_prompt idea report
                 research_data) in
          ∃ d,
            App.run_execution_plan E idea (Some report) w
            = (Returned d, log (ECall req) w1)
            ∧ ("error" ∈ dom d ↔ is_completed (create E (ncalls w1) req) = false)
      end
  end.
Proof.
  destruct market_report as [report|]; [|reflexivity].
  cbn zeta. unfold App.run_execution_plan.
  destruct (research_data_is_text E idea report w) as (d & w1 & Hweb & -> & _ & Hdata).
  rewrite (bind_run _ _ _ _ _ Hweb), Hdata.
  destruct (research_data_after _) as [research_data|]; [|reflexivity].
  unfold try_except, mbind, M_bind, create_completion, now_isoformat, mret, M_ret.
  destruct (create E _ _) as [c|cls msg]; eexists; (split; [reflexivity|]);
    cbn [is_completed]; rewrite elem_of_dom.
  - split; [|discriminate]. intros [v Hv]. discriminate.
  - split; [done|]. intros _. by eexists.
Qed.

(** X17.  The planning step of the dashboard on a market report that is a
    [str]: the web research, then one planning call, made once and
    without delay, with the prompt built from the text the web research
    gave; it returns a dictionary, with ["error"] exactly when the planning
    call failed.  When the web research completed with no text ([None]),
    the slice of the planning prompt raises [TypeError] before the [try]
    and no planning call is made; on a market report that is [None] the
    slice of the web-research prompt raises before any request. *)
Lemma run_execution_plan_run idea market_report w :
  match market_report with
  | None => App.run_execution_plan E idea None w = (Raised none_not_subscriptable, w)
  | Some report =>
      let s := WebResearch idea report in
      let w1 := extend w (retry_trace (final_attempt E s w) (request_of s) 61) in
      match research_data_after (final_outcome E s w) with
      | None =>
          App.run_execution_plan E idea (Some report) w = (Raised none_not_subscriptable, w1)
      | Some research_data =>
          let req :=
            App.planning_request
              (ExecutionPlanGenerator.get_execution_planning_prompt idea report
                 research_data) in
          ∃ d,
            App.run_execution_plan E idea (Some report) w
            = (Returned d, log (ECall req) w1)
            ∧ ("error" ∈ dom d ↔ is_completed (create E (ncalls w1) req) = false)
            ∧ calls (log (ECall req) w1)
              = calls w ++ replicate (S (final_attempt E s w)) (request_of s) ++ [req]
            ∧ sleeps (log (ECall req) w1) = sleeps w1
      end
  end.
Proof.
  pose proof (run_execution_plan_by_research idea market_report w) as H.
  destruct market_report as [report|]; [|exact H].
  cbn zeta in *.
  destruct (research_data_after _) as [research_data|]; [|exact H].
  destruct H as (d & Hrun & Herr). exists d. split; [exact Hrun|]. split; [exact Herr|].
  rewrite log_extend, calls_extend, sleeps_extend, calls_retry_trace, <- app_assoc.
  split; [reflexivity|]. by rewrite app_nil_r.
Qed.

(** X18.  The context of the dashboard's chat keeps a stored report whole, however
    long, and writes ["[:3000]"] after it. *)
Lemma chat_context_keeps_report repr user_idea d report :
  d !! "market_research_analysis" = Some (VStr report) →
  App.chat_context repr user_idea (Some d) None None
  = "USER IDEA: " +:+ user_idea +:+ App.nl +:+ App.nl
    +:+ "MARKET RESEARCH:" +:+ App.nl +:+ report +:+ "[:3000]" +:+ App.nl +:+ App.nl.
Proof.
  intros Hd. unfold App.chat_context, App.stored, Reports.get.
  rewrite bool_decide_eq_false_2 by (intros ->; by rewrite lookup_empty in Hd).
  cbn [negb default]. unfold id. rewrite Hd. cbn [default Reports.py_str].
  by rewrite !append_assoc.
Qed.

End ChatbotAndApp.

(** ** Sizes of the prompts *)

Section PromptSizes.

Lemma length_append (s1 s2 : string) :
  String.length (s1 +:+ s2) = String.length s1 + String.length s2.
Proof.
  induction s1 as [|c s1 IH]; [reflexivity|].
  change (S (String.length (s1 +:+ s2)) = S (String.length s1 + String.length s2)).
  by rewrite IH.
Qed.

Lemma len_append (s1 s2 : string) : len (s1 +:+ s2) = (len s1 + len s2)%Z.
Proof. unfold len. rewrite length_append. lia. Qed.

Lemma len_slice_to n s : len (slice_to n s) = (Z.of_nat n `min` len s)%Z.
Proof. unfold len. rewrite slice_to_length. lia. Qed.

(** Evaluates the lengths of the string literals of the goal. *)
Ltac literal_lengths :=
  repeat match goal with
  | |- context [len (String ?c ?s)] =>
      let n := eval vm_compute in (len (String c s)) in
      change (len (String c s)) with n
  end.

Ltac prompt_length :=
  rewrite ?len_append, ?len_slice_to; unfold dq; literal_lengths.

(** X1.  The three builders that take prior outputs cut each to a fixed budget:
    the size of the prompt is the size of its template, of the idea and of
    at most 1500, 2000 or 2500 characters of each prior output.  However
    long the reports are, the planning prompt exceeds the idea by at most
    5080 characters, the web-research prompt by 2284, the strategic prompt
    by 17570. *)
Lemma truncating_prompts_bounded (user_idea market_report other : string) :
  (len (ExecutionPlanGenerator.get_execution_planning_prompt user_idea market_report other)
   = 1580 + len user_idea + 1500 `min` len market_report + 2000 `min` len other
   ∧ len (ExecutionPlanGenerator.get_web_research_prompt user_idea market_report)
     = 784 + len user_idea + 1500 `min` len market_report
   ∧ len (StrategicAnalyzer.get_strategic_analysis_prompt user_idea market_report other)
     = 12570 + len user_idea + 2500 `min` len market_report + 2500 `min` len other)%Z
  ∧ (len (ExecutionPlanGenerator.get_execution_planning_prompt user_idea market_report other)
     ≤ 5080 + len user_idea
     ∧ len (ExecutionPlanGenerator.get_web_research_prompt user_idea market_report)
       ≤ 2284 + len user_idea
     ∧ len (StrategicAnalyzer.get_strategic_analysis_prompt user_idea market_report other)
       ≤ 17570 + len user_idea)%Z.
Proof.
  assert (len (ExecutionPlanGenerator.get_execution_planning_prompt
                 user_idea market_report other)
          = 1580 + len user_idea + 1500 `min` len market_report + 2000 `min` len other)%Z
    as Hplan.
  { unfold ExecutionPlanGenerator.get_execution_planning_prompt. prompt_length. lia. }
  assert (len (ExecutionPlanGenerator.get_web_research_prompt user_idea market_report)
          = 784 + len user_idea + 1500 `min` len market_report)%Z as Hweb.
  { unfold ExecutionPlanGenerator.get_web_research_prompt. prompt_length. lia. }
  assert (len (StrategicAnalyzer.get_strategic_analysis_prompt
                 user_idea market_report other)
          = 12570 + len user_idea + 2500 `min` len market_report + 2500 `min` len other)%Z
    as Hstrat.
  { unfold StrategicAnalyzer.get_strategic_analysis_prompt. prompt_length. lia. }
  repeat split; try done; lia.
Qed.

(** X2.  The builders that take no prior output, or take it whole, cut nothing:
    the market-research prompt holds the idea six times, the SWOT prompt
    once, and the chatbot's prompt holds the three reports and the question
    whole, so its size grows with theirs without bound. *)
Lemma untruncated_prompts_size (user_idea mr ep sa question : string) :
  (len (MarketResearchAnalysis.get_universal_market_research_prompt user_idea)
   = 1826 + 6 * len user_idea
   ∧ len (StrategicAnalyzer.swot_prompt user_idea) = 525 + len user_idea
   ∧ len (Chatbot.build_prompt mr ep sa question)
     = 293 + len mr + len ep + len sa + len question)%Z.
Proof.
  split; [|split].
  - unfold MarketResearchAnalysis.get_universal_market_research_prompt.
    prompt_length. lia.
  - unfold StrategicAnalyzer.swot_prompt. prompt_length. lia.
  - unfold Chatbot.build_prompt. prompt_length. lia.
Qed.

End PromptSizes.

(** ** The report writers *)

Section ReportWriters.

Import Reports.

Variable repr : pyval → string.
Variable slice_of_dict : py_error.

(** The names the writers choose by default are not the names the chatbot
    reads. *)
Lemma default_names_differ timestamp path :
  path = "market_research_analysis.md" ∨ path = "execution_plan.md"
  ∨ path = "strategic_analysis.md" →
  "market_research_analysis_" +:+ timestamp +:+ ".md" ≠ path
  ∧ "execution_plan_" +:+ timestamp +:+ ".md" ≠ path
  ∧ "strategic_analysis_" +:+ timestamp +:+ ".md" ≠ path.
Proof.
  intros [->|[->| ->]]; repeat split; intros H; cbv [String.append] in H; discriminate.
Qed.

(** Every writer, when it does not raise, adds one file and changes no
    other. *)
Lemma writers_insert timestamp d filename files name files' :
  save_analysis_report repr timestamp d filename files = inr (name, files')
  ∨ save_execution_plan repr slice_of_dict timestamp d filename files = inr (name, files')
  ∨ save_strategic_analysis repr timestamp d filename files = inr (name, files') →
  ∃ content, files' = <[name := content]> files.
Proof.
  unfold save_analysis_report, save_execution_plan, save_strategic_analysis.
  intros [H|[H|H]];
    repeat match type of H with
    | match ?x with _ => _ end = _ => destruct x; try discriminate
    end;
    injection H as <- <-; eexists; reflexivity.
Qed.

(** [save_analysis_report] raises exactly when the value under
    ['analysis_metadata'] is present and is no dictionary: the
    [AttributeError] of its [.get]. *)
Lemma analysis_report_raises timestamp d filename files e :
  save_analysis_report repr timestamp d filename files = inl e
  ↔ e = AttributeError ∧ ∃ v, d !! "analysis_metadata" = Some v ∧ ∀ m, v ≠ VDict m.
Proof.
  unfold save_analysis_report, get_in.
  destruct (d !! "analysis_metadata") as [[]|] eqn:Hmeta;
    destruct (py_truthy _); split;
    try discriminate; try (intros [_ (? & ? & Hv)]; simplify_eq; by edestruct Hv);
    try (intros [-> _]; reflexivity);
    try (intros [= <-]; split; [done|]; eexists; split; [done|]; discriminate).
Qed.

(** So does [save_strategic_analysis]. *)
Lemma strategic_analysis_raises timestamp d filename files e :
  save_strategic_analysis repr timestamp d filename files = inl e
  ↔ e = AttributeError ∧ ∃ v, d !! "analysis_metadata" = Some v ∧ ∀ m, v ≠ VDict m.
Proof.
  unfold save_strategic_analysis, get_in.
  destruct (d !! "analysis_metadata") as [[]|] eqn:Hmeta; split;
    try discriminate; try (intros [_ (? & ? & Hv)]; simplify_eq; by edestruct Hv);
    try (intros [-> _]; reflexivity);
    try (intros [= <-]; split; [done|]; eexists; split; [done|]; discriminate).
Qed.

(** [save_execution_plan] raises exactly when the value under
    ['market_report'] or ['web_research_summary'] is present and has no
    slice. *)
Lemma execution_plan_raises timestamp d filename files :
  (∃ e, save_execution_plan repr slice_of_dict timestamp d filename files = inl e)
  ↔ ∃ key v, (key = "market_report" ∨ key = "web_research_summary")
             ∧ d !! key = Some v ∧ (∀ s, v ≠ VStr s) ∧ (∀ l, v ≠ VList l).
Proof.
  unfold save_execution_plan, get, slice_value.
  destruct (d !! "market_report") as [[]|] eqn:Hm;
    destruct (d !! "web_research_summary") as [[]|] eqn:Hw;
    cbn [default]; split;
    first
      [ intros [? ?]; discriminate
      | intros (key & v & [->| ->] & Hv & Hs & Hl); simplify_eq;
        solve [by edestruct Hs | by edestruct Hl]
      | intros _; eexists; reflexivity
      | intros _;
        solve [ eexists "market_report", _; split; [by left|];
                split; [done|]; split; discriminate
              | eexists "web_research_summary", _; split; [by right|];
                split; [done|]; split; discriminate ] ].
Qed.

(** X3.  The report writers raise only on a value of the wrong kind, never on a
    missing key: [save_analysis_report] and [save_strategic_analysis] raise
    exactly when the value under ['analysis_metadata'] is present and is no
    dictionary, and then [AttributeError]; [save_execution_plan] raises
    exactly when the value under ['market_report'] or
    ['web_research_summary'] is present and is neither a string nor a
    list. *)
Theorem report_writers_raise_iff (timestamp : string) (d : gmap string pyval)
    (filename : option string) (files : gmap string string) (e : py_error) :
  (save_analysis_report repr timestamp d filename files = inl e
   ↔ e = AttributeError ∧ ∃ v, d !! "analysis_metadata" = Some v ∧ ∀ m, v ≠ VDict m)
  ∧ (save_strategic_analysis repr timestamp d filename files = inl e
     ↔ e = AttributeError ∧ ∃ v, d !! "analysis_metadata" = Some v ∧ ∀ m, v ≠ VDict m)
  ∧ ((∃ e', save_execution_plan repr slice_of_dict timestamp d filename files = inl e')
     ↔ ∃ key v, (key = "market_report" ∨ key = "web_research_summary")
                ∧ d !! key = Some v ∧ (∀ s, v ≠ VStr s) ∧ (∀ l, v ≠ VList l)).
Proof.
  split; [|split].
  - apply analysis_report_raises.
  - apply strategic_analysis_raises.
  - apply execution_plan_raises.
Qed.

Lemma occurs_here (t post : string) : occurs_in t (t +:+ post).
Proof. by exists "", post. Qed.

Lemma occurs_later (t a s : string) : occurs_in t s → occurs_in t (a +:+ s).
Proof. intros (pre & post & ->). exists (a +:+ pre), post. by rewrite append_assoc. Qed.

(** Finds a text among the parts of a report. *)
Ltac find_text := repeat first [apply occurs_here | apply occurs_later].

Ltac written_by H :=
  repeat match type of H with
  | match ?x with _ => _ end = _ => destruct x; try discriminate
  end;
  injection H as <- <-.

Lemma analysis_report_written timestamp d filename files name files' :
  save_analysis_report repr timestamp d filename files = inr (name, files') →
  name = (if truthy filename then default "" filename
          else "market_research_analysis_" +:+ timestamp +:+ ".md")
  ∧ ∃ content,
      files' = <[name := content]> files
      ∧ occurs_in (py_str repr (get d "market_research_analysis"
                                  (VStr "Analysis not available"))) content.
Proof.
  unfold save_analysis_report. intros H. written_by H.
  all: split; [done|]; eexists; split; [reflexivity|]; find_text.
Qed.

Lemma execution_plan_written timestamp d filename files name files' :
  save_execution_plan repr slice_of_dict timestamp d filename files = inr (name, files') →
  name = (if truthy filename then default "" filename
          else "execution_plan_" +:+ timestamp +:+ ".md")
  ∧ ∃ content,
      files' = <[name := content]> files
      ∧ occurs_in (py_str repr (get d "execution_plan"
                                  (VStr "Execution plan not available"))) content.
Proof.
  unfold save_execution_plan. intros H. written_by H.
  all: split; [done|]; eexists; split; [reflexivity|]; find_text.
Qed.

Lemma strategic_analysis_written timestamp d filename files name files' :
  save_strategic_analysis repr timestamp d filename files = inr (name, files') →
  name = (if truthy filename then default "" filename
          else "strategic_analysis_" +:+ timestamp +:+ ".md")
  ∧ ∃ content,
      files' = <[name := content]> files
      ∧ occurs_in (py_str repr (get d "strategic_analysis"
                                  (VStr "Strategic analysis not available"))) content.
Proof.
  unfold save_strategic_analysis. intros H. written_by H.
  all: split; [done|]; eexists; split; [reflexivity|]; find_text.
Qed.

(** X4.  A writer that does not raise adds one file to the directory and
    changes no other.  The file has the name given or, when none or the
    empty name is given, the default name of that writer with the time
    stamp in it: [market_research_analysis_], [execution_plan_] or
    [strategic_analysis_], then the time stamp and [.md].  The file holds
    the text of the report whole: the value under
    ['market_research_analysis'], ['execution_plan'] or
    ['strategic_analysis'], or the default text of the writer when the key
    is missing. *)
Theorem report_writers_write_one_file (timestamp : string) (d : gmap string pyval)
    (filename : option string) (files files' : gmap string string) (name : string) :
  (save_analysis_report repr timestamp d filename files = inr (name, files') →
   name = (if truthy filename then default "" filename
           else "market_research_analysis_" +:+ timestamp +:+ ".md")
   ∧ ∃ content,
       files' = <[name := content]> files
       ∧ occurs_in (py_str repr (get d "market_research_analysis"
                                   (VStr "Analysis not available"))) content)
  ∧ (save_execution_plan repr slice_of_dict timestamp d filename files
     = inr (name, files') →
     name = (if truthy filename then default "" filename
             else "execution_plan_" +:+ timestamp +:+ ".md")
     ∧ ∃ content,
         files' = <[name := content]> files
         ∧ occurs_in (py_str repr (get d "execution_plan"
                                     (VStr "Execution plan not available"))) content)
  ∧ (save_strategic_analysis repr timestamp d filename files = inr (name, files') →
     name = (if truthy filename then default "" filename
             else "strategic_analysis_" +:+ timestamp +:+ ".md")
     ∧ ∃ content,
         files' = <[name := content]> files
         ∧ occurs_in (py_str repr (get d "strategic_analysis"
                                     (VStr "Strategic analysis not available"))) content).
Proof.
  split; [apply analysis_report_written|].
  split; [apply execution_plan_written|apply strategic_analysis_written].
Qed.

Variable E : env.

Lemma universal_newlines_id (s : string) :
  no_carriage_return s = true → universal_newlines s = s.
Proof.
  induction s as [|c s IH]; [done|]. cbn [no_carriage_return universal_newlines].
  intros [Hc Hs]%andb_prop. apply negb_true_iff in Hc. rewrite Hc. by rewrite IH.
Qed.

(** X5.  A report saved under a default name leaves the three files the
    chatbot reads as they were, so the chatbot loads what it loaded
    before; a report saved under a name the chatbot reads, and whose text
    holds no carriage return, is what it then loads. *)
Lemma saved_report_and_chatbot timestamp d filename files name files' path w :
  save_analysis_report repr timestamp d filename files = inr (name, files')
  ∨ save_execution_plan repr slice_of_dict timestamp d filename files = inr (name, files')
  ∨ save_strategic_analysis repr timestamp d filename files = inr (name, files') →
  path = "market_research_analysis.md" ∨ path = "execution_plan.md"
  ∨ path = "strategic_analysis.md" →
  (truthy filename = false →
   name ≠ path
   ∧ Chatbot.load_report (on_disk E files') path w
     = Chatbot.load_report (on_disk E files) path w)
  ∧ (filename = Some path →
     ∃ content,
       files' = <[path := content]> files
       ∧ (no_carriage_return content = true →
          Chatbot.load_report (on_disk E files') path w = (Returned content, w))).
Proof.
  intros Hsave Hpath.
  assert (name = (if truthy filename then default "" filename
                  else "market_research_analysis_" +:+ timestamp +:+ ".md")
          ∨ name = (if truthy filename then default "" filename
                    else "execution_plan_" +:+ timestamp +:+ ".md")
          ∨ name = (if truthy filename then default "" filename
                    else "strategic_analysis_" +:+ timestamp +:+ ".md")) as Hname.
  { destruct Hsave as [H|[H|H]].
    - left. by apply analysis_report_written in H as [? _].
    - right; left. by apply execution_plan_written in H as [? _].
    - right; right. by apply strategic_analysis_written in H as [? _]. }
  destruct (writers_insert _ _ _ _ _ _ Hsave) as [content ->].
  split.
  - intros Hf. rewrite Hf in Hname.
    destruct (default_names_differ timestamp path Hpath) as (H1 & H2 & H3).
    assert (name ≠ path) as Hne by (by destruct Hname as [->|[->| ->]]).
    split; [done|].
    unfold Chatbot.load_report, try_except, read_file, on_disk. cbn [World.files].
    by rewrite lookup_insert_ne.
  - intros ->.
    assert (truthy (Some path) = true) as Ht by (by destruct Hpath as [->|[->| ->]]).
    rewrite Ht in Hname. cbn [default] in Hname.
    assert (name = path) as -> by (by destruct Hname as [->|[->| ->]]).
    exists content. split; [done|]. intros Hcr.
    unfold Chatbot.load_report, try_except, read_file, on_disk. cbn [World.files].
    by rewrite lookup_insert_eq, universal_newlines_id.
Qed.

(** Whatever the backend answers, the dictionary a stage function returns
    is one its writer saves without raising: failure dictionaries lack the
    keys and get the default texts, success dictionaries hold a dictionary
    under ['analysis_metadata'] and strings under the keys that are
    sliced. *)
Lemma market_result_is_saved timestamp filename files user_idea w d w' :
  MarketResearchAnalysis.analyze_market_opportunity E user_idea w = (Returned d, w') →
  ∃ name content,
    save_analysis_report repr timestamp d filename files
    = inr (name, <[name := content]> files).
Proof.
  intros Hrun.
  destruct (save_analysis_report repr timestamp d filename files) as [e|[name files']]
    eqn:Hsave.
  - apply analysis_report_raises in Hsave as [_ (v & Hv & Hnot)].
    rewrite analyze_market_opportunity_run in Hrun. cbv zeta in Hrun.
    injection Hrun as <- _. revert Hv.
    destruct (final_outcome E (MarketResearch user_idea) w) as [c|[] msg];
      try destruct (usage c);
      intros Hv; vm_compute in Hv; simplify_eq; by edestruct Hnot.
  - destruct (writers_insert timestamp d filename files name files') as [content ->];
      eauto.
Qed.

Lemma strategic_result_is_saved timestamp filename files user_idea market_report
    execution_plan w d w' :
  StrategicAnalyzer.run_analysis E user_idea market_report execution_plan w
  = (Returned (Some d), w') →
  ∃ name content,
    save_strategic_analysis repr timestamp d filename files
    = inr (name, <[name := content]> files).
Proof.
  intros Hrun.
  destruct (save_strategic_analysis repr timestamp d filename files) as [e|[name files']]
    eqn:Hsave.
  - apply strategic_analysis_raises in Hsave as [_ (v & Hv & Hnot)].
    rewrite run_analysis_run in Hrun. cbv zeta in Hrun.
    injection Hrun as <- _. revert Hv.
    destruct (final_outcome E (StrategicAnalysis user_idea market_report execution_plan) w)
      as [c|[] msg];
      try destruct (usage c);
      intros Hv; vm_compute in Hv; simplify_eq; by edestruct Hnot.
  - destruct (writers_insert timestamp d filename files name files') as [content ->];
      eauto 6.
Qed.

Lemma plan_result_is_saved timestamp filename files user_idea market_report research_data
    w d w' :
  ExecutionPlanGenerator.planning_call E user_idea market_report research_data w
  = (Returned d, w') →
  ∃ name content,
    save_execution_plan repr slice_of_dict timestamp d filename files
    = inr (name, <[name := content]> files).
Proof.
  intros Hrun.
  destruct (save_execution_plan repr slice_of_dict timestamp d filename files)
    as [e|[name files']] eqn:Hsave.
  - destruct (proj1 (execution_plan_raises timestamp d filename files))
      as (key & v & Hkey & Hv & Hs & Hl); [by exists e|].
    rewrite planning_call_run in Hrun. injection Hrun as <- _.
    destruct (create E (ncalls w) _) as [c|cls msg].
    + destruct Hkey as [->| ->].
      * rewrite lookup_insert_ne in Hv by done. rewrite lookup_insert_eq in Hv.
        injection Hv as <-. by edestruct Hs.
      * do 2 (rewrite lookup_insert_ne in Hv by done). rewrite lookup_insert_eq in Hv.
        injection Hv as <-. by edestruct Hs.
    + destruct Hkey as [->| ->]; by destruct cls.
  - destruct (writers_insert timestamp d filename files name files') as [content ->];
      eauto 6.
Qed.

End ReportWriters.

(** ** The console dialogues of the stage functions *)

Section ConsoleDialogue.

Variable E : env.

Lemma paste_lines_until_blank lines rest acc :
  Forall (λ l, l ≠ "") lines →
  StrategicAnalyzer.paste_lines (lines ++ "" :: rest) acc = (Some (acc ++ lines), rest)
  ∧ StrategicAnalyzer.paste_lines lines acc = (None, []).
Proof.
  intros Hlines. revert acc.
  induction Hlines as [|line lines Hline _ IH]; intros acc.
  - split; [|reflexivity]. cbn. by rewrite app_nil_r.
  - cbn [app StrategicAnalyzer.paste_lines].
    apply String.eqb_neq in Hline. rewrite Hline.
    destruct (IH (acc ++ [line])) as [-> ->]. by rewrite <- app_assoc.
Qed.

Lemma paste_lines_none console acc rest :
  StrategicAnalyzer.paste_lines console acc = (None, rest) → rest = [].
Proof.
  revert acc. induction console as [|line console IH]; intros acc; cbn.
  - by intros [= <-].
  - destruct (String.eqb line ""); [discriminate|]. apply IH.
Qed.

(** X11.  The paste loop returns the lines typed before the first empty line,
    joined by line feeds, and leaves what follows that line on the
    console; on a console with no empty line it reads every line and ends
    on [EOFError]. *)
Theorem read_pasted_until_blank (lines rest : list string) (w : world) :
  Forall (λ l, l ≠ "") lines →
  (stdin w = lines ++ "" :: rest →
   StrategicAnalyzer.read_pasted w
   = (Returned (StrategicAnalyzer.join_lines lines),
      {| trace := trace w; stdin := rest; stdout := stdout w |}))
  ∧ (stdin w = lines →
     StrategicAnalyzer.read_pasted w
     = (Raised EOFError, {| trace := trace w; stdin := []; stdout := stdout w |})).
Proof.
  intros Hlines. unfold StrategicAnalyzer.read_pasted.
  destruct (paste_lines_until_blank lines rest [] Hlines) as [Hblank Heof].
  split; intros ->; [by rewrite Hblank|by rewrite Heof].
Qed.

Lemma read_pasted_until_blank_witness :
  StrategicAnalyzer.read_pasted
    {| trace := []; stdin := ["Market size: 4 bn"; "Growth: 12 %"; ""; "2"]; stdout := [] |}
  = (Returned ("Market size: 4 bn" +:+ App.nl +:+ "Growth: 12 %"),
     {| trace := []; stdin := ["2"]; stdout := [] |}).
Proof.
  apply (read_pasted_until_blank ["Market size: 4 bn"; "Growth: 12 %"] ["2"]
           {| trace := []; stdin := ["Market size: 4 bn"; "Growth: 12 %"; ""; "2"];
              stdout := [] |}).
  - repeat constructor; discriminate.
  - reflexivity.
Defined.

Lemma console_only_ret {A} (a : A) : console_only (mret a).
Proof. by intros w. Qed.

Lemma console_only_bind {A B} (m : M A) (k : A → M B) :
  console_only m → (∀ a, console_only (k a)) → console_only (m ≫= k).
Proof.
  intros Hm Hk w. unfold mbind, M_bind. specialize (Hm w).
  destruct (m w) as [[a|e] w1]; [|done].
  specialize (Hk a w1). destruct (k a w1) as [[b|e] w2].
  - congruence.
  - destruct Hk as (-> & Htr & Hin). repeat split; congruence.
Qed.

Lemma console_only_input : console_only input.
Proof. intros [tr [|line rest] out]; by cbn. Qed.

Lemma console_only_read_pasted : console_only StrategicAnalyzer.read_pasted.
Proof.
  intros w. unfold StrategicAnalyzer.read_pasted.
  destruct (StrategicAnalyzer.paste_lines (stdin w) []) as [[lines|] rest] eqn:Hpaste;
    [done|].
  apply paste_lines_none in Hpaste as ->. done.
Qed.

Lemma console_only_ask_report fallback :
  console_only (StrategicAnalyzer.ask_report E fallback).
Proof.
  unfold StrategicAnalyzer.ask_report. apply console_only_bind.
  - intros w. unfold fmap, M_fmap, mbind, M_bind.
    pose proof (console_only_input w) as Hin.
    by destruct (input w) as [[line|e] w1].
  - intros choice. destruct (String.eqb choice "1"); [apply console_only_read_pasted|].
    apply console_only_bind; [apply console_only_input|].
    intros path w. unfold try_except, read_file, mret, M_ret.
    by destruct (files E path).
Qed.

Lemma console_only_argument (given : option string) (ask : M string) :
  console_only ask →
  console_only (if truthy given then mret (default "" given) else ask).
Proof. intros Hask. destruct (truthy given); [apply console_only_ret|done]. Qed.

Lemma raises_after_console {A B} (m : M A) (k : A → M B) :
  console_only m → (∀ a, raises_at_console_end (k a)) →
  raises_at_console_end (m ≫= k).
Proof.
  intros Hm Hk w w' e. unfold mbind, M_bind. specialize (Hm w).
  destruct (m w) as [[a|e1] w1].
  - intros Hrun. apply Hk in Hrun as (-> & Htr & Hin). repeat split; congruence.
  - by intros [= <- <-].
Qed.

(** What [analyze_strategy] returns, its retry loop returned. *)
Lemma analyze_strategy_returned user_idea market_report execution_plan w r w' :
  StrategicAnalyzer.analyze_strategy E user_idea market_report execution_plan w
  = (Returned r, w') →
  ∃ i m p w1, StrategicAnalyzer.run_analysis E i m p w1 = (Returned r, w').
Proof.
  unfold StrategicAnalyzer.analyze_strategy. intros Hrun.
  apply bind_returned in Hrun as (i & w1 & _ & Hrun).
  apply bind_returned in Hrun as (m & w2 & _ & Hrun).
  apply bind_returned in Hrun as (p & w3 & _ & Hrun).
  eauto.
Qed.

Lemma analyze_strategy_console user_idea market_report execution_plan :
  raises_at_console_end
    (StrategicAnalyzer.analyze_strategy E user_idea market_report execution_plan).
Proof.
  unfold StrategicAnalyzer.analyze_strategy.
  apply raises_after_console; [apply console_only_argument, console_only_input|].
  intros i.
  apply raises_after_console; [apply console_only_argument, console_only_ask_report|].
  intros m.
  apply raises_after_console; [apply console_only_argument, console_only_ask_report|].
  intros p w w' e. rewrite run_analysis_run. discriminate.
Qed.

(** [generate_execution_plan] once its two arguments are resolved: the
    web research, and then the planning call on the text it gave, or the
    [TypeError] of the slice of a text that is [None]. *)
Lemma research_then_plan user_idea market_report w :
  let s := WebResearch user_idea market_report in
  let w1 := extend w (retry_trace (final_attempt E s w) (request_of s) 61) in
  (ExecutionPlanGenerator.research_execution_strategies E user_idea market_report
   ≫= λ web_research,
        ExecutionPlanGenerator.plan_from_research E user_idea market_report
          (ExecutionPlanGenerator.research_data_of web_research)) w
  = match research_data_after (final_outcome E s w) with
    | Some research_data =>
        ExecutionPlanGenerator.planning_call E user_idea market_report research_data w1
    | None => (Raised none_not_subscriptable, w1)
    end.
Proof.
  cbn zeta.
  destruct (research_data_is_text E user_idea market_report w)
    as (d & w1 & Hweb & -> & _ & Hdata).
  rewrite (bind_run _ _ _ _ _ Hweb), Hdata.
  by destruct (research_data_after _).
Qed.

(** X12.  [analyze_strategy] ends on an exception only while it asks for an
    argument it was not given, at the end of the console: the exception is
    [EOFError], every line has been read, and no request has been sent nor
    any delay taken. *)
Theorem analyze_strategy_raises_at_console_end
    (user_idea market_report execution_plan : option string) (w w' : world) (e : exn) :
  StrategicAnalyzer.analyze_strategy E user_idea market_report execution_plan w
  = (Raised e, w') →
  e = EOFError ∧ trace w' = trace w ∧ stdin w' = []
  ∧ truthy user_idea && truthy market_report && truthy execution_plan = false.
Proof.
  intros Hrun.
  destruct (analyze_strategy_console _ _ _ _ _ _ Hrun) as (-> & Htr & Hin).
  repeat split; try done.
  unfold StrategicAnalyzer.analyze_strategy in Hrun.
  destruct (truthy user_idea), (truthy market_report), (truthy execution_plan);
    try reflexivity.
  unfold mbind, M_bind, mret, M_ret in Hrun. rewrite run_analysis_run in Hrun.
  discriminate.
Qed.

(** The two ways in which [generate_execution_plan] ends on an exception. *)
Lemma generate_execution_plan_raises
    (user_idea market_report : option string) (w w' : world) (e : exn) :
  ExecutionPlanGenerator.generate_execution_plan E user_idea market_report w
  = (Raised e, w') →
  (e = EOFError ∧ trace w' = trace w ∧ stdin w' = []
   ∧ truthy user_idea && truthy market_report = false)
  ∨ (e = none_not_subscriptable
     ∧ ∃ idea report w0,
         let s := WebResearch idea report in
         trace w0 = trace w
         ∧ (∃ c, final_outcome E s w0 = Completed c ∧ content (choice0 c) = None)
         ∧ w' = extend w0 (retry_trace (final_attempt E s w0) (request_of s) 61)).
Proof.
  unfold ExecutionPlanGenerator.generate_execution_plan. intros Hrun.
  pose proof (console_only_argument user_idea input console_only_input w) as C1.
  destruct ((if truthy user_idea then mret (default "" user_idea) else input) w)
    as [[i|e1] w1] eqn:H1; rewrite (bind_run _ _ _ _ _ H1) in Hrun.
  - pose proof (console_only_argument market_report input console_only_input w1) as C2.
    destruct ((if truthy market_report then mret (default "" market_report) else input) w1)
      as [[m|e2] w2] eqn:H2; rewrite (bind_run _ _ _ _ _ H2) in Hrun.
    + rewrite research_then_plan in Hrun.
      destruct (final_outcome E (WebResearch i m) w2) as [c|cls msg] eqn:Hfin;
        cbn [research_data_after] in Hrun.
      * destruct (content (choice0 c)) as [text|] eqn:Htext.
        -- rewrite planning_call_run in Hrun. discriminate.
        -- injection Hrun as <- <-. right. split; [done|].
           exists i, m, w2. cbn zeta. split; [congruence|]. split; [|done].
           exists c. by rewrite Hfin.
      * rewrite planning_call_run in Hrun. discriminate.
    + injection Hrun as <- <-. destruct C2 as (-> & Htr & Hin). left.
      repeat split; [congruence|done|].
      destruct (truthy market_report); [discriminate|]. apply andb_false_r.
  - injection Hrun as <- <-. destruct C1 as (-> & Htr & Hin). left.
    repeat split; [done..|].
    destruct (truthy user_idea); [discriminate|done].
Qed.

(** X13.  [generate_execution_plan] ends on an exception in two cases only.
    While it asks for the idea or the report it was not given, at the end
    of the console: the exception is [EOFError], every line has been read,
    and no request has been sent nor any delay taken.  And when the web
    research completed with a text that is [None]: the slice of the
    planning prompt raises [TypeError] after the attempts of the web
    research, and no planning call is made.  Given its two arguments, it
    asks nothing, runs the web research and then makes the planning call
    on the text the research gave, or raises when that text is [None]. *)
Theorem generate_execution_plan_raises_at_console_end
    (user_idea market_report : option string) (w : world) :
  (∀ e w',
     ExecutionPlanGenerator.generate_execution_plan E user_idea market_report w
     = (Raised e, w') →
     (e = EOFError ∧ trace w' = trace w ∧ stdin w' = []
      ∧ truthy user_idea && truthy market_report = false)
     ∨ (e = none_not_subscriptable
        ∧ ∃ idea report w0,
            let s := WebResearch idea report in
            trace w0 = trace w
            ∧ (∃ c, final_outcome E s w0 = Completed c ∧ content (choice0 c) = None)
            ∧ w' = extend w0 (retry_trace (final_attempt E s w0) (request_of s) 61)))
  ∧ (∀ idea report,
       user_idea = Some idea → market_report = Some report →
       idea ≠ "" → report ≠ "" →
       let s := WebResearch idea report in
       let w1 := extend w (retry_trace (final_attempt E s w) (request_of s) 61) in
       ExecutionPlanGenerator.generate_execution_plan E user_idea market_report w
       = match research_data_after (final_outcome E s w) with
         | Some research_data =>
             ExecutionPlanGenerator.planning_call E idea report research_data w1
         | None => (Raised none_not_subscriptable, w1)
         end).
Proof.
  split.
  - intros e w'. apply generate_execution_plan_raises.
  - intros idea report -> -> Hi Hm. cbv zeta.
    rewrite generate_execution_plan_given by done. apply research_then_plan.
Qed.

(** X14.  Asked for nothing but the idea and two file paths, [analyze_strategy]
    runs its analysis on the contents of the files; a file that is missing
    or cannot be read does not stop it: its text is then ["Market research
    not available"] or ["Execution plan not available"]. *)
Theorem analyze_strategy_from_files
    (user_idea choice1 path1 choice2 path2 : string) (rest : list string) (w : world) :
  stdin w = user_idea :: choice1 :: path1 :: choice2 :: path2 :: rest →
  strip choice1 ≠ "1" →
  strip choice2 ≠ "1" →
  StrategicAnalyzer.analyze_strategy E None None None w
  = StrategicAnalyzer.run_analysis E user_idea
      match files E path1 with
      | FileContent text => text
      | _ => "Market research not available"
      end
      match files E path2 with
      | FileContent text => text
      | _ => "Execution plan not available"
      end
      {| trace := trace w; stdin := rest; stdout := stdout w |}.
Proof.
  intros Hin H1 H2. apply String.eqb_neq in H1, H2.
  unfold StrategicAnalyzer.analyze_strategy, StrategicAnalyzer.ask_report.
  cbn [truthy].
  unfold mbind, M_bind, fmap, M_fmap, mbind, M_bind, mret, M_ret, input, try_except,
    read_file.
  rewrite Hin. cbv beta iota zeta delta [stdin trace stdout]. rewrite H1.
  destruct (files E path1); cbv beta iota zeta delta [stdin trace stdout]; rewrite H2;
    by destruct (files E path2).
Qed.

End ConsoleDialogue.

(** ** The command-line mains *)

Section CommandLine.

Import Reports.

Variable E : env.
Variable strftime_now : nat → string.
Variable repr : pyval → string.
Variable slice_of_dict : py_error.

Ltac default_name_of H :=
  repeat match type of H with
  | match ?x with _ => _ end = _ => destruct x; try discriminate
  end;
  by injection H as <- _.

(** The name a writer chooses when none is given. *)
Lemma default_name_market timestamp d files name files' :
  save_analysis_report repr timestamp d None files = inr (name, files') →
  name = "market_research_analysis_" +:+ timestamp +:+ ".md".
Proof. unfold save_analysis_report. cbn [truthy]. intros H. default_name_of H. Qed.

Lemma default_name_plan timestamp d files name files' :
  save_execution_plan repr slice_of_dict timestamp d None files = inr (name, files') →
  name = "execution_plan_" +:+ timestamp +:+ ".md".
Proof. unfold save_execution_plan. cbn [truthy]. intros H. default_name_of H. Qed.

Lemma default_name_strategic timestamp d files name files' :
  save_strategic_analysis repr timestamp d None files = inr (name, files') →
  name = "strategic_analysis_" +:+ timestamp +:+ ".md".
Proof. unfold save_strategic_analysis. cbn [truthy]. intros H. default_name_of H. Qed.

Lemma generate_execution_plan_returned user_idea market_report w d w' :
  ExecutionPlanGenerator.generate_execution_plan E user_idea market_report w
  = (Returned d, w') →
  ∃ i m research_data w1,
    ExecutionPlanGenerator.planning_call E i m research_data w1 = (Returned d, w').
Proof.
  unfold ExecutionPlanGenerator.generate_execution_plan. intros Hrun.
  apply bind_returned in Hrun as (i & w1 & _ & Hrun).
  apply bind_returned in Hrun as (m & w2 & _ & Hrun).
  rewrite research_then_plan in Hrun.
  destruct (research_data_after _) as [research_data|]; [|discriminate].
  eauto 8.
Qed.

(** X6.  Whatever the backend answers and whatever was typed on the console,
    what a stage function returns can be handed to its report writer: the
    writer does not raise and writes one file, for the dictionary of a
    failure as for that of a completion. *)
Theorem stage_results_can_be_saved (timestamp : string) (filename : option string)
    (files : gmap string string) (w : world) :
  (∀ user_idea d w',
     MarketResearchAnalysis.analyze_market_opportunity E user_idea w = (Returned d, w') →
     ∃ name content,
       save_analysis_report repr timestamp d filename files
       = inr (name, <[name := content]> files))
  ∧ (∀ user_idea market_report d w',
       ExecutionPlanGenerator.generate_execution_plan E user_idea market_report w
       = (Returned d, w') →
       ∃ name content,
         save_execution_plan repr slice_of_dict timestamp d filename files
         = inr (name, <[name := content]> files))
  ∧ (∀ user_idea market_report execution_plan d w',
       StrategicAnalyzer.analyze_strategy E user_idea market_report execution_plan w
       = (Returned (Some d), w') →
       ∃ name content,
         save_strategic_analysis repr timestamp d filename files
         = inr (name, <[name := content]> files)).
Proof.
  split; [|split].
  - intros user_idea d w' Hrun. by eapply market_result_is_saved.
  - intros user_idea market_report d w' Hrun.
    apply generate_execution_plan_returned in Hrun as (i & m & research_data & w1 & Hplan).
    by eapply plan_result_is_saved.
  - intros user_idea market_report execution_plan d w' Hrun.
    apply analyze_strategy_returned in Hrun as (i & m & p & w1 & Hrun).
    by eapply strategic_result_is_saved.
Qed.

(** X7.  [main] of the market research reads the idea, runs the stage and
    ends without an exception.  It saves a report, under the default name,
    exactly when the stage succeeded: a completion arrived within the three
    attempts and its usage is not [None].  It writes nothing when no
    completion arrived, and nothing when the completion's usage is [None],
    which the stage reports as an error. *)
Lemma market_research_main_run files w user_idea rest :
  stdin w = user_idea :: rest →
  ∃ files' w',
    Cli.market_research_main E strftime_now repr files w = (Returned (files', None), w')
    ∧ calls w'
      = calls w ++ replicate (S (final_attempt E (MarketResearch user_idea) w))
                     (request_of (MarketResearch user_idea))
    ∧ (if succeeded E (MarketResearch user_idea) w then
         ∃ content,
           files' = <[ "market_research_analysis_" +:+ strftime_now (length (trace w'))
                       +:+ ".md" := content ]> files
       else files' = files)
    ∧ (¬ Spec.completes_within E (ncalls w) (request_of (MarketResearch user_idea))
           Spec.max_attempts →
       files' = files)
    ∧ (∀ c, final_outcome E (MarketResearch user_idea) w = Completed c →
            usage c = IsNone → files' = files).
Proof.
  intros Hin.
  change Spec.max_attempts with (S (retries (MarketResearch user_idea))).
  pose proof (stage_completes_iff E (MarketResearch user_idea) w) as Hc.
  unfold Cli.market_research_main. unfold mbind at 1. unfold M_bind at 1.
  unfold input at 1. rewrite Hin.
  set (w0 := {| trace := trace w; stdin := rest; stdout := stdout w |}).
  pose proof (analyze_market_opportunity_run E user_idea w0) as Hrun. cbv zeta in Hrun.
  destruct (market_result_is_saved repr TypeError E
              (strftime_now (length (trace (extend w0 (retry_trace
                 (final_attempt E (MarketResearch user_idea) w0)
                 (request_of (MarketResearch user_idea)) 61)))))
              None files _ _ _ _ Hrun) as (name & body & Hsave).
  rewrite (bind_run _ _ _ _ _ Hrun). clear Hrun.
  unfold succeeded.
  change (final_attempt E (MarketResearch user_idea) w0)
    with (final_attempt E (MarketResearch user_idea) w) in *.
  change (final_outcome E (MarketResearch user_idea) w0)
    with (final_outcome E (MarketResearch user_idea) w) in *.
  set (w1 := extend w0 _) in *.
  assert (calls w1 = calls w ++ replicate (S (final_attempt E (MarketResearch user_idea) w))
                                  (request_of (MarketResearch user_idea))) as Hcalls
    by apply (calls_retry_trace w0).
  assert (∀ d : gmap string pyval, d !! "error" ≠ None → "error" ∈ dom d) as Herr.
  { intros d Hd. apply elem_of_dom. by destruct (d !! "error"). }
  revert Hc Hsave.
  destruct (final_outcome E (MarketResearch user_idea) w) as [c|cls msg] eqn:Hfin;
    cbn [is_completed]; intros Hc Hsave.
  - destruct (usable (MarketResearch user_idea) c) eqn:Husable.
    + rewrite bool_decide_eq_false_2 by apply success_dict_keys.
      assert (MarketResearchAnalysis.success_dict user_idea c
                (isoformat_now E (length (trace w1))) (tokens_value c)
              !! "market_research_analysis"
              = Some (of_text (content (choice0 c)))) as -> by reflexivity.
      assert (∃ v,
                (if py_truthy (get (MarketResearchAnalysis.success_dict user_idea c
                                      (isoformat_now E (length (trace w1)))
                                      (tokens_value c))
                                 "web_search_data" VNone)
                 then subscript_in (MarketResearchAnalysis.success_dict user_idea c
                                      (isoformat_now E (length (trace w1)))
                                      (tokens_value c))
                        "analysis_metadata" "web_searches_performed"
                 else inr VNone) = inr v) as [v ->]
        by (destruct (py_truthy _); eexists; reflexivity).
      unfold mbind, M_bind, Cli.now_strftime, mret, M_ret. rewrite Hsave.
      cbn [Cli.ended].
      eexists _, _. split; [reflexivity|]. split; [exact Hcalls|].
      split; [exists body; by rewrite (default_name_market _ _ _ _ _ Hsave)|].
      split; [intros Hno; destruct Hno; by apply Hc|].
      intros c' [= <-] Hnone. unfold usable in Husable. rewrite Hnone in Husable.
      discriminate.
    + rewrite bool_decide_eq_true_2 by (apply Herr; discriminate).
      eexists _, _. split; [reflexivity|]. split; [exact Hcalls|]. split; [done|].
      split; [|done]. intros Hno. destruct Hno. by apply Hc.
  - destruct cls;
      (rewrite bool_decide_eq_true_2 by (apply Herr; discriminate));
      (eexists _, _; split; [reflexivity|]; split; [exact Hcalls|]);
      (split; [done|]); (split; [done|]); intros c' Hc'; discriminate.
Qed.

(** X8.  [main] of the execution planner reads the idea and the report from
    the console and runs the web research.  On the text the research gave
    it makes the one planning call and ends without an exception, having
    saved a plan, under the default name, exactly when the planning call
    completed.  When the web research completed with a text that is
    [None], the slice of the planning prompt raises: [main] ends on
    [TypeError] after the attempts of the web research, with no planning
    call made and no file written. *)
Lemma execution_plan_main_run files w user_idea market_report rest :
  stdin w = user_idea :: market_report :: rest →
  let s := WebResearch user_idea market_report in
  let w1 :=
    extend {| trace := trace w; stdin := rest; stdout := stdout w |}
      (retry_trace (final_attempt E s w) (request_of s) 61) in
  match research_data_after (final_outcome E s w) with
  | None =>
      Cli.execution_plan_main E strftime_now repr slice_of_dict files w
      = (Raised none_not_subscriptable, w1)
  | Some research_data =>
      let p := ExecutionPlanning user_idea market_report research_data in
      ∃ files',
        Cli.execution_plan_main E strftime_now repr slice_of_dict files w
        = (Returned (files', None), log (ECall (request_of p)) w1)
        ∧ match create E (ncalls w1) (request_of p) with
          | Completed _ =>
              ∃ body,
                files' = <[ "execution_plan_"
                            +:+ strftime_now (length (trace (log (ECall (request_of p)) w1)))
                            +:+ ".md" := body ]> files
          | Failed _ _ => files' = files
          end
  end.
Proof.
  intros Hin. cbv zeta.
  unfold Cli.execution_plan_main, ExecutionPlanGenerator.generate_execution_plan.
  cbn [truthy]. unfold mbind, M_bind, input. rewrite Hin. cbn [stdin trace stdout].
  set (w0 := {| trace := trace w; stdin := rest; stdout := stdout w |}).
  destruct (research_data_is_text E user_idea market_report w0)
    as (web_research & w1 & Hweb & Hw1 & _ & Hdata).
  change (final_attempt E (WebResearch user_idea market_report) w0)
    with (final_attempt E (WebResearch user_idea market_report) w) in *.
  change (final_outcome E (WebResearch user_idea market_report) w0)
    with (final_outcome E (WebResearch user_idea market_report) w) in *.
  rewrite Hweb, Hdata. subst w1. set (w1 := extend w0 _).
  destruct (research_data_after _) as [research_data|]; [|reflexivity].
  cbn [ExecutionPlanGenerator.plan_from_research].
  destruct (plan_result_is_saved repr slice_of_dict E
              (strftime_now (length (trace (log (ECall (request_of
                 (ExecutionPlanning user_idea market_report research_data))) w1))))
              None files _ _ _ _ _ _
              (planning_call_run E user_idea market_report research_data w1))
    as (name & body & Hsave).
  rewrite planning_call_run.
  destruct (create E (ncalls w1) _) as [c|cls msg].
  - rewrite bool_decide_eq_false_2 by (apply not_elem_of_dom; reflexivity).
    match goal with |- context [list_to_map ?l !! "execution_plan"] =>
      change (list_to_map l !! "execution_plan")
        with (Some (of_text (content (choice0 c)))) end.
    unfold Cli.now_strftime, mret, M_ret. rewrite Hsave. cbn [Cli.ended].
    eexists. split; [reflexivity|].
    exists body. by rewrite (default_name_plan _ _ _ _ _ Hsave).
  - rewrite bool_decide_eq_true_2 by (apply elem_of_dom; eexists; reflexivity).
    eexists. split; reflexivity.
Qed.

(** X9.  [main] of the strategic analyzer, asked for the quick SWOT analysis:
    one request, no file, no exception. *)
Lemma strategic_main_swot files w choice user_idea rest :
  stdin w = choice :: user_idea :: rest →
  strip choice = "2" →
  Cli.strategic_main E strftime_now repr files w
  = (Returned (files, None),
     log (ECall (StrategicAnalyzer.swot_request user_idea))
       {| trace := trace w; stdin := rest; stdout := stdout w |}).
Proof.
  intros Hin Hchoice. unfold Cli.strategic_main.
  unfold mbind at 1. unfold M_bind at 1.
  unfold fmap, M_fmap, mbind, M_bind, input, mret, M_ret. rewrite Hin, Hchoice.
  change (String.eqb "2" "2") with true. cbn [stdin trace stdout].
  rewrite quick_swot_analysis_run. reflexivity.
Qed.

(** X10.  [main] of the strategic analyzer on any other choice: the full
    analysis; it saves a report and sends the SWOT request exactly when
    the dictionary of the analysis has no ['error'] key, it stops without
    either when it has one, and the one exception it can end on is the end
    of the console during the dialogue of [analyze_strategy]. *)
Lemma strategic_main_full files w choice rest :
  stdin w = choice :: rest →
  strip choice ≠ "2" →
  match
    StrategicAnalyzer.analyze_strategy E None None None
      {| trace := trace w; stdin := rest; stdout := stdout w |}
  with
  | (Raised e, w1) =>
      e = EOFError ∧ Cli.strategic_main E strftime_now repr files w = (Raised e, w1)
  | (Returned None, _) => False
  | (Returned (Some d), w1) =>
      if bool_decide ("error" ∈ dom d) then
        Cli.strategic_main E strftime_now repr files w = (Returned (files, None), w1)
      else
        ∃ user_idea body,
          d !! "user_idea" = Some (VStr user_idea)
          ∧ Cli.strategic_main E strftime_now repr files w
            = (Returned
                 (<[ "strategic_analysis_" +:+ strftime_now (length (trace w1))
                     +:+ ".md" := body ]> files, None),
               log (ECall (StrategicAnalyzer.swot_request user_idea)) w1)
  end.
Proof.
  intros Hin Hchoice.
  set (w0 := {| trace := trace w; stdin := rest; stdout := stdout w |}).
  assert (∀ k1 k2 : M (gmap string string * option py_error),
            ((strip <$> input) ≫= (λ c, if String.eqb c "2" then k1 else k2)) w = k2 w0)
    as Hchoose.
  { intros k1 k2. unfold fmap, M_fmap, mbind, M_bind, input, mret, M_ret.
    rewrite Hin. apply String.eqb_neq in Hchoice. by rewrite Hchoice. }
  unfold Cli.strategic_main. rewrite !Hchoose. clear Hchoose.
  destruct (StrategicAnalyzer.analyze_strategy E None None None w0)
    as [[r|e] w1] eqn:Hrun; rewrite (bind_run _ _ _ _ _ Hrun).
  2: { by destruct (analyze_strategy_console E None None None _ _ _ Hrun) as (-> & _). }
  apply analyze_strategy_returned in Hrun as (i & m & p & w2 & Hrun).
  rewrite run_analysis_run in Hrun. simplify_eq.
  destruct (strategic_result_is_saved repr TypeError E
              (strftime_now (length (trace (extend w2 (retry_trace
                 (final_attempt E (StrategicAnalysis i m p) w2)
                 (request_of (StrategicAnalysis i m p)) 61)))))
              None files _ _ _ _ _ _ (run_analysis_run E i m p w2))
    as (name & body & Hsave).
  set (w1 := extend w2 _) in *.
  destruct (final_outcome E (StrategicAnalysis i m p) w2) as [c|cls msg].
  - unfold usable in *. destruct (usage c).
    2: { by rewrite bool_decide_eq_true_2 by (apply elem_of_dom; eexists; reflexivity). }
    all: set (d := StrategicAnalyzer.success_dict i m p c _ _) in *;
      assert ("error" ∉ dom d) as Herr by (apply not_elem_of_dom; reflexivity);
      assert (d !! "strategic_analysis" = Some (of_text (content (choice0 c)))) as Htext
        by reflexivity;
      assert (d !! "user_idea" = Some (VStr i)) as Hidea by reflexivity;
      clearbody d;
      rewrite bool_decide_eq_false_2 by done;
      exists i, body; (split; [done|]);
      rewrite Htext; unfold mbind at 1; unfold M_bind at 1; unfold Cli.now_strftime at 1;
      rewrite Hsave, Hidea; cbn [py_str];
      unfold mbind, M_bind; rewrite quick_swot_analysis_run; unfold mret, M_ret;
      by rewrite (default_name_strategic _ _ _ _ _ Hsave).
  - by destruct cls;
      (rewrite bool_decide_eq_true_2 by (apply elem_of_dom; eexists; reflexivity)).
Qed.

End CommandLine.

(** ** The chatbot on the reports it finds *)

Section ChatbotMain.

Variable E : env.

(** What [load_report] gives is read off the file alone: its content, the
    placeholder for a missing file, the exception for another failure. *)
Lemma load_report_run path w :
  Chatbot.load_report E path w
  = (match files E path with
     | FileContent s => Returned s
     | FileMissing => Returned ("[[REPORT NOT FOUND: " +:+ path +:+ "]]")
     | FileUnreadable msg => Raised (OSError msg)
     end, w).
Proof.
  unfold Chatbot.load_report, try_except, read_file.
  by destruct (files E path).
Qed.

(** X15.  The chatbot, once its three reports are loaded (from the file or as the
    placeholder of a missing one), never raises: it sends one request for
    each question asked, built on the three loaded texts, and never
    suspends. *)
Theorem chatbot_main_run (mr ep sa : string) (w : world) :
  Chatbot.load_report E "market_research_analysis.md" w = (Returned mr, w) →
  Chatbot.load_report E "execution_plan.md" w = (Returned ep, w) →
  Chatbot.load_report E "strategic_analysis.md" w = (Returned sa, w) →
  ∃ w',
    Chatbot.main E w = (Returned tt, w')
    ∧ calls w'
      = calls w
        ++ map (λ q, Chatbot.request_of (Chatbot.build_prompt mr ep sa q))
             (asked_questions (stdin w))
    ∧ sleeps w' = sleeps w.
Proof.
  intros Hmr Hep Hsa. unfold Chatbot.main.
  rewrite (bind_run _ _ _ _ _ Hmr), (bind_run _ _ _ _ _ Hep), (bind_run _ _ _ _ _ Hsa).
  unfold mbind, M_bind, print, Chatbot.console_left, mret, M_ret.
  cbn [stdin trace stdout].
  match goal with |- context [Chatbot.chat_loop E ?f mr ep sa ?w1] =>
    destruct (chat_loop_run E f mr ep sa w1) as (w' & Hrun & Hcalls & Hsleeps) end.
  { cbn [stdin]. lia. }
  exists w'. split; [exact Hrun|]. split; [exact Hcalls|exact Hsleeps].
Qed.

(** X16.  A report that is there but cannot be read ends the chatbot on that
    exception before it prints a line, reads one or sends a request. *)
Theorem chatbot_main_unreadable (path msg : string) (w : world) :
  path ∈ ["market_research_analysis.md"; "execution_plan.md"; "strategic_analysis.md"] →
  files E path = FileUnreadable msg →
  ∃ msg', Chatbot.main E w = (Raised (OSError msg'), w).
Proof.
  intros Hpath Hfile. unfold Chatbot.main.
  rewrite (bind_run _ _ _ _ _ (load_report_run _ w)).
  destruct (files E "market_research_analysis.md") as [mr| |msg1] eqn:H1.
  3: by exists msg1.
  all: rewrite (bind_run _ _ _ _ _ (load_report_run _ w)).
  all: destruct (files E "execution_plan.md") as [ep| |msg2] eqn:H2; try by exists msg2.
  all: rewrite (bind_run _ _ _ _ _ (load_report_run _ w)).
  all: destruct (files E "strategic_analysis.md") as [sa| |msg3] eqn:H3; try by exists msg3.
  all: exfalso; repeat (apply elem_of_cons in Hpath as [->|Hpath]; [congruence|]).
  all: by apply elem_of_nil in Hpath.
Qed.

End ChatbotMain.

(** ** The dashboard: session state, reset, chat and the strategic step *)

Section DashboardFacts.

Variable E : env.

Lemma init_key_lookup key v s key' :
  Dashboard.init_key key v s !! key'
  = match s !! key' with
    | Some v' => Some v'
    | None => if bool_decide (key' = key) then Some v else None
    end.
Proof.
  unfold Dashboard.init_key.
  destruct (s !! key) as [v0|] eqn:Hkey.
  - destruct (s !! key') eqn:Hkey'; [done|].
    rewrite bool_decide_eq_false_2; [done|]. intros ->. congruence.
  - destruct (decide (key' = key)) as [->|Hne].
    + by rewrite lookup_insert_eq, Hkey, bool_decide_eq_true_2.
    + rewrite lookup_insert_ne by done.
      rewrite bool_decide_eq_false_2 by done. by destruct (s !! key').
Qed.

Lemma init_session_state_union (getenv : string) (s : gmap string Dashboard.sval) :
  Dashboard.init_session_state getenv s = s ∪ Dashboard.init_session_state getenv ∅.
Proof.
  apply map_eq; intros key. unfold Dashboard.init_session_state.
  rewrite lookup_union, !init_key_lookup, lookup_empty.
  destruct (s !! key); try done;
    repeat case_bool_decide; done.
Qed.

(** X19.  [init_session_state] keeps every value the session state holds and
    adds those of the initial state under the keys that are missing; run
    again, it changes nothing. *)
Theorem init_session_state_keeps (getenv : string) (s : gmap string Dashboard.sval) :
  Dashboard.init_session_state getenv s = s ∪ Dashboard.init_session_state getenv ∅
  ∧ (∀ getenv',
       Dashboard.init_session_state getenv' (Dashboard.init_session_state getenv s)
       = Dashboard.init_session_state getenv s).
Proof.
  split; [apply init_session_state_union|].
  intros getenv'. apply map_eq; intros key.
  unfold Dashboard.init_session_state.
  rewrite !init_key_lookup.
  destruct (s !! key); try done;
    repeat case_bool_decide; done.
Qed.

Ltac in_list := rewrite ?elem_of_cons, ?elem_of_nil; intuition congruence.

Lemma reset_step_lookup key (s : gmap string Dashboard.sval) key' :
  (if bool_decide (key ∈ dom s) then <[key := Dashboard.reset_value key]> s else s) !! key'
  = if bool_decide (key' = key) then (λ _, Dashboard.reset_value key) <$> s !! key else s !! key'.
Proof.
  case_bool_decide as Hdom; case_bool_decide as Hkey; subst.
  - apply elem_of_dom in Hdom as [v ->]. by rewrite lookup_insert_eq.
  - by rewrite lookup_insert_ne.
  - by apply not_elem_of_dom in Hdom as ->.
  - done.
Qed.

Lemma reset_keys_lookup keys (s : gmap string Dashboard.sval) key :
  foldl (λ s key, if bool_decide (key ∈ dom s) then <[key := Dashboard.reset_value key]> s
                  else s) s keys !! key
  = if bool_decide (key ∈ keys) then (λ _, Dashboard.reset_value key) <$> s !! key
    else s !! key.
Proof.
  revert s. induction keys as [|k keys IH]; intros s.
  - rewrite bool_decide_eq_false_2; [done|]. apply not_elem_of_nil.
  - cbn [foldl]. rewrite IH, reset_step_lookup.
    destruct (decide (key = k)) as [->|Hne].
    + rewrite (bool_decide_eq_true_2 (k = k)) by done.
      rewrite (bool_decide_eq_true_2 (k ∈ k :: keys)) by (rewrite elem_of_cons; tauto).
      destruct (bool_decide (k ∈ keys)); by destruct (s !! k).
    + rewrite (bool_decide_eq_false_2 (key = k)) by done.
      destruct (decide (key ∈ keys)) as [Hin|Hin].
      * rewrite (bool_decide_eq_true_2 (key ∈ keys)) by done.
        by rewrite (bool_decide_eq_true_2 (key ∈ k :: keys))
          by (rewrite elem_of_cons; tauto).
      * rewrite (bool_decide_eq_false_2 (key ∈ keys)) by done.
        by rewrite (bool_decide_eq_false_2 (key ∈ k :: keys))
          by (rewrite elem_of_cons; tauto).
Qed.

Lemma reset_all_lookup (s : gmap string Dashboard.sval) key :
  Dashboard.reset_all s !! key
  = if bool_decide (key ∈ ["current_step"; "user_idea"; "market_research";
                           "execution_plan"; "strategic_analysis"; "chat_history"])
    then (λ _, Dashboard.reset_value key) <$> s !! key
    else s !! key.
Proof. apply reset_keys_lookup. Qed.

(** X20.  [Reset All] does not bring the session back to its initial state: the
    step, the idea and the three reports are as in a new session, the API
    key, the [processing] flag and every other key keep their value, but
    [chat_history] is [None] where a new session has the empty list, and
    the next [init_session_state] leaves it so. *)
Theorem reset_all_is_not_initial (getenv getenv' : string) (s : gmap string Dashboard.sval) :
  let initial := Dashboard.init_session_state getenv ∅ in
  let before := Dashboard.init_session_state getenv s in
  let after := Dashboard.init_session_state getenv' (Dashboard.reset_all before) in
  after !! "chat_history" = Some (Dashboard.SPy VNone)
  ∧ initial !! "chat_history" = Some (Dashboard.SPy (VList []))
  ∧ (∀ key,
       key ∈ ["current_step"; "user_idea"; "market_research"; "execution_plan";
              "strategic_analysis"] →
       after !! key = initial !! key)
  ∧ (∀ key,
       key ∉ ["current_step"; "user_idea"; "market_research"; "execution_plan";
              "strategic_analysis"; "chat_history"] →
       after !! key = before !! key).
Proof.
  intros initial before after.
  assert (∀ key, after !! key
                 = if bool_decide (key ∈ ["current_step"; "user_idea"; "market_research";
                           "execution_plan"; "strategic_analysis"; "chat_history"])
                   then (λ _, Dashboard.reset_value key) <$> before !! key
                   else before !! key) as Hafter.
  { intros key. unfold after.
    rewrite init_session_state_union, lookup_union, reset_all_lookup.
    assert (is_Some (before !! key) ∨ Dashboard.init_session_state getenv' ∅ !! key = None)
      as [[v ->]| ->].
    { unfold before, Dashboard.init_session_state.
      rewrite !init_key_lookup, lookup_empty.
      destruct (s !! key); [by left; eexists|].
      repeat (case_bool_decide; [by left; eexists|]). by right. }
    - destruct (bool_decide _); cbn;
        by destruct (Dashboard.init_session_state getenv' ∅ !! key).
    - destruct (bool_decide _); by destruct (before !! key). }
  assert (∀ key, key ∈ ["api_key"; "current_step"; "user_idea"; "market_research";
                        "execution_plan"; "strategic_analysis"; "processing";
                        "chat_history"] →
                 is_Some (before !! key)) as Hbefore.
  { intros key Hkey. unfold before, Dashboard.init_session_state.
    rewrite !init_key_lookup. destruct (s !! key); [by eexists|].
    repeat (apply elem_of_cons in Hkey as [->|Hkey];
            [repeat (case_bool_decide; [by eexists|]); done|]).
    by apply elem_of_nil in Hkey. }
  split; [|split; [|split]].
  - rewrite Hafter, bool_decide_eq_true_2 by in_list.
    by destruct (Hbefore "chat_history") as [v ->]; [in_list|].
  - reflexivity.
  - intros key Hkey. rewrite Hafter.
    rewrite bool_decide_eq_true_2 by (revert Hkey; in_list).
    destruct (Hbefore key) as [v ->]; [revert Hkey; in_list|].
    repeat (apply elem_of_cons in Hkey as [->|Hkey]; [reflexivity|]).
    by apply elem_of_nil in Hkey.
  - intros key Hkey. rewrite Hafter. by rewrite bool_decide_eq_false_2.
Qed.

(** X21.  [Send] in the chat of the dashboard sends one request for a
    question that is not empty.  A completion with a text is recorded,
    stripped, at the end of a [chat_history] that is a list; a failed call,
    and a completion whose text is [None] (its [.strip()] raises inside the
    [try]), leave the list as it is; and a [chat_history] that is no list
    ([None], as after [Reset All]) is left as it is even when the call
    completes: the answer is lost.  A stored text that is [None] is sent
    as the word [None]. *)
Theorem send_chat_records (repr : pyval → string) (user_idea user_question : string)
    (market_research execution_plan strategic_analysis : option (gmap string pyval))
    (w : world) :
  App.stored market_research = true →
  user_question ≠ "" →
  let req :=
    Dashboard.chat_request
      (Dashboard.chat_prompt
         (App.chat_context repr user_idea market_research execution_plan
            strategic_analysis)
         user_question) in
  (∀ history,
     Dashboard.send_chat E repr user_idea market_research execution_plan
       strategic_analysis user_question (VList history) w
     = (Returned
          (VList
             match create E (ncalls w) req with
             | Completed c =>
                 match content (choice0 c) with
                 | Some text =>
                     history ++
                     [VDict (list_to_map
                        [ ("question", VStr user_question);
                          ("answer", VStr (strip text));
                          ("timestamp",
                            VStr (isoformat_now E (length (trace (log (ECall req) w))))) ])]
                 | None => history
                 end
             | Failed _ _ => history
             end),
        log (ECall req) w))
  ∧ (∀ chat_history,
       (∀ history, chat_history ≠ VList history) →
       Dashboard.send_chat E repr user_idea market_research execution_plan
         strategic_analysis user_question chat_history w
       = (Returned chat_history, log (ECall req) w))
  ∧ (∀ d,
       market_research = Some d →
       d !! "market_research_analysis" = Some VNone →
       App.chat_context repr user_idea market_research None None
       = "USER IDEA: " +:+ user_idea +:+ App.nl +:+ App.nl
         +:+ "MARKET RESEARCH:" +:+ App.nl +:+ "None" +:+ "[:3000]" +:+ App.nl +:+ App.nl).
Proof.
  intros Hstored Hquestion req. apply String.eqb_neq in Hquestion.
  unfold Dashboard.send_chat. rewrite Hstored, Hquestion. cbn [negb].
  fold req.
  unfold try_except, mbind, M_bind, create_completion, stripped_content, raise,
    now_isoformat, mret, M_ret.
  split; [|split].
  - intros history. destruct (create E (ncalls w) req) as [c|cls msg]; [|done].
    by destruct (content (choice0 c)).
  - intros chat_history Hnot.
    destruct (create E (ncalls w) req) as [c|cls msg]; [|done].
    destruct (content (choice0 c)); [|done].
    destruct chat_history; try done. by edestruct Hnot.
  - intros d -> Hd. unfold App.chat_context, Reports.get. rewrite Hstored.
    cbn [App.stored negb default]. unfold id. rewrite Hd. cbn [default Reports.py_str].
    by rewrite !append_assoc.
Qed.

Lemma run_strategic_analysis_at_console_end idea market_report execution_plan w :
  stdin w = [] →
  negb (String.eqb idea "") && truthy market_report && truthy execution_plan = false →
  App.run_strategic_analysis E idea market_report execution_plan w = (Raised EOFError, w).
Proof.
  intros Hin Hempty. unfold App.run_strategic_analysis.
  unfold StrategicAnalyzer.analyze_strategy. cbn [truthy default].
  destruct w as [tr console out]; cbn [stdin] in Hin; subst console.
  destruct (String.eqb idea "") eqn:Hi; cbn [negb]; [reflexivity|].
  destruct (truthy market_report) eqn:Hm; [|reflexivity].
  destruct (truthy execution_plan) eqn:He; [discriminate|reflexivity].
Qed.

Lemma truthy_default (given : option string) :
  truthy given = true → given = Some (default "" given) ∧ default "" given ≠ "".
Proof.
  destruct given as [text|]; [|discriminate]. cbn. intros H%negb_true_iff.
  by apply String.eqb_neq in H.
Qed.

(** X22.  The strategic step of the dashboard, which has no console: with the
    idea and the two stored texts not empty it returns a dictionary; with
    one of them empty or [None] (a completion with an empty text is stored
    like any other) [analyze_strategy] asks for it on the console and the
    step ends on [EOFError] before any request is sent. *)
Theorem run_strategic_analysis_needs_texts (idea : string)
    (market_report execution_plan : option string) (w : world) :
  stdin w = [] →
  if negb (String.eqb idea "") && truthy market_report && truthy execution_plan
  then
    ∃ d w',
      App.run_strategic_analysis E idea market_report execution_plan w
      = (Returned (Some d), w')
      ∧ calls w' ≠ calls w
  else
    App.run_strategic_analysis E idea market_report execution_plan w
    = (Raised EOFError, w).
Proof.
  intros Hin.
  destruct (negb (String.eqb idea "") && truthy market_report && truthy execution_plan)
    eqn:Hgiven; [|by apply run_strategic_analysis_at_console_end].
  apply andb_prop in Hgiven as [Hgiven He]. apply andb_prop in Hgiven as [Hi Hm].
  apply negb_true_iff, String.eqb_neq in Hi.
  apply truthy_default in Hm as [-> Hm], He as [-> He].
  unfold App.run_strategic_analysis.
  rewrite analyze_strategy_given by done. rewrite run_analysis_run.
  eexists _, _. split; [reflexivity|].
  rewrite calls_retry_trace. intros Heq.
  apply (f_equal length) in Heq. rewrite length_app, length_replicate in Heq.
  cbn [length] in Heq. lia.
Qed.

Lemma finish_step_int key k result (s : gmap string Dashboard.sval) z :
  key ≠ "current_step" →
  s !! "current_step" = Some (Dashboard.SPy (VInt z)) →
  Dashboard.finish_step key k result s
  = (<["processing" := Dashboard.SBool false]>
       (if bool_decide ("error" ∉ dom result)
        then <["current_step" := Dashboard.SPy (VInt (k `max` z))]>
               (<[key := Dashboard.SPy (VDict result)]> s)
        else s),
     None).
Proof.
  intros Hkey Hstep. unfold Dashboard.finish_step.
  case_bool_decide; [|done].
  by rewrite lookup_insert_ne, Hstep.
Qed.

(** X24.  On a session state whose step is a number, the handler of
    [Generate Market Research] always comes to its end, after one request
    at least: [processing] is reset, and either the report stored before
    and the step are as they were, or a result with no ['error'] key is
    stored and the step becomes the larger of its value and 2.  So does
    the handler of [Generate Execution Plan], with 3 for 2, when the text
    of the stored market research is a [str] and the web research gives a
    text.  When the stored text is [None] it ends on [TypeError] before
    any request, and when the web research completes with a text that is
    [None] it ends on [TypeError] after the attempts of the web research:
    in both cases nothing is stored and [processing] stays set. *)
Theorem generate_steps_store_no_error (user_idea : string)
    (market_report : option string) (s : gmap string Dashboard.sval) (z : Z)
    (w : world) :
  s !! "current_step" = Some (Dashboard.SPy (VInt z)) →
  (∃ s' w',
     Dashboard.market_step E user_idea s w = ((s', None), w')
     ∧ calls w' ≠ calls w
     ∧ s' !! "processing" = Some (Dashboard.SBool false)
     ∧ ((s' !! "market_research" = s !! "market_research"
         ∧ s' !! "current_step" = s !! "current_step")
        ∨ ∃ result,
            ("error" ∉ dom result)
            ∧ s' !! "market_research" = Some (Dashboard.SPy (VDict result))
            ∧ s' !! "current_step" = Some (Dashboard.SPy (VInt (2 `max` z)))))
  ∧ match market_report with
    | None =>
        Dashboard.execution_plan_step E user_idea None s w
        = ((<["processing" := Dashboard.SBool true]> s, Some (inl none_not_subscriptable)),
           w)
    | Some report =>
        let r := WebResearch user_idea report in
        match research_data_after (final_outcome E r w) with
        | None =>
            Dashboard.execution_plan_step E user_idea (Some report) s w
            = ((<["processing" := Dashboard.SBool true]> s,
                Some (inl none_not_subscriptable)),
               extend w (retry_trace (final_attempt E r w) (request_of r) 61))
        | Some _ =>
            ∃ s' w',
              Dashboard.execution_plan_step E user_idea (Some report) s w
              = ((s', None), w')
              ∧ calls w' ≠ calls w
              ∧ s' !! "processing" = Some (Dashboard.SBool false)
              ∧ ((s' !! "execution_plan" = s !! "execution_plan"
                  ∧ s' !! "current_step" = s !! "current_step")
                 ∨ ∃ result,
                     ("error" ∉ dom result)
                     ∧ s' !! "execution_plan" = Some (Dashboard.SPy (VDict result))
                     ∧ s' !! "current_step" = Some (Dashboard.SPy (VInt (3 `max` z))))
        end
    end.
Proof.
  intros Hstep.
  assert (∀ result (key : string) k,
            key = "market_research" ∨ key = "execution_plan" →
            let s' := (Dashboard.finish_step key k result
                         (<["processing" := Dashboard.SBool true]> s)).1 in
            Dashboard.finish_step key k result (<["processing" := Dashboard.SBool true]> s)
            = (s', None)
            ∧ s' !! "processing" = Some (Dashboard.SBool false)
            ∧ ((s' !! key = s !! key ∧ s' !! "current_step" = s !! "current_step")
               ∨ ∃ result,
                   ("error" ∉ dom result)
                   ∧ s' !! key = Some (Dashboard.SPy (VDict result))
                   ∧ s' !! "current_step" = Some (Dashboard.SPy (VInt (k `max` z)))))
    as Hfinish.
  { intros result key0 k0 Hkey0 s'. subst s'.
    rewrite (finish_step_int key0 k0 result _ z);
      [|by destruct Hkey0 as [->| ->]|by rewrite lookup_insert_ne].
    cbn [fst]. split; [done|]. split; [by rewrite lookup_insert_eq|].
    case_bool_decide as Herr.
    - right. exists result. split; [done|]. split.
      + rewrite lookup_insert_ne by (by destruct Hkey0 as [->| ->]).
        rewrite lookup_insert_ne by (by destruct Hkey0 as [->| ->]).
        by rewrite lookup_insert_eq.
      + rewrite lookup_insert_ne by done. by rewrite lookup_insert_eq.
    - left. split.
      + rewrite lookup_insert_ne by (by destruct Hkey0 as [->| ->]).
        by rewrite lookup_insert_ne by (by destruct Hkey0 as [->| ->]).
      + rewrite lookup_insert_ne by done. by rewrite lookup_insert_ne. }
  assert (∀ k req (w1 : world), calls (extend w1 (retry_trace k req 61)) ≠ calls w1)
    as Hcalled.
  { intros k0 req w1 Heq. rewrite calls_retry_trace in Heq.
    apply (f_equal length) in Heq. rewrite length_app, length_replicate in Heq. lia. }
  split.
  - unfold Dashboard.market_step, App.run_market_research.
    pose proof (analyze_market_opportunity_run E user_idea w) as Hrun. cbv zeta in Hrun.
    rewrite Hrun.
    match goal with |- context [Dashboard.finish_step "market_research" 2 ?r _] =>
      destruct (Hfinish r "market_research" 2%Z) as (Hfin & Hproc & Hstored); [by left|]
    end.
    eexists _, _. split; [by rewrite Hfin|]. split; [apply Hcalled|]. by split.
  - pose proof (run_execution_plan_by_research E user_idea market_report w) as Hrun.
    destruct market_report as [report|].
    2: { unfold Dashboard.execution_plan_step. by rewrite Hrun. }
    cbv zeta in *.
    destruct (research_data_after _) as [research_data|].
    2: { unfold Dashboard.execution_plan_step. by rewrite Hrun. }
    destruct Hrun as (d & Hrun & _).
    unfold Dashboard.execution_plan_step. rewrite Hrun.
    destruct (Hfinish d "execution_plan" 3%Z) as (Hfin & Hproc & Hstored); [by right|].
    eexists _, _. split; [by rewrite Hfin|]. split; [|by split].
    rewrite log_extend, calls_extend, calls_retry_trace. intros Heq.
    apply (f_equal length) in Heq. rewrite !length_app, length_replicate in Heq. lia.
Qed.

(** X25.  The handler of [Generate Strategic Analysis] does not always come to
    its end: when the idea or one of the two stored texts is empty or
    [None] and the console has nothing to read, it ends on [EOFError]
    before any request, with [processing] still set; [Reset All] and the
    next [init_session_state] leave it set. *)
Theorem strategic_step_leaves_processing (user_idea : string)
    (market_report execution_plan : option string)
    (s : gmap string Dashboard.sval) (w : world) :
  stdin w = [] →
  user_idea = "" ∨ truthy market_report = false ∨ truthy execution_plan = false →
  ∃ s',
    Dashboard.strategic_step E user_idea market_report execution_plan s w
    = ((s', Some (inl EOFError)), w)
    ∧ s' !! "processing" = Some (Dashboard.SBool true)
    ∧ ∀ getenv,
        Dashboard.init_session_state getenv (Dashboard.reset_all s') !! "processing"
        = Some (Dashboard.SBool true).
Proof.
  intros Hin Hempty.
  assert (negb (String.eqb user_idea "") && truthy market_report && truthy execution_plan
          = false) as Hcond.
  { destruct Hempty as [->|[->| ->]]; [done| |].
    - by rewrite andb_false_r.
    - by rewrite andb_false_r. }
  pose proof (run_strategic_analysis_at_console_end user_idea _ _ w Hin Hcond) as Hrun.
  exists (<["processing" := Dashboard.SBool true]> s).
  unfold Dashboard.strategic_step. rewrite Hrun.
  split; [done|]. split; [by rewrite lookup_insert_eq|].
  intros getenv. rewrite init_session_state_union, lookup_union, reset_all_lookup.
  rewrite bool_decide_eq_false_2 by in_list.
  by rewrite lookup_insert_eq.
Qed.

End DashboardFacts.

(** ** The summaries kept in the result of the strategic analysis *)

Section Summaries.

Variable E : env.

Lemma prefix_append (s t : string) : String.prefix s (s +:+ t) = true.
Proof.
  induction s as [|c s IH]; [by destruct t|].
  change (String c s +:+ t) with (String c (s +:+ t)). cbn [String.prefix].
  by destruct (ascii_dec c c).
Qed.

Lemma summary_length (text : string) :
  len (StrategicAnalyzer.summary text)
  = (if bool_decide (len text ≤ 500)%Z then len text else 503%Z)
  ∧ String.prefix (slice_to 500 text) (StrategicAnalyzer.summary text) = true.
Proof.
  unfold StrategicAnalyzer.summary.
  assert (500 < String.length text ↔ ¬ (len text ≤ 500)%Z) as Hlen by (unfold len; lia).
  case_bool_decide as Hlong.
  - rewrite bool_decide_eq_false_2 by (by apply Hlen). split.
    + rewrite len_append, len_slice_to. change (len "...") with 3%Z.
      apply Hlen in Hlong. lia.
    + apply prefix_append.
  - rewrite bool_decide_eq_true_2 by (unfold len; lia). split; [done|].
    apply slice_to_prefix.
Qed.

Lemma summary_eq (text : string) :
  StrategicAnalyzer.summary text
  = if bool_decide (len text ≤ 500)%Z then text else slice_to 500 text +:+ "...".
Proof.
  unfold StrategicAnalyzer.summary.
  case_bool_decide as Hlong.
  - rewrite bool_decide_eq_false_2; [done|]. unfold len. lia.
  - rewrite bool_decide_eq_true_2; [done|]. unfold len. lia.
Qed.

(** X23.  The dictionary of a completed strategic analysis keeps the idea whole
    and of each report its first 500 characters followed by three dots, or
    the report itself when it has at most 500: a summary never has more
    than 503 characters, and for a report of 501 or 502 characters it is
    longer than the report. *)
Theorem strategic_result_summaries (user_idea market_report execution_plan : string)
    (w w' : world) (d : gmap string pyval) :
  StrategicAnalyzer.run_analysis E user_idea market_report execution_plan w
  = (Returned (Some d), w') →
  "error" ∉ dom d →
  ∃ sm sp,
    sm = (if bool_decide (len market_report ≤ 500)%Z then market_report
          else slice_to 500 market_report +:+ "...")
    ∧ sp = (if bool_decide (len execution_plan ≤ 500)%Z then execution_plan
            else slice_to 500 execution_plan +:+ "...")
    ∧ d !! "user_idea" = Some (VStr user_idea)
    ∧ d !! "market_report_summary" = Some (VStr sm)
    ∧ d !! "execution_plan_summary" = Some (VStr sp)
    ∧ len sm = (if bool_decide (len market_report ≤ 500)%Z then len market_report
                else 503%Z)
    ∧ len sp = (if bool_decide (len execution_plan ≤ 500)%Z then len execution_plan
                else 503%Z)
    ∧ String.prefix (slice_to 500 market_report) sm = true
    ∧ String.prefix (slice_to 500 execution_plan) sp = true.
Proof.
  rewrite run_analysis_run. cbv zeta. intros Hrun Herr. simplify_eq.
  destruct (summary_length market_report) as [Hm1 Hm2].
  destruct (summary_length execution_plan) as [Hp1 Hp2].
  rewrite summary_eq in Hm1, Hm2, Hp1, Hp2.
  eexists _, _. split; [reflexivity|]. split; [reflexivity|].
  revert Herr.
  destruct (final_outcome E _ w) as [c|cls msg].
  - destruct (usage c); intros Herr;
      first [ rewrite <- !summary_eq in *; by repeat split
            | exfalso; apply Herr; apply elem_of_dom; by eexists ].
  - intros Herr. exfalso. apply Herr. apply elem_of_dom. by destruct cls; eexists.
Qed.

End Summaries.

(** ** The properties above on concrete runs *)

Lemma report_writers_write_one_file_witness :
  Example.saved_name = "market_research_analysis_20250101_000000.md"
  ∧ ∃ content,
      Example.saved_files = <[ Example.saved_name := content ]> ∅
      ∧ occurs_in "The market is growing." content.
Proof.
  apply (proj1 (report_writers_write_one_file Example.repr Reports.TypeError
                  (Example.strftime 0) Example.market_research None ∅
                  Example.saved_files Example.saved_name)).
  reflexivity.
Defined.

Lemma saved_report_and_chatbot_witness :
  Example.saved_name ≠ "market_research_analysis.md"
  ∧ Chatbot.load_report (Reports.on_disk (Scenario.scripted []) Example.saved_files)
      "market_research_analysis.md" world0
    = Chatbot.load_report (Reports.on_disk (Scenario.scripted []) ∅)
        "market_research_analysis.md" world0.
Proof.
  destruct (saved_report_and_chatbot Example.repr Reports.TypeError (Scenario.scripted [])
              (Example.strftime 0) Example.market_research None ∅ Example.saved_name
              Example.saved_files "market_research_analysis.md" world0) as [H _];
    [left; reflexivity|left; reflexivity|exact (H eq_refl)].
Defined.

Lemma market_research_main_run_witness :
  ∃ content w',
    Cli.market_research_main (Scenario.scripted []) Example.strftime Example.repr ∅
      (Example.console [Scenario.idea])
    = (Returned (<[ "market_research_analysis_20250101_000000.md" := content ]> ∅, None),
       w').
Proof.
  destruct (market_research_main_run (Scenario.scripted []) Example.strftime Example.repr ∅
              (Example.console [Scenario.idea]) Scenario.idea [] eq_refl)
    as (files' & w' & Hrun & _ & Hyes & _).
  assert (succeeded (Scenario.scripted []) (MarketResearch Scenario.idea)
            (Example.console [Scenario.idea]) = true) as Hs by reflexivity.
  rewrite Hs in Hyes. destruct Hyes as [content ->].
  by exists content, w'.
Defined.

Lemma execution_plan_main_run_witness :
  Cli.execution_plan_main Example.without_text Example.strftime Example.repr
    Reports.TypeError ∅ (Example.console [Scenario.idea; "The market is growing."])
  = (Raised none_not_subscriptable,
     extend (Example.console []) [ECall (request_of Scenario.web_stage)]).
Proof.
  exact (execution_plan_main_run Example.without_text Example.strftime Example.repr
           Reports.TypeError ∅
           (Example.console [Scenario.idea; "The market is growing."])
           Scenario.idea "The market is growing." [] eq_refl).
Defined.

Lemma strategic_main_swot_witness :
  Cli.strategic_main (Scenario.scripted []) Example.strftime Example.repr ∅
    (Example.console ["2"; Scenario.idea])
  = (Returned (∅, None),
     log (ECall (StrategicAnalyzer.swot_request Scenario.idea)) (Example.console [])).
Proof.
  apply (strategic_main_swot (Scenario.scripted []) Example.strftime Example.repr ∅
           (Example.console ["2"; Scenario.idea]) "2" Scenario.idea []);
    reflexivity.
Defined.

Lemma strategic_main_full_witness :
  match
    StrategicAnalyzer.analyze_strategy (Scenario.scripted []) None None None
      (Example.console [Scenario.idea; "2"; "market.md"; "2"; "plan.md"])
  with
  | (Raised e, w1) =>
      e = EOFError
      ∧ Cli.strategic_main (Scenario.scripted []) Example.strftime Example.repr ∅
          (Example.console ["1"; Scenario.idea; "2"; "market.md"; "2"; "plan.md"])
        = (Raised e, w1)
  | (Returned None, _) => False
  | (Returned (Some d), w1) =>
      if bool_decide ("error" ∈ dom d) then
        Cli.strategic_main (Scenario.scripted []) Example.strftime Example.repr ∅
          (Example.console ["1"; Scenario.idea; "2"; "market.md"; "2"; "plan.md"])
        = (Returned (∅, None), w1)
      else
        ∃ user_idea body,
          d !! "user_idea" = Some (VStr user_idea)
          ∧ Cli.strategic_main (Scenario.scripted []) Example.strftime Example.repr ∅
              (Example.console ["1"; Scenario.idea; "2"; "market.md"; "2"; "plan.md"])
            = (Returned
                 (<[ "strategic_analysis_" +:+ Example.strftime (length (trace w1))
                     +:+ ".md" := body ]> ∅, None),
               log (ECall (StrategicAnalyzer.swot_request user_idea)) w1)
  end.
Proof.
  apply (strategic_main_full (Scenario.scripted []) Example.strftime Example.repr ∅
           (Example.console ["1"; Scenario.idea; "2"; "market.md"; "2"; "plan.md"])
           "1" [Scenario.idea; "2"; "market.md"; "2"; "plan.md"]).
  - reflexivity.
  - discriminate.
Defined.

Lemma analyze_strategy_raises_at_console_end_witness :
  EOFError = EOFError ∧ trace world0 = trace world0 ∧ stdin world0 = []
  ∧ truthy None && truthy None && truthy None = false.
Proof.
  apply (analyze_strategy_raises_at_console_end (Scenario.scripted []) None None None
           world0 world0 EOFError).
  reflexivity.
Defined.

Lemma generate_execution_plan_raises_at_console_end_witness :
  (none_not_subscriptable = EOFError
   ∧ trace (extend world0 [ECall (request_of Scenario.web_stage)]) = trace world0
   ∧ stdin (extend world0 [ECall (request_of Scenario.web_stage)]) = []
   ∧ truthy (Some Scenario.idea) && truthy (Some "The market is growing.") = false)
  ∨ (none_not_subscriptable = none_not_subscriptable
     ∧ ∃ idea report w0,
         let s := WebResearch idea report in
         trace w0 = trace world0
         ∧ (∃ c, final_outcome Example.without_text s w0 = Completed c
                 ∧ content (choice0 c) = None)
         ∧ extend world0 [ECall (request_of Scenario.web_stage)]
           = extend w0 (retry_trace (final_attempt Example.without_text s w0)
                          (request_of s) 61)).
Proof.
  apply (proj1 (generate_execution_plan_raises_at_console_end Example.without_text
                  (Some Scenario.idea) (Some "The market is growing.") world0)
           none_not_subscriptable
           (extend world0 [ECall (request_of Scenario.web_stage)])).
  reflexivity.
Defined.

Lemma analyze_strategy_from_files_witness :
  StrategicAnalyzer.analyze_strategy (Scenario.scripted []) None None None
    (Example.console [Scenario.idea; "2"; "market.md"; "2"; "plan.md"])
  = StrategicAnalyzer.run_analysis (Scenario.scripted []) Scenario.idea
      "Market research not available" "Execution plan not available"
      (Example.console []).
Proof.
  apply (analyze_strategy_from_files (Scenario.scripted []) Scenario.idea
           "2" "market.md" "2" "plan.md" []
           (Example.console [Scenario.idea; "2"; "market.md"; "2"; "plan.md"]));
    [reflexivity|discriminate|discriminate].
Defined.

Lemma chatbot_main_run_witness :
  ∃ w',
    Chatbot.main (Scenario.scripted []) (Example.console ["What is the market size?"; "exit"])
    = (Returned tt, w')
    ∧ calls w'
      = calls (Example.console ["What is the market size?"; "exit"])
        ++ map (λ q, Chatbot.request_of (Chatbot.build_prompt
                  "[[REPORT NOT FOUND: market_research_analysis.md]]"
                  "[[REPORT NOT FOUND: execution_plan.md]]"
                  "[[REPORT NOT FOUND: strategic_analysis.md]]" q))
             (asked_questions (stdin (Example.console ["What is the market size?"; "exit"])))
    ∧ sleeps w' = sleeps (Example.console ["What is the market size?"; "exit"]).
Proof.
  apply (chatbot_main_run (Scenario.scripted [])
           "[[REPORT NOT FOUND: market_research_analysis.md]]"
           "[[REPORT NOT FOUND: execution_plan.md]]"
           "[[REPORT NOT FOUND: strategic_analysis.md]]"
           (Example.console ["What is the market size?"; "exit"]));
    reflexivity.
Defined.

Lemma chatbot_main_unreadable_witness :
  ∃ msg, Chatbot.main Example.plan_unreadable world0 = (Raised (OSError msg), world0).
Proof.
  apply (chatbot_main_unreadable Example.plan_unreadable "execution_plan.md"
           "Permission denied" world0).
  - apply elem_of_cons. right. apply elem_of_cons. left. reflexivity.
  - reflexivity.
Defined.

Lemma chat_context_keeps_report_witness :
  App.chat_context Example.repr Scenario.idea (Some Example.market_research) None None
  = "USER IDEA: " +:+ Scenario.idea +:+ App.nl +:+ App.nl
    +:+ "MARKET RESEARCH:" +:+ App.nl +:+ "The market is growing." +:+ "[:3000]"
    +:+ App.nl +:+ App.nl.
Proof.
  apply (chat_context_keeps_report Example.repr Scenario.idea Example.market_research
           "The market is growing.").
  reflexivity.
Defined.

Lemma send_chat_records_witness :
  Dashboard.send_chat (Scenario.scripted []) Example.repr Scenario.idea
    (Some Example.market_research) None None "What is the market size?" VNone world0
  = (Returned VNone,
     log (ECall (Dashboard.chat_request
                   (Dashboard.chat_prompt
                      (App.chat_context Example.repr Scenario.idea
                         (Some Example.market_research) None None)
                      "What is the market size?")))
       world0).
Proof.
  destruct (send_chat_records (Scenario.scripted []) Example.repr Scenario.idea
              "What is the market size?" (Some Example.market_research) None None world0)
    as (_ & H & _); [reflexivity|discriminate|].
  apply H. discriminate.
Defined.

Lemma run_strategic_analysis_needs_texts_witness :
  App.run_strategic_analysis (Scenario.scripted []) Scenario.idea None
    (Some "Phase 1: foundation.") world0
  = (Raised EOFError, world0).
Proof.
  exact (run_strategic_analysis_needs_texts (Scenario.scripted []) Scenario.idea None
           (Some "Phase 1: foundation.") world0 eq_refl).
Defined.

Lemma strategic_result_summaries_witness :
  ∃ sm,
    Example.analysed_dict !! "market_report_summary" = Some (VStr sm)
    ∧ len sm = (if bool_decide (len "The market is growing." ≤ 500)%Z
                then len "The market is growing." else 503%Z).
Proof.
  destruct (strategic_result_summaries (Scenario.scripted []) Scenario.idea
              "The market is growing." "Phase 1: foundation." world0
              Example.analysed.2 Example.analysed_dict)
    as (sm & sp & _ & _ & _ & Hsm & _ & Hlen & _).
  - reflexivity.
  - apply not_elem_of_dom. reflexivity.
  - by exists sm.
Defined.

Lemma generate_steps_store_no_error_witness :
  Dashboard.execution_plan_step Example.without_text Scenario.idea
    (Some "The market is growing.") Example.new_session world0
  = ((<["processing" := Dashboard.SBool true]> Example.new_session,
      Some (inl none_not_subscriptable)),
     extend world0 [ECall (request_of Scenario.web_stage)]).
Proof.
  exact (proj2 (generate_steps_store_no_error Example.without_text Scenario.idea
                  (Some "The market is growing.") Example.new_session 1%Z world0 eq_refl)).
Defined.

Lemma strategic_step_leaves_processing_witness :
  ∃ s',
    Dashboard.strategic_step (Scenario.scripted []) Scenario.idea None
      (Some "Phase 1: foundation.") Example.new_session world0
    = ((s', Some (inl EOFError)), world0)
    ∧ s' !! "processing" = Some (Dashboard.SBool true)
    ∧ ∀ getenv,
        Dashboard.init_session_state getenv (Dashboard.reset_all s') !! "processing"
        = Some (Dashboard.SBool true).
Proof.
  apply (strategic_step_leaves_processing (Scenario.scripted []) Scenario.idea
           None (Some "Phase 1: foundation.") Example.new_session world0).
  - reflexivity.
  - right. left. reflexivity.
Defined.
